(** * Instrumentation decorators: a shallow embedding of [instrumentator.py]

    The module wraps request handlers of a Flask or FastAPI application
    and records Prometheus metrics from the request parameters or from the
    response body.  This development embeds

    - the Python values that request and response views hold, with the
      operations [search_json] and the wrappers use on them (iteration,
      indexing, equality, ordering, truth value, attribute access);
    - [search_json];
    - the four view adapters and the choice [Instrumentation.__init__]
      makes between them;
    - the nine decorator factories and their wrappers, over an explicit
      state that holds the metric objects.

    Exceptions are explicit: every operation that can raise returns a
    [res]. *)

From Stdlib Require Import ZArith QArith String Ascii List Lia.
From Stdlib Require Import DecimalString.
From stdpp Require Import base option list strings gmap.

Local Open Scope string_scope.
Local Open Scope list_scope.

(** ** Exceptions and results *)

Inductive exn : Type :=
| TypeError | KeyError | IndexError | AttributeError | NameError
| ValueError | RecursionError | JSONDecodeError | UnicodeDecodeError
| ConfigError    (* the plain [Exception] raised by [__init__] *)
| HandlerError (tag : nat).  (* whatever a handler itself raises *)

Inductive res (A : Type) : Type :=
| Ok (a : A)
| Raise (e : exn).
Arguments Ok {A} a.
Arguments Raise {A} e.

Definition res_bind {A B} (m : res A) (k : A -> res B) : res B :=
  match m with
  | Ok a => k a
  | Raise e => Raise e
  end.

(** [try: body except: handler] with a bare [except]. *)
Definition try_except {A} (body : res A) (handler : exn -> res A) : res A :=
  match body with
  | Ok a => Ok a
  | Raise e => handler e
  end.

Declare Scope res_scope.
Delimit Scope res_scope with res.
Notation "'let?' x ':=' m 'in' k" := (res_bind m (fun x => k))
  (at level 10, x name, m at level 100, k at level 200) : res_scope.
Local Open Scope res_scope.

(** ** Python values

    The values a view can hold: what [json.loads] produces, what a handler
    receives as keyword arguments, and plain objects with data attributes
    (the feedback object of [count_false_binary_feedback]).  A dict keeps
    its insertion order; its keys are strings, as in JSON and in [**kwargs].
    A float is a finite double, given by its exact rational value. *)

#[local] Unset Elimination Schemes.
Inductive pyval : Type :=
| PNone
| PBool (b : bool)
| PInt (z : Z)
| PFloat (q : Q)
| PStr (s : string)
| PList (l : list pyval)
| PDict (d : list (string * pyval))
| PObj (oid : nat) (attrs : list (string * pyval)).
#[local] Set Elimination Schemes.

(** [d[k]] on the items of a dict, and the attribute table of an object. *)
Fixpoint dict_get {V} (k : string) (d : list (string * V)) : option V :=
  match d with
  | [] => None
  | (k', v) :: d' => if String.eqb k' k then Some v else dict_get k d'
  end.

(** [bool] is a subclass of [int]; numbers compare across bool, int and
    float by value. *)
Definition as_number (v : pyval) : option Q :=
  match v with
  | PBool b => Some (if b then 1%Q else 0%Q)
  | PInt z => Some (inject_Z z)
  | PFloat q => Some q
  | _ => None
  end.

Definition as_index (v : pyval) : option Z :=
  match v with
  | PBool b => Some (if b then 1%Z else 0%Z)
  | PInt z => Some z
  | _ => None
  end.

Definition is_none (v : pyval) : bool :=
  match v with PNone => true | _ => false end.

(** [bool(v)] *)
Definition py_truthy (v : pyval) : bool :=
  match v with
  | PNone => false
  | PBool b => b
  | PInt z => negb (z =? 0)%Z
  | PFloat q => negb (Qeq_bool q 0)
  | PStr s => negb (String.eqb s EmptyString)
  | PList l => match l with [] => false | _ => true end
  | PDict d => match d with [] => false | _ => true end
  | PObj _ _ => true
  end.

(** [a == b].  Dicts are equal when they bind the same keys to equal
    values, whatever the order; objects are equal when they are the same
    object. *)
Fixpoint py_eq (a b : pyval) {struct a} : bool :=
  match as_number a, as_number b with
  | Some x, Some y => Qeq_bool x y
  | _, _ =>
    match a, b with
    | PNone, PNone => true
    | PStr s, PStr t => String.eqb s t
    | PList l, PList m =>
      (fix go (l m : list pyval) {struct l} : bool :=
         match l, m with
         | [], [] => true
         | x :: l', y :: m' => py_eq x y && go l' m'
         | _, _ => false
         end) l m
    | PDict d, PDict e =>
      Nat.eqb (length d) (length e) &&
      (fix go (d : list (string * pyval)) {struct d} : bool :=
         match d with
         | [] => true
         | (k, v) :: d' =>
           match dict_get k e with
           | Some w => py_eq v w
           | None => false
           end && go d'
         end) d
    | PObj i _, PObj j _ => Nat.eqb i j
    | _, _ => false
    end
  end.

(** The ordering behind [<] and [>]: numbers by value, strings and lists
    lexicographically; every other pair raises [TypeError]. *)
Fixpoint py_cmp (a b : pyval) {struct a} : res comparison :=
  match as_number a, as_number b with
  | Some x, Some y => Ok (x ?= y)%Q
  | _, _ =>
    match a, b with
    | PStr s, PStr t => Ok (String.compare s t)
    | PList l, PList m =>
      (fix go (l m : list pyval) {struct l} : res comparison :=
         match l, m with
         | [], [] => Ok Eq
         | [], _ :: _ => Ok Lt
         | _ :: _, [] => Ok Gt
         | x :: l', y :: m' => if py_eq x y then go l' m' else py_cmp x y
         end) l m
    | _, _ => Raise TypeError
    end
  end.

(** [a > b] and [a < b] *)
Definition py_gt (a b : pyval) : res bool :=
  let? c := py_cmp a b in
  Ok (match c with Gt => true | _ => false end).

Definition py_lt (a b : pyval) : res bool :=
  let? c := py_cmp a b in
  Ok (match c with Lt => true | _ => false end).

(** [for ikey in v]: the keys of a dict, the elements of a list, the
    characters of a string; nothing else is iterable. *)
Definition py_iter (v : pyval) : res (list pyval) :=
  match v with
  | PDict d => Ok (map (fun kv => PStr (fst kv)) d)
  | PList l => Ok l
  | PStr s => Ok (map (fun c => PStr (String c EmptyString)) (list_ascii_of_string s))
  | _ => Raise TypeError
  end.

(** [seq[i]] for an integer index, negative indices counting from the end. *)
Definition seq_index {A} (l : list A) (i : Z) : res A :=
  let n := Z.of_nat (length l) in
  let j := if (i <? 0)%Z then (i + n)%Z else i in
  if (0 <=? j)%Z && (j <? n)%Z then
    match nth_error l (Z.to_nat j) with
    | Some x => Ok x
    | None => Raise IndexError
    end
  else Raise IndexError.

(** [v[idx]] *)
Definition py_getitem (v idx : pyval) : res pyval :=
  match v with
  | PDict d =>
    match idx with
    | PStr k => match dict_get k d with Some x => Ok x | None => Raise KeyError end
    | PList _ | PDict _ => Raise TypeError   (* unhashable *)
    | _ => Raise KeyError
    end
  | PList l =>
    match as_index idx with
    | Some i => seq_index l i
    | None => Raise TypeError
    end
  | PStr s =>
    match as_index idx with
    | Some i => seq_index (map (fun c => PStr (String c EmptyString)) (list_ascii_of_string s)) i
    | None => Raise TypeError
    end
  | _ => Raise TypeError
  end.

(** [o.name], for a name that no built-in type defines. *)
Definition py_getattr (o : pyval) (name : string) : res pyval :=
  match o with
  | PObj _ attrs =>
    match dict_get name attrs with Some x => Ok x | None => Raise AttributeError end
  | _ => Raise AttributeError
  end.

(** ** search_json *)

(** The loop of [search_json] (lines 75-81) over the enumerated [ikeys];
    [rec] is the recursive call. *)
Fixpoint for_ikey (rec : pyval -> res pyval) (key json_obj : pyval)
    (ikeys : list pyval) : res pyval :=
  match ikeys with
  | [] => Ok PNone
  | ikey :: rest =>
    if py_eq ikey key then py_getitem json_obj key
    else
      let? child := py_getitem json_obj ikey in
      let? r := rec child in
      if negb (is_none r) then Ok r
      else for_ikey rec key json_obj rest
  end.

(** [search_json] (lines 67-83) with [depth] nested calls available.  The
    recursive call is on [json_obj[ikey]], which is no syntactic subterm of
    [json_obj]; a call that has no level left raises inside the caller's
    [try]. *)
Fixpoint search_json_at (depth : nat) (key json_obj : pyval) : res pyval :=
  match depth with
  | O => Raise RecursionError
  | S depth' =>
    try_except
      (let? ikeys := py_iter json_obj in
       for_ikey (search_json_at depth' key) key json_obj ikeys)
      (fun _ => Ok PNone)
  end.

(** Nesting depth of a value. *)
Fixpoint height (v : pyval) : nat :=
  match v with
  | PList l => S (list_max (map height l))
  | PDict d => S (list_max (map (fun kv => height (snd kv)) d))
  | _ => O
  end.

(** [search_json(key, json_obj)]: as many levels as the value is deep,
    which is always enough ([search_json_at_enough]). *)
Definition search_json (key json_obj : pyval) : res pyval :=
  search_json_at (S (height json_obj)) key json_obj.

(** ** What the interpreter and the libraries supply

    [json], the string conversions and the Prometheus client are not part
    of the module; the embedding takes them as an interface. *)

Class Runtime : Type := {
  (** [json.loads(text)]: the parsed document, or [JSONDecodeError] *)
  json_loads : string -> res pyval;
  (** [body.decode()] on the bytes of a response body *)
  bytes_decode : string -> res string;
  (** [str(v)] for floats, containers and objects *)
  str_other : pyval -> string;
  (** the number [Gauge.set(v)] stores, or the error of [float(v)] *)
  gauge_float : pyval -> res Q;
  (** the amount [Histogram.observe(v)] records, or its error *)
  observe_amount : pyval -> res Q
}.

(** [str(v)] *)
Definition py_str `{Runtime} (v : pyval) : string :=
  match v with
  | PNone => "None"
  | PBool true => "True"
  | PBool false => "False"
  | PInt z => NilZero.string_of_int (Z.to_int z)
  | PStr s => s
  | _ => str_other v
  end.

(** ** The Flask request

    [request.args] and [request.form] are multi-dicts: ordered items, a
    name possibly bound several times.  [keys()] enumerates each name once
    and [get(name)] gives the first value bound to it.  [request.values]
    combines [args] and [form], [args] first. *)

Module flask.

Record Request : Type := {
  method : string;
  args : list (string * string);
  form : list (string * string)
}.

Definition values (r : Request) : list (string * string) :=
  args r ++ form r.

Fixpoint keys (params : list (string * string)) : list string :=
  match params with
  | [] => []
  | (k, _) :: rest => k :: List.filter (fun k' => negb (String.eqb k' k)) (keys rest)
  end.

Definition get (key : string) (params : list (string * string)) : pyval :=
  match dict_get key params with
  | Some v => PStr v
  | None => PNone
  end.

End flask.

(** [d[k] = v]: an existing key keeps its place. *)
Fixpoint dict_set {V} (k : string) (v : V) (d : list (string * V)) : list (string * V) :=
  match d with
  | [] => [(k, v)]
  | (k', v') :: d' =>
    if String.eqb k' k then (k', v) :: d' else (k', v') :: dict_set k v d'
  end.

(** What a handler returns: a plain value, a Flask [Response] (with the
    text [get_data(as_text=True)] gives) or a FastAPI [Response] (with the
    bytes of its [body]). *)
Inductive response : Type :=
| RValue (v : pyval)
| RFlask (data : string)
| RFastapi (body : string).

(** ** View adapters *)

(** The adapters are called as [transform_request(request, **kwargs)]
    (lines 133, 167, 192, 216): a keyword argument of the handler that is
    itself named [request] collides with the first parameter, and the call
    raises [TypeError] before the body runs. *)

(** [transform_request_to_json_flask] (lines 17-35) *)
Definition transform_request_to_json_flask
    (request : flask.Request) (kwargs : list (string * pyval)) : res pyval :=
  match dict_get "request" kwargs with
  | Some _ => Raise TypeError
  | None =>
    if negb (Nat.eqb (length kwargs) 0) then Ok (PDict kwargs)
    else
      let params :=
        if String.eqb (flask.method request) "POST"
        then flask.values request
        else flask.args request in
      Ok (PDict (fold_left (fun res key => dict_set key (flask.get key params) res)
                           (flask.keys params) []))
  end.

(** [transform_request_to_json_fastapi] (lines 37-44) *)
Definition transform_request_to_json_fastapi
    (request : flask.Request) (kwargs : list (string * pyval)) : res pyval :=
  match dict_get "request" kwargs with
  | Some _ => Raise TypeError
  | None => Ok (PDict kwargs)
  end.

(** [transform_response_to_json_flask] (lines 46-53) *)
Definition transform_response_to_json_flask `{Runtime} (resp_obj : response) : res pyval :=
  match resp_obj with
  | RFlask txt_resp => json_loads txt_resp
  | _ => Raise AttributeError     (* no [get_data] *)
  end.

(** [transform_response_to_json_fastapi] (lines 55-65) *)
Definition transform_response_to_json_fastapi `{Runtime} (resp_obj : response) : res pyval :=
  match resp_obj with
  | RValue (PDict d) => Ok (PDict d)
  | RFastapi raw =>
    let? body := bytes_decode raw in
    json_loads body
  | _ => Raise AttributeError     (* no [body] *)
  end.

(** ** The Instrumentation class: adapter selection *)

Record Instrumentation : Type := {
  transform_request : flask.Request -> list (string * pyval) -> res pyval;
  transform_response : response -> res pyval
}.

(** [Instrumentation.__init__] (lines 90-112), from the class name of
    [app].  The [/metrics] route it also registers plays no part in the
    decorators. *)
Definition Instrumentation_init `{Runtime} (app_class_name : string) : res Instrumentation :=
  if String.eqb app_class_name "Flask" then
    Ok {| transform_request := transform_request_to_json_flask;
          transform_response := transform_response_to_json_flask |}
  else if String.eqb app_class_name "FastAPI" then
    Ok {| transform_request := transform_request_to_json_fastapi;
          transform_response := transform_response_to_json_fastapi |}
  else Raise ConfigError.

(** ** The process state and the metric objects

    The state a wrapper runs in: the module global [request] (unbound when
    [flask] could not be imported) and the metric objects, by metric name.
    A counter holds its count, a gauge its value, a histogram its buckets
    and the amounts observed. *)

Record world : Type := {
  request : option flask.Request;
  counters : gmap string nat;
  gauges : gmap string Q;
  hists : gmap string (pyval * list Q)
}.

Definition M (A : Type) : Type := world -> res A * world.

Definition retM {A} (a : A) : M A := fun w => (Ok a, w).

Definition bindM {A B} (m : M A) (k : A -> M B) : M B :=
  fun w =>
    match m w with
    | (Ok a, w') => k a w'
    | (Raise e, w') => (Raise e, w')
    end.

Definition liftM {A} (r : res A) : M A := fun w => (r, w).

Declare Scope M_scope.
Delimit Scope M_scope with M.
Notation "x <- m ;; k" := (bindM m (fun x => k))
  (at level 100, m at next level, right associativity) : M_scope.
Notation "m ;; k" := (bindM m (fun _ => k))
  (at level 100, right associativity) : M_scope.
Local Open Scope M_scope.

(** The name [request] in a wrapper: [NameError] when it is unbound. *)
Definition global_request : M flask.Request :=
  fun w =>
    match request w with
    | Some r => (Ok r, w)
    | None => (Raise NameError, w)
    end.

Definition registered (name : string) (w : world) : bool :=
  bool_decide (is_Some (counters w !! name))
  || bool_decide (is_Some (gauges w !! name))
  || bool_decide (is_Some (hists w !! name)).

Definition counter_value (w : world) (name : string) : nat :=
  default O (counters w !! name).

(** [Counter(name, help)], [Gauge(name, help)], [Histogram(name, help,
    buckets=...)]: a new metric object, known by its name; a name already
    registered is refused. *)
Definition Counter (name : string) : M string :=
  fun w =>
    if registered name w then (Raise ValueError, w)
    else (Ok name,
          {| request := request w; counters := <[name := O]> (counters w);
             gauges := gauges w; hists := hists w |}).

Definition Gauge (name : string) : M string :=
  fun w =>
    if registered name w then (Raise ValueError, w)
    else (Ok name,
          {| request := request w; counters := counters w;
             gauges := <[name := 0%Q]> (gauges w); hists := hists w |}).

Definition Histogram (name : string) (buckets : pyval) : M string :=
  fun w =>
    if registered name w then (Raise ValueError, w)
    else (Ok name,
          {| request := request w; counters := counters w;
             gauges := gauges w; hists := <[name := (buckets, [])]> (hists w) |}).

(** [c.inc()] *)
Definition Counter_inc (c : string) : M unit :=
  fun w =>
    (Ok tt,
     {| request := request w;
        counters := <[c := S (counter_value w c)]> (counters w);
        gauges := gauges w; hists := hists w |}).

(** [g.set(v)] *)
Definition Gauge_set `{Runtime} (g : string) (v : pyval) : M unit :=
  fun w =>
    match gauge_float v with
    | Ok x =>
      (Ok tt,
       {| request := request w; counters := counters w;
          gauges := <[g := x]> (gauges w); hists := hists w |})
    | Raise e => (Raise e, w)
    end.

(** [h.observe(v)] *)
Definition Histogram_observe `{Runtime} (h : string) (v : pyval) : M unit :=
  fun w =>
    match observe_amount v with
    | Ok x =>
      (Ok tt,
       {| request := request w; counters := counters w; gauges := gauges w;
          hists := <[h := (default PNone (fst <$> hists w !! h),
                           default [] (snd <$> hists w !! h) ++ [x])]> (hists w) |})
    | Raise e => (Raise e, w)
    end.

(** The metric objects a factory keeps in its closure ([counters], [gauges],
    [hists] in the source): a dict from a key to the metric object. *)
Definition closure_get (k : string) (metrics : list (string * string)) : M string :=
  liftM (match dict_get k metrics with Some m => Ok m | None => Raise KeyError end).

(** A handler: positional and keyword arguments to a result, in the
    process state.  A wrapper is a handler again. *)
Definition handler : Type := list pyval -> list (string * pyval) -> M response.

(** [for x in l: body(x)] without [break] *)
Fixpoint for_each {A} (body : A -> M unit) (l : list A) : M unit :=
  match l with
  | [] => retM tt
  | x :: rest => body x ;; for_each body rest
  end.

(** ** The decorator factories

    Each factory creates its metric objects once and returns the decorator;
    the decorator applied to a handler [func] is the wrapper. *)

Section Decorators.

Context `{Runtime}.
Variable self : Instrumentation.

(** The loop of a factory that fills its closure dict: one metric object
    per element, stored under the element's key. *)
Fixpoint build_metrics {A} (key : A -> string) (create : A -> M string)
    (l : list A) (metrics : list (string * string)) : M (list (string * string)) :=
  match l with
  | [] => retM metrics
  | x :: rest =>
    m <- create x ;;
    build_metrics key create rest (dict_set (key x) m metrics)
  end.

(** [if threshold_key: threshold = search_json(threshold_key, view)
    else: threshold = 0.5] *)
Definition resolve_threshold (threshold_key view : pyval) : res pyval :=
  if py_truthy threshold_key then search_json threshold_key view
  else Ok (PFloat (1 # 2)).

(** *** Feedback metrics (lines 116-146) *)

Definition count_false_binary_feedback_wrapper (fp_counter fn_counter : string)
    (feedback_key threshold_key : pyval) (func : handler) : handler :=
  fun args kwargs =>
    resp_obj <- func args kwargs ;;
    request <- global_request ;;
    request_json <- liftM (transform_request self request kwargs) ;;
    feedback <- liftM (search_json feedback_key request_json) ;;
    threshold <- liftM (resolve_threshold threshold_key request_json) ;;
    correctness <- liftM (py_getattr feedback "correctness") ;;
    wrong <- liftM (py_lt correctness (PInt 0)) ;;
    (if wrong : bool then
       corrected_value <- liftM (py_getattr feedback "corrected_value") ;;
       above <- liftM (py_gt corrected_value threshold) ;;
       if above : bool then Counter_inc fn_counter else Counter_inc fp_counter
     else retM tt) ;;
    retM resp_obj.

Definition count_false_binary_feedback (id : string)
    (feedback_key threshold_key : pyval) : M (handler -> handler) :=
  fp_counter <- Counter (id +:+ "_fp") ;;
  fn_counter <- Counter (id +:+ "_fn") ;;
  retM (count_false_binary_feedback_wrapper fp_counter fn_counter
          feedback_key threshold_key).

(** *** Feature metrics (lines 150-221) *)

(** [for val in values: if request_json[feature] == val: ...; break] *)
Fixpoint count_feature_loop (counters : list (string * string)) (feature : string)
    (request_json : pyval) (values : list pyval) : M unit :=
  match values with
  | [] => retM tt
  | val :: rest =>
    x <- liftM (py_getitem request_json (PStr feature)) ;;
    if py_eq x val then
      c <- closure_get (feature +:+ "_" +:+ py_str val) counters ;;
      Counter_inc c
    else count_feature_loop counters feature request_json rest
  end.

Definition count_feature_wrapper (counters : list (string * string))
    (feature : string) (values : list pyval) (func : handler) : handler :=
  fun args kwargs =>
    resp_obj <- func args kwargs ;;
    request <- global_request ;;
    request_json <- liftM (transform_request self request kwargs) ;;
    count_feature_loop counters feature request_json values ;;
    retM resp_obj.

Definition count_feature (id feature : string) (values : list pyval)
    : M (handler -> handler) :=
  counters <- build_metrics
                (fun val => feature +:+ "_" +:+ py_str val)
                (fun val => Counter (id +:+ "_" +:+ feature +:+ "_" +:+ py_str val))
                values [] ;;
  retM (count_feature_wrapper counters feature values).

Definition gauge_feature_wrapper (gauges : list (string * string))
    (feature_keys : list string) (func : handler) : handler :=
  fun args kwargs =>
    resp_obj <- func args kwargs ;;
    request <- global_request ;;
    request_json <- liftM (transform_request self request kwargs) ;;
    for_each (fun feature =>
                g <- closure_get feature gauges ;;
                x <- liftM (py_getitem request_json (PStr feature)) ;;
                Gauge_set g x)
             feature_keys ;;
    retM resp_obj.

Definition gauge_feature (id : string) (feature_keys : list string)
    : M (handler -> handler) :=
  gauges <- build_metrics (fun feature => feature)
              (fun feature => Gauge (id +:+ "_" +:+ feature)) feature_keys [] ;;
  retM (gauge_feature_wrapper gauges feature_keys).

Definition hist_feature_wrapper (hists : list (string * string))
    (feature_keys : list string) (func : handler) : handler :=
  fun args kwargs =>
    resp_obj <- func args kwargs ;;
    request <- global_request ;;
    request_json <- liftM (transform_request self request kwargs) ;;
    for_each (fun feature =>
                h <- closure_get feature hists ;;
                x <- liftM (py_getitem request_json (PStr feature)) ;;
                Histogram_observe h x)
             feature_keys ;;
    retM resp_obj.

Definition hist_feature (id : string) (buckets : pyval) (feature_keys : list string)
    : M (handler -> handler) :=
  hists <- build_metrics (fun feature => feature)
             (fun feature => Histogram (id +:+ "_" +:+ feature) buckets)
             feature_keys [] ;;
  retM (hist_feature_wrapper hists feature_keys).

(** *** ML metrics (lines 225-363) *)

Definition count_binary_wrapper (positive_cls negative_cls : string)
    (result_key threshold_key : pyval) (func : handler) : handler :=
  fun args kwargs =>
    resp_obj <- func args kwargs ;;
    resp_json <- liftM (transform_response self resp_obj) ;;
    value <- liftM (search_json result_key resp_json) ;;
    threshold <- liftM (resolve_threshold threshold_key resp_json) ;;
    (if negb (is_none value) then
       above <- liftM (py_gt value threshold) ;;
       if above : bool then Counter_inc positive_cls else Counter_inc negative_cls
     else retM tt) ;;
    retM resp_obj.

Definition count_binary (id : string) (result_key threshold_key : pyval)
    : M (handler -> handler) :=
  positive_cls <- Counter (id +:+ "_pos") ;;
  negative_cls <- Counter (id +:+ "_neg") ;;
  retM (count_binary_wrapper positive_cls negative_cls result_key threshold_key).

(** [class_keys] are the keyword arguments of the factory; the loops run
    over their names. *)
Definition count_classes_wrapper (counters : list (string * string))
    (threshold_key : pyval) (class_keys : list (string * pyval))
    (func : handler) : handler :=
  fun args kwargs =>
    resp_obj <- func args kwargs ;;
    resp_json <- liftM (transform_response self resp_obj) ;;
    threshold <- liftM (resolve_threshold threshold_key resp_json) ;;
    for_each (fun cls =>
                value <- liftM (search_json (PStr cls) resp_json) ;;
                if negb (is_none value) then
                  above <- liftM (py_gt value threshold) ;;
                  if above : bool then
                    c <- closure_get cls counters ;;
                    Counter_inc c
                  else retM tt
                else retM tt)
             (map fst class_keys) ;;
    retM resp_obj.

Definition count_classes (id : string) (threshold_key : pyval)
    (class_keys : list (string * pyval)) : M (handler -> handler) :=
  counters <- build_metrics (fun cls => cls)
                (fun cls => Counter (id +:+ "_" +:+ cls)) (map fst class_keys) [] ;;
  retM (count_classes_wrapper counters threshold_key class_keys).

Definition gauge_output_wrapper (gauges : list (string * string))
    (value_keys : list string) (func : handler) : handler :=
  fun args kwargs =>
    resp_obj <- func args kwargs ;;
    resp_json <- liftM (transform_response self resp_obj) ;;
    for_each (fun key =>
                value <- liftM (search_json (PStr key) resp_json) ;;
                if negb (is_none value) then
                  g <- closure_get key gauges ;;
                  Gauge_set g value
                else retM tt)
             value_keys ;;
    retM resp_obj.

Definition gauge_output (id : string) (value_keys : list string)
    : M (handler -> handler) :=
  gauges <- build_metrics (fun key => key)
              (fun key => Gauge (id +:+ "_" +:+ key)) value_keys [] ;;
  retM (gauge_output_wrapper gauges value_keys).

(** The wrapper of [hist_output] and of [hist_output_specific]. *)
Definition hist_output_wrapper (hists : list (string * string))
    (value_keys : list string) (func : handler) : handler :=
  fun args kwargs =>
    resp_obj <- func args kwargs ;;
    resp_json <- liftM (transform_response self resp_obj) ;;
    for_each (fun key =>
                value <- liftM (search_json (PStr key) resp_json) ;;
                if negb (is_none value) then
                  h <- closure_get key hists ;;
                  Histogram_observe h value
                else retM tt)
             value_keys ;;
    retM resp_obj.

Definition hist_output (id : string) (buckets : pyval) (value_keys : list string)
    : M (handler -> handler) :=
  hists <- build_metrics (fun key => key)
             (fun key => Histogram (id +:+ "_" +:+ key) buckets) value_keys [] ;;
  retM (hist_output_wrapper hists value_keys).

(** [buckets] are the keyword arguments of the factory: one bucket list
    per output name. *)
Definition hist_output_specific (id : string) (buckets : list (string * pyval))
    : M (handler -> handler) :=
  hists <- build_metrics (fun val => val)
             (fun val =>
                b <- liftM (py_getitem (PDict buckets) (PStr val)) ;;
                Histogram (id +:+ "_" +:+ val) b)
             (map fst buckets) [] ;;
  retM (hist_output_wrapper hists (map fst buckets)).

End Decorators.

(** ** The decorators the claims speak of *)

Section DecoratorKinds.

Context `{Runtime}.
Variable self : Instrumentation.

(** The decorators the nine factory methods produce. *)
Inductive produced : (handler -> handler) -> Prop :=
| produced_count_false_binary_feedback id feedback_key threshold_key w0 dec w1 :
    count_false_binary_feedback self id feedback_key threshold_key w0 = (Ok dec, w1) ->
    produced dec
| produced_count_feature id feature values w0 dec w1 :
    count_feature self id feature values w0 = (Ok dec, w1) -> produced dec
| produced_gauge_feature id feature_keys w0 dec w1 :
    gauge_feature self id feature_keys w0 = (Ok dec, w1) -> produced dec
| produced_hist_feature id buckets feature_keys w0 dec w1 :
    hist_feature self id buckets feature_keys w0 = (Ok dec, w1) -> produced dec
| produced_count_binary id result_key threshold_key w0 dec w1 :
    count_binary self id result_key threshold_key w0 = (Ok dec, w1) -> produced dec
| produced_count_classes id threshold_key class_keys w0 dec w1 :
    count_classes self id threshold_key class_keys w0 = (Ok dec, w1) -> produced dec
| produced_gauge_output id value_keys w0 dec w1 :
    gauge_output self id value_keys w0 = (Ok dec, w1) -> produced dec
| produced_hist_output id buckets value_keys w0 dec w1 :
    hist_output self id buckets value_keys w0 = (Ok dec, w1) -> produced dec
| produced_hist_output_specific id buckets w0 dec w1 :
    hist_output_specific self id buckets w0 = (Ok dec, w1) -> produced dec.

(** The decorators of the output policies, with the keys each one looks
    up in the response view. *)
Inductive output_decorator : list pyval -> (handler -> handler) -> Prop :=
| output_count_binary id result_key threshold_key w0 dec w1 :
    count_binary self id result_key threshold_key w0 = (Ok dec, w1) ->
    output_decorator [result_key] dec
| output_count_classes id threshold_key class_keys w0 dec w1 :
    count_classes self id threshold_key class_keys w0 = (Ok dec, w1) ->
    output_decorator (map PStr (map fst class_keys)) dec
| output_gauge_output id value_keys w0 dec w1 :
    gauge_output self id value_keys w0 = (Ok dec, w1) ->
    output_decorator (map PStr value_keys) dec
| output_hist_output id buckets value_keys w0 dec w1 :
    hist_output self id buckets value_keys w0 = (Ok dec, w1) ->
    output_decorator (map PStr value_keys) dec
| output_hist_output_specific id buckets w0 dec w1 :
    hist_output_specific self id buckets w0 = (Ok dec, w1) ->
    output_decorator (map PStr (map fst buckets)) dec.

(** The output policies with one metric object per key: the metric of
    key [k] is named [id_k]. *)
Inductive keyed_output_decorator : string -> list string -> (handler -> handler) -> Prop :=
| keyed_count_classes id threshold_key class_keys w0 dec w1 :
    count_classes self id threshold_key class_keys w0 = (Ok dec, w1) ->
    keyed_output_decorator id (map fst class_keys) dec
| keyed_gauge_output id value_keys w0 dec w1 :
    gauge_output self id value_keys w0 = (Ok dec, w1) ->
    keyed_output_decorator id value_keys dec
| keyed_hist_output id buckets value_keys w0 dec w1 :
    hist_output self id buckets value_keys w0 = (Ok dec, w1) ->
    keyed_output_decorator id value_keys dec
| keyed_hist_output_specific id buckets w0 dec w1 :
    hist_output_specific self id buckets w0 = (Ok dec, w1) ->
    keyed_output_decorator id (map fst buckets) dec.

End DecoratorKinds.

(** The name of the counter [count_feature] creates for the value [val]. *)
Definition counter_name `{Runtime} (id feature : string) (val : pyval) : string :=
  id +:+ "_" +:+ feature +:+ "_" +:+ py_str val.

(** ** What a call does to the state *)

(** A computation that gives [a] whenever it raises nothing. *)
Definition returns_or_raises {A} (a : A) (m : M A) : Prop :=
  forall w, (exists w', m w = (Ok a, w')) \/ (exists e w', m w = (Raise e, w')).

(** Exactly the counter [c] went up by one between [w] and [w']. *)
Definition incremented_exactly (c : string) (w w' : world) : Prop :=
  counter_value w' c = S (counter_value w c)
  /\ (forall c', c' <> c -> counters w' !! c' = counters w !! c')
  /\ gauges w' = gauges w
  /\ hists w' = hists w.

(** The metric object [name] is the same in [w] and [w']. *)
Definition metric_unchanged (name : string) (w w' : world) : Prop :=
  counters w' !! name = counters w !! name
  /\ gauges w' !! name = gauges w !! name
  /\ hists w' !! name = hists w !! name.

(** Follows the specification's words: the verbs that write. *)
Definition spec_write_verb (verb : string) : bool :=
  existsb (String.eqb verb) ["POST"; "PUT"; "PATCH"; "DELETE"].

(** ** Concrete runs

    A runtime, two applications, a state and constant handlers to run the
    decorators on.  The runtime's [json.loads] reads the empty object only
    (the runs below hand their views over as dicts); its gauges and
    histograms take numbers and refuse anything else with [TypeError], as
    [float(None)] does. *)

Definition number_or_TypeError (v : pyval) : res Q :=
  match as_number v with
  | Some q => Ok q
  | None => Raise TypeError
  end.

Definition example_runtime : Runtime := {|
  json_loads := fun text => if String.eqb text "{}" then Ok (PDict []) else Raise JSONDecodeError;
  bytes_decode := fun raw => Ok raw;
  str_other := fun _ => "?";
  gauge_float := number_or_TypeError;
  observe_amount := number_or_TypeError
|}.

Definition flask_app : Instrumentation := {|
  transform_request := transform_request_to_json_flask;
  transform_response := @transform_response_to_json_flask example_runtime
|}.

Definition fastapi_app : Instrumentation := {|
  transform_request := transform_request_to_json_fastapi;
  transform_response := @transform_response_to_json_fastapi example_runtime
|}.

(** A state with no metric yet, inside a GET request without parameters. *)
Definition idle : world := {|
  request := Some {| flask.method := "GET"; flask.args := []; flask.form := [] |};
  counters := ∅; gauges := ∅; hists := ∅
|}.

Definition const_handler (resp_obj : response) : handler :=
  fun _ _ => retM resp_obj.

(** The doubles nearest to 0.7 and 0.3. *)
Definition float_0_7 : Q := 3152519739159347 # 4503599627370496.
Definition float_0_3 : Q := 5404319552844595 # 18014398509481984.

(** ** What the further properties speak of *)

(** The values bound to the key [k] in the dicts of [v], at any depth, in
    enumeration order. *)
Fixpoint bindings (k : string) (v : pyval) : list pyval :=
  match v with
  | PDict d =>
    flat_map (fun kv => (if String.eqb (fst kv) k then [snd kv] else [])
                        ++ bindings k (snd kv)) d
  | PList l => flat_map (bindings k) l
  | _ => []
  end.

(** The values [search_json] can enumerate and index: lists and dicts. *)
Definition is_container (v : pyval) : bool :=
  match v with
  | PList _ | PDict _ => true
  | _ => false
  end.

Definition is_str (v : pyval) : bool :=
  match v with
  | PStr _ => true
  | _ => false
  end.

(** No counter is lower in [w'] than in [w]. *)
Definition counters_grow (w w' : world) : Prop :=
  forall name, (counter_value w name <= counter_value w' name)%nat.

(** A computation that never lowers a counter, whether it raises or not. *)
Definition keeps_counters {A} (m : M A) : Prop :=
  forall w r w', m w = (r, w') -> counters_grow w w'.

(** Whether the class [cls] counts in [count_classes]: its value is found
    in the view and lies above the threshold [t]. *)
Definition class_fires (view : pyval) (t : Q) (cls : string) : bool :=
  match search_json (PStr cls) view with
  | Ok v =>
    match as_number v with
    | Some q => match (q ?= t)%Q with Gt => true | _ => false end
    | None => false
    end
  | Raise _ => false
  end.

Section RequestDecorators.

Context `{Runtime}.
Variable self : Instrumentation.

(** The decorators that read the request: the feedback policy and the three
    feature policies. *)
Inductive request_decorator : (handler -> handler) -> Prop :=
| request_count_false_binary_feedback id feedback_key threshold_key w0 dec w1 :
    count_false_binary_feedback self id feedback_key threshold_key w0 = (Ok dec, w1) ->
    request_decorator dec
| request_count_feature id feature values w0 dec w1 :
    count_feature self id feature values w0 = (Ok dec, w1) -> request_decorator dec
| request_gauge_feature id feature_keys w0 dec w1 :
    gauge_feature self id feature_keys w0 = (Ok dec, w1) -> request_decorator dec
| request_hist_feature id buckets feature_keys w0 dec w1 :
    hist_feature self id buckets feature_keys w0 = (Ok dec, w1) -> request_decorator dec.

End RequestDecorators.

(** ** The steps of a wrapped call *)

(** A decorator as its factory leaves it: the policy, with the metric
    objects and the keys it has closed over. *)
Inductive policy : Type :=
| FeedbackBinary (fp_counter fn_counter : string) (feedback_key threshold_key : pyval)
| FeatureCount (counters : list (string * string)) (feature : string)
    (values : list pyval)
| FeatureGauge (gauges : list (string * string)) (feature_keys : list string)
| FeatureHist (hists : list (string * string)) (feature_keys : list string)
| OutputBinary (positive_cls negative_cls : string) (result_key threshold_key : pyval)
| OutputClasses (counters : list (string * string)) (threshold_key : pyval)
    (class_keys : list (string * pyval))
| OutputGauge (gauges : list (string * string)) (value_keys : list string)
| OutputHist (hists : list (string * string)) (value_keys : list string).

(** The policies that read the response. *)
Definition output_policy (p : policy) : bool :=
  match p with
  | OutputBinary _ _ _ _ | OutputClasses _ _ _ | OutputGauge _ _ | OutputHist _ _ => true
  | _ => false
  end.

(** The keys a policy looks up with [search_json] for the values it
    records. *)
Definition looked_up (p : policy) : list pyval :=
  match p with
  | FeedbackBinary _ _ feedback_key _ => [feedback_key]
  | OutputBinary _ _ result_key _ => [result_key]
  | OutputClasses _ _ class_keys => map PStr (map fst class_keys)
  | OutputGauge _ value_keys | OutputHist _ value_keys => map PStr value_keys
  | _ => []
  end.

Section Steps.

Context `{Runtime}.
Variable self : Instrumentation.

(** The wrapper of a policy. *)
Definition wrapper_of (p : policy) : handler -> handler :=
  match p with
  | FeedbackBinary fp fn fk tk => count_false_binary_feedback_wrapper self fp fn fk tk
  | FeatureCount cs feature values => count_feature_wrapper self cs feature values
  | FeatureGauge gs keys => gauge_feature_wrapper self gs keys
  | FeatureHist hs keys => hist_feature_wrapper self hs keys
  | OutputBinary pos neg rk tk => count_binary_wrapper self pos neg rk tk
  | OutputClasses cs tk class_keys => count_classes_wrapper self cs tk class_keys
  | OutputGauge gs keys => gauge_output_wrapper self gs keys
  | OutputHist hs keys => hist_output_wrapper self hs keys
  end.

(** Step 2 of a wrapper: the view, of the request (lines 133, 167, 192,
    216) or of the response (lines 241, 273, 304, 331, 356). *)
Definition derive_view (p : policy) (resp_obj : response)
    (kwargs : list (string * pyval)) : M pyval :=
  if output_policy p then liftM (transform_response self resp_obj)
  else
    request <- global_request ;;
    liftM (transform_request self request kwargs).

(** Step 3 of a wrapper: the lookups in the view and the metric updates
    (lines 134-143, 168-171, 193-194, 217-218, 242-251, 274-282, 305-308,
    332-335, 357-360). *)
Definition record_metrics (p : policy) (view : pyval) : M unit :=
  match p with
  | FeedbackBinary fp_counter fn_counter feedback_key threshold_key =>
    feedback <- liftM (search_json feedback_key view) ;;
    threshold <- liftM (resolve_threshold threshold_key view) ;;
    correctness <- liftM (py_getattr feedback "correctness") ;;
    wrong <- liftM (py_lt correctness (PInt 0)) ;;
    if wrong : bool then
      corrected_value <- liftM (py_getattr feedback "corrected_value") ;;
      above <- liftM (py_gt corrected_value threshold) ;;
      if above : bool then Counter_inc fn_counter else Counter_inc fp_counter
    else retM tt
  | FeatureCount counters feature values =>
    count_feature_loop counters feature view values
  | FeatureGauge gauges feature_keys =>
    for_each (fun feature =>
                g <- closure_get feature gauges ;;
                x <- liftM (py_getitem view (PStr feature)) ;;
                Gauge_set g x)
             feature_keys
  | FeatureHist hists feature_keys =>
    for_each (fun feature =>
                h <- closure_get feature hists ;;
                x <- liftM (py_getitem view (PStr feature)) ;;
                Histogram_observe h x)
             feature_keys
  | OutputBinary positive_cls negative_cls result_key threshold_key =>
    value <- liftM (search_json result_key view) ;;
    threshold <- liftM (resolve_threshold threshold_key view) ;;
    if negb (is_none value) then
      above <- liftM (py_gt value threshold) ;;
      if above : bool then Counter_inc positive_cls else Counter_inc negative_cls
    else retM tt
  | OutputClasses counters threshold_key class_keys =>
    threshold <- liftM (resolve_threshold threshold_key view) ;;
    for_each (fun cls =>
                value <- liftM (search_json (PStr cls) view) ;;
                if negb (is_none value) then
                  above <- liftM (py_gt value threshold) ;;
                  if above : bool then
                    c <- closure_get cls counters ;;
                    Counter_inc c
                  else retM tt
                else retM tt)
             (map fst class_keys)
  | OutputGauge gauges value_keys =>
    for_each (fun key =>
                value <- liftM (search_json (PStr key) view) ;;
                if negb (is_none value) then
                  g <- closure_get key gauges ;;
                  Gauge_set g value
                else retM tt)
             value_keys
  | OutputHist hists value_keys =>
    for_each (fun key =>
                value <- liftM (search_json (PStr key) view) ;;
                if negb (is_none value) then
                  h <- closure_get key hists ;;
                  Histogram_observe h value
                else retM tt)
             value_keys
  end.

End Steps.

(** * Properties *)

(** ** Results and the state monad *)

Lemma try_except_total {A} (body : res A) (a : A) :
  exists v, try_except body (fun _ => Ok a) = Ok v.
Proof. destruct body; simpl; eauto. Qed.

Lemma bindM_ok {A B} (m : M A) (k : A -> M B) w a w' :
  m w = (Ok a, w') -> bindM m k w = k a w'.
Proof. intros E. unfold bindM. now rewrite E. Qed.

Lemma bindM_raise {A B} (m : M A) (k : A -> M B) w e w' :
  m w = (Raise e, w') -> bindM m k w = (Raise e, w').
Proof. intros E. unfold bindM. now rewrite E. Qed.

Lemma bindM_lift_ok {A B} (r : res A) (k : A -> M B) w a :
  r = Ok a -> bindM (liftM r) k w = k a w.
Proof. intros ->. reflexivity. Qed.

Lemma bindM_lift_raise {A B} (r : res A) (k : A -> M B) w e :
  r = Raise e -> bindM (liftM r) k w = (Raise e, w).
Proof. intros ->. reflexivity. Qed.

(** ** search_json: the recursion *)

Lemma py_eq_str (s t : string) : py_eq (PStr s) (PStr t) = String.eqb s t.
Proof. reflexivity. Qed.

Lemma list_max_elem (n : nat) (l : list nat) : In n l -> (n <= list_max l)%nat.
Proof.
  induction l as [|m l IH]; simpl; [tauto|].
  intros [->|Hin]; [lia|]. specialize (IH Hin). lia.
Qed.

Lemma dict_get_In {V} (k : string) (d : list (string * V)) (v : V) :
  dict_get k d = Some v -> In (k, v) d.
Proof.
  induction d as [|[k' v'] d IH]; simpl; [discriminate|].
  destruct (String.eqb k' k) eqn:E.
  - apply String.eqb_eq in E. intros [= ->]. left. now subst.
  - intros Hg. right. auto.
Qed.

Lemma seq_index_In {A} (l : list A) (i : Z) (x : A) :
  seq_index l i = Ok x -> In x l.
Proof.
  unfold seq_index.
  destruct (_ && _); [|discriminate].
  destruct (nth_error l _) eqn:E; [|discriminate].
  intros [= ->]. eapply nth_error_In, E.
Qed.

(** An enumerated child is strictly less deep than its container; a string
    is never indexed with one of its own characters. *)
Lemma child_height (json_obj ikey child : pyval) (ikeys : list pyval) :
  py_iter json_obj = Ok ikeys -> In ikey ikeys ->
  py_getitem json_obj ikey = Ok child ->
  (height child < height json_obj)%nat.
Proof.
  destruct json_obj as [| | | |s|l|d|]; simpl; try discriminate.
  - intros [= <-] Hin. apply in_map_iff in Hin as [c [<- _]]. discriminate.
  - intros _ _. destruct (as_index ikey); [|discriminate].
    intros Hi. apply seq_index_In in Hi.
    apply Nat.lt_succ_r, list_max_elem, in_map_iff. eauto.
  - intros _ _. destruct ikey; try discriminate.
    destruct (dict_get s d) eqn:E; [|discriminate]. intros [= ->].
    apply dict_get_In in E.
    apply Nat.lt_succ_r, list_max_elem, in_map_iff.
    exists (s, child). auto.
Qed.

Lemma for_ikey_ext (rec1 rec2 : pyval -> res pyval) (key json_obj : pyval)
    (ikeys : list pyval) :
  (forall ikey child, In ikey ikeys -> py_getitem json_obj ikey = Ok child ->
                      rec1 child = rec2 child) ->
  for_ikey rec1 key json_obj ikeys = for_ikey rec2 key json_obj ikeys.
Proof.
  induction ikeys as [|ikey rest IH]; intros Hrec; simpl; [reflexivity|].
  destruct (py_eq ikey key); [reflexivity|].
  destruct (py_getitem json_obj ikey) as [child|e] eqn:E; simpl; [|reflexivity].
  rewrite (Hrec ikey child) by (simpl; auto).
  destruct (rec2 child) as [r|e]; simpl; [|reflexivity].
  destruct (negb (is_none r)); [reflexivity|].
  apply IH. intros k c Hin Hget. apply (Hrec k c); simpl; auto.
Qed.

(** Any number of levels above the height of the value gives the same
    result. *)
Lemma search_json_at_stable (n m : nat) (key json_obj : pyval) :
  (height json_obj < n)%nat -> (height json_obj < m)%nat ->
  search_json_at n key json_obj = search_json_at m key json_obj.
Proof.
  revert m json_obj.
  induction n as [|n IH]; intros m json_obj Hn Hm; [lia|].
  destruct m as [|m]; [lia|]. simpl.
  destruct (py_iter json_obj) as [ikeys|e] eqn:Hit; simpl; [|reflexivity].
  f_equal. apply for_ikey_ext. intros ikey child Hin Hget.
  pose proof (child_height _ _ _ _ Hit Hin Hget).
  apply IH; lia.
Qed.

Lemma search_json_at_enough (depth : nat) (key json_obj : pyval) :
  (height json_obj < depth)%nat ->
  search_json_at depth key json_obj = search_json key json_obj.
Proof. intros Hd. apply search_json_at_stable; [exact Hd | lia]. Qed.

(** The defining equation of [search_json], as the source writes it. *)
Lemma search_json_unfold (key json_obj : pyval) :
  search_json key json_obj =
  try_except
    (let? ikeys := py_iter json_obj in
     for_ikey (search_json key) key json_obj ikeys)
    (fun _ => Ok PNone).
Proof.
  unfold search_json at 1. simpl.
  destruct (py_iter json_obj) as [ikeys|e] eqn:Hit; simpl; [|reflexivity].
  f_equal. apply for_ikey_ext. intros ikey child Hin Hget.
  apply search_json_at_enough. eapply child_height; eauto.
Qed.

Lemma search_json_total (key json_obj : pyval) :
  exists v, search_json key json_obj = Ok v.
Proof. rewrite search_json_unfold. apply try_except_total. Qed.

(** ** search_json on a dict *)

Lemma dict_get_app_l {V} (k : string) (d1 d2 : list (string * V)) :
  In k (map fst d1) -> dict_get k (d1 ++ d2) = dict_get k d1.
Proof.
  induction d1 as [|[k' v'] d1 IH]; simpl; [tauto|].
  destruct (String.eqb k' k) eqn:E; [reflexivity|].
  intros [->|Hin]; [|auto].
  rewrite String.eqb_refl in E. discriminate.
Qed.

Lemma dict_get_app_r {V} (k : string) (d1 d2 : list (string * V)) :
  ~ In k (map fst d1) -> dict_get k (d1 ++ d2) = dict_get k d2.
Proof.
  induction d1 as [|[k' v'] d1 IH]; simpl; [reflexivity|].
  intros Hn. destruct (String.eqb k' k) eqn:E.
  - apply String.eqb_eq in E. tauto.
  - apply IH. tauto.
Qed.

Lemma dict_get_is_Some {V} (k : string) (d : list (string * V)) :
  In k (map fst d) -> exists v, dict_get k d = Some v.
Proof.
  induction d as [|[k' v'] d IH]; simpl; [tauto|].
  destruct (String.eqb k' k) eqn:E; [eauto|].
  intros [->|Hin]; [|auto].
  rewrite String.eqb_refl in E. discriminate.
Qed.

Lemma dict_get_None {V} (k : string) (d : list (string * V)) :
  dict_get k d = None <-> ~ In k (map fst d).
Proof.
  split.
  - intros Hg Hin. apply dict_get_is_Some in Hin as [v Hv]. congruence.
  - intros Hn. rewrite <- (app_nil_r d). rewrite dict_get_app_r by exact Hn.
    reflexivity.
Qed.

(** The loop passes over the keys under which the search finds nothing. *)
Lemma for_ikey_dict_skip (k : string) (d pre : list (string * pyval)) (ikeys : list pyval) :
  ~ In k (map fst pre) ->
  (forall k' child, In k' (map fst pre) -> dict_get k' d = Some child ->
                    search_json (PStr k) child = Ok PNone) ->
  (forall k', In k' (map fst pre) -> In k' (map fst d)) ->
  for_ikey (search_json (PStr k)) (PStr k) (PDict d)
           (map (fun kv => PStr (fst kv)) pre ++ ikeys)
  = for_ikey (search_json (PStr k)) (PStr k) (PDict d) ikeys.
Proof.
  induction pre as [|[k' v'] pre IH]; intros Hk Hnone Hdom; [reflexivity|].
  simpl in *.
  destruct (String.eqb k' k) eqn:E.
  { apply String.eqb_eq in E. tauto. }
  destruct (dict_get_is_Some k' d) as [child Hc]; [auto|].
  rewrite Hc. simpl. rewrite (Hnone k' child) by auto. simpl.
  apply IH; [tauto| |auto].
  intros k0 c0 Hin Hget. apply (Hnone k0 c0); auto.
Qed.

Lemma search_json_dict_prefix (k : string) (pre rest : list (string * pyval)) :
  ~ In k (map fst pre) ->
  (forall k' v', In (k', v') pre -> search_json (PStr k) v' = Ok PNone) ->
  search_json (PStr k) (PDict (pre ++ rest))
  = try_except
      (for_ikey (search_json (PStr k)) (PStr k) (PDict (pre ++ rest))
                (map (fun kv => PStr (fst kv)) rest))
      (fun _ => Ok PNone).
Proof.
  intros Hk Hnone. rewrite search_json_unfold. simpl.
  rewrite map_app. f_equal. apply for_ikey_dict_skip; [exact Hk| |].
  - intros k' child Hin Hget. rewrite dict_get_app_l in Hget by exact Hin.
    apply dict_get_In in Hget. eauto.
  - intros k' Hin. rewrite map_app. apply in_or_app. auto.
Qed.

(** ** search_json on a list *)

Lemma search_json_list_head (k : string) (x : pyval) (rest : list pyval) :
  as_index x = None -> search_json (PStr k) (PList (x :: rest)) = Ok PNone.
Proof.
  intros Hx. rewrite search_json_unfold. simpl.
  destruct (py_eq x (PStr k)); simpl; [reflexivity|].
  now rewrite Hx.
Qed.

(** ** Claims about search_json *)

(** C4. Whatever the key and the container (a value that cannot be
    enumerated, an index that raises, children of mixed shapes),
    [search_json] returns a value, found or [None]; it raises nothing,
    however few nested calls are left to it. *)
Theorem search_json_never_raises (key json_obj : pyval) :
  (exists v, search_json key json_obj = Ok v)
  /\ (forall depth, exists v, search_json_at (S depth) key json_obj = Ok v).
Proof.
  split; [apply search_json_total|].
  intros depth. simpl. apply try_except_total.
Qed.

(** C3, as the specification states it, fails: the key bound at the top
    level to 2 is enumerated after a key whose subtree holds it too, and
    the deeper value 1 is returned. *)
Lemma search_json_top_level_shadowed :
  ~ (forall (k : string) (d : list (string * pyval)) (v : pyval),
        dict_get k d = Some v -> search_json (PStr k) (PDict d) = Ok v).
Proof.
  intros Hclaim.
  specialize (Hclaim "k" [("a", PDict [("k", PInt 1)]); ("k", PInt 2)] (PInt 2) eq_refl).
  vm_compute in Hclaim. discriminate.
Qed.

(** C3, amended.  The top-level keys are tried in enumeration order, each
    one compared with the searched key first and its subtree searched
    otherwise.  The value bound to the searched key at the top level is
    returned when the search finds nothing under the keys enumerated before
    it; the first earlier subtree in which the search finds a value gives
    the result instead. *)
Theorem search_json_top_level_binding (k : string)
    (pre post : list (string * pyval)) :
  ~ In k (map fst pre) ->
  (forall k' v', In (k', v') pre -> search_json (PStr k) v' = Ok PNone) ->
  (forall v, search_json (PStr k) (PDict (pre ++ (k, v) :: post)) = Ok v)
  /\ (forall k' v' r,
         k' <> k -> ~ In k' (map fst pre) ->
         search_json (PStr k) v' = Ok r -> r <> PNone ->
         search_json (PStr k) (PDict (pre ++ (k', v') :: post)) = Ok r).
Proof.
  intros Hk Hnone. split.
  - intros v. rewrite search_json_dict_prefix by assumption. simpl.
    rewrite String.eqb_refl.
    rewrite dict_get_app_r by exact Hk. simpl.
    now rewrite String.eqb_refl.
  - intros k' v' r Hne Hk' Hr Hfound.
    rewrite search_json_dict_prefix by assumption. simpl.
    destruct (String.eqb k' k) eqn:E.
    { apply String.eqb_eq in E. contradiction. }
    rewrite dict_get_app_r by exact Hk'. simpl.
    rewrite String.eqb_refl. simpl. rewrite Hr. simpl.
    destruct r; simpl; congruence.
Qed.

Lemma search_json_top_level_binding_witness :
  search_json (PStr "k")
    (PDict ([("a", PDict [("x", PInt 1)])] ++ ("k", PInt 2) :: [("b", PDict [("k", PInt 3)])]))
  = Ok (PInt 2).
Proof.
  refine (proj1 (search_json_top_level_binding "k" [("a", PDict [("x", PInt 1)])]
                   [("b", PDict [("k", PInt 3)])] _ _) (PInt 2)).
  - simpl. intros [H|[]]. discriminate.
  - intros k' v' [H|[]]. injection H as <- <-. reflexivity.
Defined.

(** C10, as stated, fails: an integer element is a valid index, and the
    search follows it into the dict that is the next element. *)
Lemma search_json_list_found :
  ~ (forall (k : string) (v : pyval) (l : list pyval),
        In (PDict [(k, v)]) l -> search_json (PStr k) (PList l) = Ok PNone).
Proof.
  intros Hclaim.
  specialize (Hclaim "k" (PInt 1) [PInt 1; PDict [("k", PInt 1)]]).
  simpl in Hclaim. specialize (Hclaim (or_intror (or_introl eq_refl))).
  vm_compute in Hclaim. discriminate.
Qed.

(** C10, amended.  [search_json] indexes the container with each enumerated
    element.  In a list whose first element is no integer (or boolean) that
    element is no valid index, and the search for a string key returns
    [None]: so does [search_json("k", [{"k": 1}])].  An integer element is
    an index into the list, and a key inside a dict element can be found
    through it: [search_json("k", [1, {"k": 1}])] returns 1. *)
Theorem search_json_list_elements (k : string) (x : pyval) (rest : list pyval) :
  as_index x = None ->
  search_json (PStr k) (PList (x :: rest)) = Ok PNone
  /\ search_json (PStr "k") (PList [PDict [("k", PInt 1)]]) = Ok PNone
  /\ search_json (PStr "k") (PList [PInt 1; PDict [("k", PInt 1)]]) = Ok (PInt 1).
Proof.
  intros Hx. split; [now apply search_json_list_head|].
  split; reflexivity.
Qed.

Lemma search_json_list_elements_witness :
  search_json (PStr "k") (PList (PDict [("k", PInt 1)] :: [PStr "k"])) = Ok PNone.
Proof.
  apply (search_json_list_elements "k" (PDict [("k", PInt 1)]) [PStr "k"]).
  reflexivity.
Defined.

(** ** The Flask request view *)

Lemma dict_get_set {V} (k name : string) (v : V) (d : list (string * V)) :
  dict_get name (dict_set k v d) = if String.eqb k name then Some v else dict_get name d.
Proof.
  induction d as [|[k' v'] d IH]; simpl.
  - destruct (String.eqb k name); reflexivity.
  - destruct (String.eqb k' k) eqn:E; simpl.
    + apply String.eqb_eq in E. subst k'.
      destruct (String.eqb k name); reflexivity.
    + destruct (String.eqb k' name) eqn:E'.
      * apply String.eqb_eq in E'. subst k'.
        rewrite String.eqb_sym in E. now rewrite E.
      * exact IH.
Qed.

Lemma dict_get_fold_set {V} (f : string -> V) (name : string) (keys : list string)
    (acc : list (string * V)) :
  dict_get name (fold_left (fun res key => dict_set key (f key) res) keys acc)
  = if existsb (fun key => String.eqb key name) keys then Some (f name)
    else dict_get name acc.
Proof.
  revert acc. induction keys as [|k keys IH]; intros acc; simpl; [reflexivity|].
  rewrite IH, dict_get_set.
  destruct (String.eqb k name) eqn:E; simpl.
  - apply String.eqb_eq in E. subst k.
    destruct (existsb _ keys); reflexivity.
  - reflexivity.
Qed.

Lemma flask_keys_In (name : string) (params : list (string * string)) :
  In name (flask.keys params) <-> In name (map fst params).
Proof.
  induction params as [|[k v] params IH]; simpl; [tauto|].
  rewrite filter_In, IH.
  destruct (String.eqb name k) eqn:E.
  - apply String.eqb_eq in E. subst. tauto.
  - simpl. apply String.eqb_neq in E. intuition congruence.
Qed.

Lemma flask_keys_existsb (name : string) (params : list (string * string)) :
  existsb (fun key => String.eqb key name) (flask.keys params)
  = match dict_get name params with Some _ => true | None => false end.
Proof.
  destruct (dict_get name params) as [v|] eqn:Hg.
  - apply existsb_exists. exists name. split; [|apply String.eqb_refl].
    apply flask_keys_In. apply dict_get_In in Hg.
    apply in_map_iff. exists (name, v). auto.
  - apply dict_get_None in Hg.
    destruct (existsb _ _) eqn:Ex; [|reflexivity].
    apply existsb_exists in Ex as [key [Hin Heq]].
    apply String.eqb_eq in Heq. subst key.
    apply flask_keys_In in Hin. contradiction.
Qed.


(** C5, as stated, fails: PUT is a write verb, and the view of a PUT
    request leaves the body parameters out. *)
Lemma flask_view_put_ignores_body :
  ~ (forall (request : flask.Request) (name : string),
        spec_write_verb (flask.method request) = true ->
        exists d, transform_request_to_json_flask request [] = Ok (PDict d)
                  /\ dict_get name d = PStr <$> dict_get name (flask.values request)).
Proof.
  intros Hclaim.
  destruct (Hclaim {| flask.method := "PUT"; flask.args := [];
                      flask.form := [("a", "1")] |} "a" eq_refl)
    as [d [Hview Hget]].
  vm_compute in Hview. injection Hview as <-.
  vm_compute in Hget. discriminate.
Qed.

(** C5, amended.  Keyword arguments, when there are any and none of them
    is named [request], are the view verbatim.  Without keyword arguments
    the view is read from the combined query and body parameters when the
    method is POST, and from the query parameters for every other method
    (PUT, PATCH and DELETE included); it binds each parameter name to its
    first value. *)
Theorem transform_request_to_json_flask_view (request : flask.Request)
    (kwargs : list (string * pyval)) :
  (kwargs <> [] -> dict_get "request" kwargs = None ->
   transform_request_to_json_flask request kwargs = Ok (PDict kwargs))
  /\ (kwargs = [] ->
      exists d,
        transform_request_to_json_flask request kwargs = Ok (PDict d)
        /\ forall name,
            dict_get name d
            = PStr <$> dict_get name
                         (if String.eqb (flask.method request) "POST"
                          then flask.args request ++ flask.form request
                          else flask.args request)).
Proof.
  split.
  - intros Hne Hreq. unfold transform_request_to_json_flask. rewrite Hreq.
    destruct kwargs; [congruence|reflexivity].
  - intros ->. unfold transform_request_to_json_flask. simpl.
    eexists. split; [reflexivity|].
    intros name. rewrite dict_get_fold_set, flask_keys_existsb.
    unfold flask.get, flask.values.
    destruct (String.eqb (flask.method request) "POST");
      destruct (dict_get name _); reflexivity.
Qed.

Lemma transform_request_to_json_flask_view_witness :
  exists d,
    transform_request_to_json_flask
      {| flask.method := "POST"; flask.args := [("a", "1"); ("a", "2")];
         flask.form := [("b", "3"); ("a", "4")] |} []
    = Ok (PDict d)
    /\ forall name,
        dict_get name d
        = PStr <$> dict_get name ([("a", "1"); ("a", "2")] ++ [("b", "3"); ("a", "4")]).
Proof.
  exact (proj2 (transform_request_to_json_flask_view
                  {| flask.method := "POST"; flask.args := [("a", "1"); ("a", "2")];
                     flask.form := [("b", "3"); ("a", "4")] |} []) eq_refl).
Defined.

(** ** What a factory leaves in its closure *)

Lemma Counter_ok (name : string) w m w' : Counter name w = (Ok m, w') -> m = name.
Proof. unfold Counter. destruct (registered name w); congruence. Qed.

Lemma Gauge_ok (name : string) w m w' : Gauge name w = (Ok m, w') -> m = name.
Proof. unfold Gauge. destruct (registered name w); congruence. Qed.

Lemma Histogram_ok (name : string) (buckets : pyval) w m w' :
  Histogram name buckets w = (Ok m, w') -> m = name.
Proof. unfold Histogram. destruct (registered name w); congruence. Qed.

Section Closure.

Context {A : Type} (key : A -> string) (create : A -> M string) (name : string -> string).
Hypothesis create_name :
  forall x w m w', create x w = (Ok m, w') -> m = name (key x).

Lemma build_metrics_inv (l : list A) :
  forall acc w metrics w',
    build_metrics key create l acc w = (Ok metrics, w') ->
    (forall k m, dict_get k acc = Some m -> m = name k) ->
    (forall k m, dict_get k metrics = Some m -> m = name k)
    /\ (forall k, dict_get k acc <> None -> dict_get k metrics <> None)
    /\ (forall x, In x l -> dict_get (key x) metrics <> None).
Proof.
  induction l as [|x rest IH]; intros acc w metrics w' Hb Hacc; simpl in Hb.
  - injection Hb as <- <-. repeat split; auto.
  - unfold bindM in Hb. destruct (create x w) as [[m|e] w1] eqn:Hc; [|discriminate].
    apply create_name in Hc. subst m.
    destruct (IH _ _ _ _ Hb) as (Hval & Hkeep & Hnew).
    { intros k m. rewrite dict_get_set.
      destruct (String.eqb (key x) k) eqn:E; [|apply Hacc].
      apply String.eqb_eq in E. subst k. congruence. }
    split; [exact Hval|]. split.
    + intros k Hk. apply Hkeep. rewrite dict_get_set.
      destruct (String.eqb (key x) k); [discriminate|exact Hk].
    + intros y [<-|Hy]; [|auto].
      apply Hkeep. rewrite dict_get_set, String.eqb_refl. discriminate.
Qed.

(** Every element of the list finds its metric object in the closure. *)
Lemma build_metrics_lookup (l : list A) w metrics w' :
  build_metrics key create l [] w = (Ok metrics, w') ->
  forall x, In x l -> dict_get (key x) metrics = Some (name (key x)).
Proof.
  intros Hb x Hx.
  destruct (build_metrics_inv l _ _ _ _ Hb) as (Hval & _ & Hnew).
  { intros k m. discriminate. }
  specialize (Hnew x Hx).
  destruct (dict_get (key x) metrics) as [m|] eqn:E; [|contradiction].
  now rewrite (Hval _ _ E).
Qed.

End Closure.

(** ** A wrapper returns the result of its handler or raises *)


Lemma returns_or_raises_ret {A} (a : A) : returns_or_raises a (retM a).
Proof. intros w. left. now exists w. Qed.

Lemma returns_or_raises_bind {A B} (b : B) (m : M A) (k : A -> M B) :
  (forall a, returns_or_raises b (k a)) -> returns_or_raises b (bindM m k).
Proof.
  intros Hk w. unfold bindM.
  destruct (m w) as [[a|e] w1]; [apply Hk|].
  right. now exists e, w1.
Qed.

Section Produced.

Context `{Runtime}.
Variable self : Instrumentation.


(** A factory that succeeds returns its wrapper, closed over the metric
    objects it created. *)
Lemma factory_inv {C} (make : M C) (wrap : C -> handler -> handler) w0 dec w1 :
  bindM make (fun c => retM (wrap c)) w0 = (Ok dec, w1) ->
  exists c w, make w0 = (Ok c, w) /\ dec = wrap c.
Proof.
  unfold bindM, retM. destruct (make w0) as [[c|e] w]; [|discriminate].
  intros [= <- <-]. eauto.
Qed.

Lemma two_counters_inv (n1 n2 : string) (wrap : string -> string -> handler -> handler)
    w0 dec w1 :
  bindM (Counter n1) (fun c1 => bindM (Counter n2) (fun c2 => retM (wrap c1 c2))) w0
  = (Ok dec, w1) ->
  dec = wrap n1 n2.
Proof.
  unfold bindM, retM.
  destruct (Counter n1 w0) as [[c1|e] w] eqn:E1; [|discriminate].
  destruct (Counter n2 w) as [[c2|e] w'] eqn:E2; [|discriminate].
  apply Counter_ok in E1, E2. subst. congruence.
Qed.

Lemma produced_wrapper (dec : handler -> handler) :
  produced self dec ->
  (exists fp fn fk tk, dec = count_false_binary_feedback_wrapper self fp fn fk tk)
  \/ (exists cs feature values, dec = count_feature_wrapper self cs feature values)
  \/ (exists gs keys, dec = gauge_feature_wrapper self gs keys)
  \/ (exists hs keys, dec = hist_feature_wrapper self hs keys)
  \/ (exists p n rk tk, dec = count_binary_wrapper self p n rk tk)
  \/ (exists cs tk class_keys, dec = count_classes_wrapper self cs tk class_keys)
  \/ (exists gs keys, dec = gauge_output_wrapper self gs keys)
  \/ (exists hs keys, dec = hist_output_wrapper self hs keys).
Proof.
  intros [id fk tk w0 d w1 Hf|id feature values w0 d w1 Hf|id keys w0 d w1 Hf
         |id buckets keys w0 d w1 Hf|id rk tk w0 d w1 Hf|id tk cks w0 d w1 Hf
         |id keys w0 d w1 Hf|id buckets keys w0 d w1 Hf|id buckets w0 d w1 Hf].
  - apply two_counters_inv in Hf. left. eauto.
  - apply factory_inv in Hf as (c & w & _ & ->). right; left. eauto.
  - apply factory_inv in Hf as (c & w & _ & ->). do 2 right; left. eauto.
  - apply factory_inv in Hf as (c & w & _ & ->). do 3 right; left. eauto.
  - apply two_counters_inv in Hf. do 4 right; left. eauto.
  - apply factory_inv in Hf as (c & w & _ & ->). do 5 right; left. eauto.
  - apply factory_inv in Hf as (c & w & _ & ->). do 6 right; left. eauto.
  - apply factory_inv in Hf as (c & w & _ & ->). do 7 right. eauto.
  - apply factory_inv in Hf as (c & w & _ & ->). do 7 right. eauto.
Qed.

End Produced.

(** ** The applications of the concrete runs *)

Lemma Instrumentation_init_apps :
  @Instrumentation_init example_runtime "Flask" = Ok flask_app
  /\ @Instrumentation_init example_runtime "FastAPI" = Ok fastapi_app
  /\ @Instrumentation_init example_runtime "Django" = Raise ConfigError.
Proof. repeat split. Qed.

(** ** Claims about every decorator *)

(** C1, as stated, fails: the handler returns normally, the comparison of
    its string score with the threshold raises, and the caller gets the
    [TypeError] in place of the result. *)
Lemma wrapper_failure_reaches_caller :
  ~ (forall (rt : Runtime) (self : Instrumentation) (dec : handler -> handler)
            (func : handler) args kwargs w resp_obj w1,
        produced self dec ->
        func args kwargs w = (Ok resp_obj, w1) ->
        exists w', dec func args kwargs w = (Ok resp_obj, w')).
Proof.
  intros Hclaim.
  destruct (Hclaim example_runtime fastapi_app
              (count_binary_wrapper fastapi_app "m_pos" "m_neg" (PStr "score") PNone)
              (const_handler (RValue (PDict [("score", PStr "high")])))
              [] [] idle (RValue (PDict [("score", PStr "high")])) idle)
    as [w' Hrun].
  - eapply (produced_count_binary fastapi_app "m" (PStr "score") PNone idle).
    reflexivity.
  - reflexivity.
  - vm_compute in Hrun. discriminate.
Qed.

(** ** Counters *)


Lemma Counter_inc_exactly (c : string) (w : world) :
  exists w', Counter_inc c w = (Ok tt, w') /\ incremented_exactly c w w'.
Proof.
  eexists. split; [reflexivity|].
  unfold incremented_exactly, counter_value. simpl.
  rewrite lookup_insert_eq. repeat split.
  intros c' Hne. now rewrite lookup_insert_ne.
Qed.

Lemma incremented_exactly_other (c c' : string) (w w' : world) :
  incremented_exactly c w w' -> c' <> c -> counter_value w' c' = counter_value w c'.
Proof. intros (_ & Hother & _) Hne. unfold counter_value. now rewrite Hother. Qed.

Lemma append_inj_l (s a b : string) : s +:+ a = s +:+ b -> a = b.
Proof. induction s as [|c s IH]; simpl; [auto|]. intros [= E]. auto. Qed.

(** ** C6: the output-binary decorator on a score *)

Lemma search_score (v : pyval) :
  search_json (PStr "score") (PDict [("score", v)]) = Ok v.
Proof. rewrite search_json_unfold. reflexivity. Qed.

Lemma float_0_7_above : (float_0_7 ?= 1 # 2)%Q = Gt.
Proof. reflexivity. Qed.

Lemma float_0_3_below : (float_0_3 ?= 1 # 2)%Q = Lt.
Proof. reflexivity. Qed.

(** C6. The decorator of [count_binary] with [result_key = "score"] and
    no threshold key: a response view [{"score": 0.7}] increments exactly
    the positive counter, [{"score": 0.3}] exactly the negative counter, and
    [{}] leaves the state as the handler left it. *)
Theorem count_binary_score `{Runtime} (self : Instrumentation) (id : string)
    (dec : handler -> handler) w0 w0' (func : handler) args kwargs w resp_obj w1 :
  count_binary self id (PStr "score") PNone w0 = (Ok dec, w0') ->
  func args kwargs w = (Ok resp_obj, w1) ->
  (transform_response self resp_obj = Ok (PDict [("score", PFloat float_0_7)]) ->
   exists w', dec func args kwargs w = (Ok resp_obj, w')
              /\ incremented_exactly (id +:+ "_pos") w1 w'
              /\ counter_value w' (id +:+ "_neg") = counter_value w1 (id +:+ "_neg"))
  /\ (transform_response self resp_obj = Ok (PDict [("score", PFloat float_0_3)]) ->
      exists w', dec func args kwargs w = (Ok resp_obj, w')
                 /\ incremented_exactly (id +:+ "_neg") w1 w'
                 /\ counter_value w' (id +:+ "_pos") = counter_value w1 (id +:+ "_pos"))
  /\ (transform_response self resp_obj = Ok (PDict []) ->
      dec func args kwargs w = (Ok resp_obj, w1)).
Proof.
  intros Hdec Hfunc. apply two_counters_inv in Hdec. subst dec.
  assert (Hne : id +:+ "_neg" <> id +:+ "_pos").
  { intros E. apply append_inj_l in E. discriminate. }
  unfold count_binary_wrapper, resolve_threshold.
  rewrite (bindM_ok _ _ _ _ _ Hfunc).
  repeat split; intros Hview; rewrite (bindM_lift_ok _ _ _ _ Hview).
  - rewrite (bindM_lift_ok _ _ _ _ (search_score _)).
    destruct (Counter_inc_exactly (id +:+ "_pos") w1) as (w' & Hinc & Hex).
    exists w'. split; [|split; [exact Hex|]].
    + unfold bindM, liftM, retM. cbn. now rewrite float_0_7_above, Hinc.
    + apply (incremented_exactly_other _ _ _ _ Hex Hne).
  - rewrite (bindM_lift_ok _ _ _ _ (search_score _)).
    destruct (Counter_inc_exactly (id +:+ "_neg") w1) as (w' & Hinc & Hex).
    exists w'. split; [|split; [exact Hex|]].
    + unfold bindM, liftM, retM. cbn. now rewrite float_0_3_below, Hinc.
    + apply (incremented_exactly_other _ _ _ _ Hex). congruence.
  - reflexivity.
Qed.

Lemma count_binary_score_witness :
  exists w',
    count_binary_wrapper fastapi_app "m_pos" "m_neg" (PStr "score") PNone
      (const_handler (RValue (PDict [("score", PFloat float_0_7)]))) [] [] idle
    = (Ok (RValue (PDict [("score", PFloat float_0_7)])), w')
    /\ incremented_exactly "m_pos" idle w'
    /\ counter_value w' "m_neg" = counter_value idle "m_neg".
Proof.
  refine (proj1 (@count_binary_score example_runtime fastapi_app "m" _ idle _
                   (const_handler (RValue (PDict [("score", PFloat float_0_7)])))
                   [] [] idle _ idle _ _) _);
    reflexivity.
Defined.

(** ** C7: the feature-count decorator *)

Section CountFeature.

Context `{Runtime}.
Variables (self : Instrumentation) (id feature : string).

Lemma count_feature_inv (values : list pyval) w0 dec w0' :
  count_feature self id feature values w0 = (Ok dec, w0') ->
  exists counters,
    dec = count_feature_wrapper self counters feature values
    /\ forall val, In val values ->
         dict_get (feature +:+ "_" +:+ py_str val) counters = Some (counter_name id feature val).
Proof.
  intros Hdec. apply factory_inv in Hdec as (counters & w & Hb & ->).
  exists counters. split; [reflexivity|].
  intros val Hval.
  apply (build_metrics_lookup _ _ (fun k => id +:+ "_" +:+ k)) with (x := val) in Hb;
    [exact Hb| |assumption].
  intros x w2 m w2' Hc. now apply Counter_ok in Hc.
Qed.

(** The loop stops at the first enumerated value equal to the feature
    field and increments the counter of that value. *)
Lemma count_feature_loop_first (counters : list (string * string))
    (view x val : pyval) (pre post : list pyval) (w : world) :
  py_getitem view (PStr feature) = Ok x ->
  (forall v, In v pre -> py_eq x v = false) ->
  py_eq x val = true ->
  dict_get (feature +:+ "_" +:+ py_str val) counters = Some (counter_name id feature val) ->
  count_feature_loop counters feature view (pre ++ val :: post) w
  = Counter_inc (counter_name id feature val) w.
Proof.
  intros Hx Hpre Hval Hc.
  induction pre as [|v pre IH]; simpl.
  - rewrite (bindM_lift_ok _ _ _ _ Hx), Hval.
    unfold closure_get. rewrite Hc. reflexivity.
  - rewrite (bindM_lift_ok _ _ _ _ Hx), (Hpre v) by (simpl; auto).
    apply IH. intros; apply Hpre; simpl; auto.
Qed.

Lemma count_feature_loop_no_match (counters : list (string * string))
    (view x : pyval) (values : list pyval) (w : world) :
  py_getitem view (PStr feature) = Ok x ->
  (forall v, In v values -> py_eq x v = false) ->
  count_feature_loop counters feature view values w = (Ok tt, w).
Proof.
  intros Hx Hall.
  induction values as [|v values IH]; simpl; [reflexivity|].
  rewrite (bindM_lift_ok _ _ _ _ Hx), (Hall v) by (simpl; auto).
  apply IH. intros; apply Hall; simpl; auto.
Qed.

Lemma count_feature_run (values : list pyval) (counters : list (string * string))
    (func : handler) args kwargs w resp_obj w1 r view :
  func args kwargs w = (Ok resp_obj, w1) ->
  request w1 = Some r ->
  transform_request self r kwargs = Ok view ->
  count_feature_wrapper self counters feature values func args kwargs w
  = bindM (count_feature_loop counters feature view values)
          (fun _ => retM resp_obj) w1.
Proof.
  intros Hfunc Hreq Hview. unfold count_feature_wrapper.
  rewrite (bindM_ok _ _ _ _ _ Hfunc).
  rewrite (bindM_ok global_request _ w1 r w1)
    by (unfold global_request; now rewrite Hreq).
  now rewrite (bindM_lift_ok _ _ _ _ Hview).
Qed.

(** C7. Each call of the decorator of [count_feature] increments exactly
    the counter of the first enumerated value equal to the feature field
    of the request view, whatever follows that value in the list; when no
    enumerated value is equal, no counter changes.  With the values 1, 2,
    3 and the feature field 2, the counter for 2 goes up by one and the
    counters for 1 and 3 stay as they were. *)
Theorem count_feature_first_equal (values : list pyval) (dec : handler -> handler)
    w0 w0' (func : handler) args kwargs w resp_obj w1 r view x :
  count_feature self id feature values w0 = (Ok dec, w0') ->
  func args kwargs w = (Ok resp_obj, w1) ->
  request w1 = Some r ->
  transform_request self r kwargs = Ok view ->
  py_getitem view (PStr feature) = Ok x ->
  (forall pre val post,
      values = pre ++ val :: post ->
      (forall v, In v pre -> py_eq x v = false) ->
      py_eq x val = true ->
      exists w', dec func args kwargs w = (Ok resp_obj, w')
                 /\ incremented_exactly (counter_name id feature val) w1 w')
  /\ ((forall v, In v values -> py_eq x v = false) ->
      dec func args kwargs w = (Ok resp_obj, w1))
  /\ (values = [PInt 1; PInt 2; PInt 3] -> x = PInt 2 ->
      exists w', dec func args kwargs w = (Ok resp_obj, w')
                 /\ counter_value w' (counter_name id feature (PInt 2))
                    = S (counter_value w1 (counter_name id feature (PInt 2)))
                 /\ counter_value w' (counter_name id feature (PInt 1))
                    = counter_value w1 (counter_name id feature (PInt 1))
                 /\ counter_value w' (counter_name id feature (PInt 3))
                    = counter_value w1 (counter_name id feature (PInt 3))).
Proof.
  intros Hdec Hfunc Hreq Hview Hx.
  apply count_feature_inv in Hdec as (counters & -> & Hclosure).
  rewrite (count_feature_run _ _ _ _ _ _ _ _ _ _ Hfunc Hreq Hview).
  assert (Hfirst : forall pre val post,
             values = pre ++ val :: post ->
             (forall v, In v pre -> py_eq x v = false) ->
             py_eq x val = true ->
             exists w', bindM (count_feature_loop counters feature view values)
                              (fun _ => retM resp_obj) w1 = (Ok resp_obj, w')
                        /\ incremented_exactly (counter_name id feature val) w1 w').
  { intros pre val post Hvalues Hpre Hval.
    destruct (Counter_inc_exactly (counter_name id feature val) w1) as (w' & Hinc & Hex).
    exists w'. split; [|exact Hex].
    unfold bindM. rewrite Hvalues.
    rewrite (count_feature_loop_first counters view x val pre post w1 Hx Hpre Hval).
    - now rewrite Hinc.
    - apply Hclosure. rewrite Hvalues. apply in_or_app. simpl. auto. }
  split; [exact Hfirst|]. split.
  - intros Hnone. unfold bindM.
    now rewrite (count_feature_loop_no_match counters view x values w1 Hx Hnone).
  - intros Hvalues ->.
    destruct (Hfirst [PInt 1] (PInt 2) [PInt 3]) as (w' & Hrun & Hex);
      [exact Hvalues| |reflexivity|].
    { intros v [<-|[]]. reflexivity. }
    exists w'. split; [exact Hrun|]. split; [apply Hex|].
    split; apply (incremented_exactly_other _ _ _ _ Hex);
      intros E; unfold counter_name in E;
      do 4 apply append_inj_l in E; discriminate.
Qed.

End CountFeature.

Lemma count_feature_first_equal_witness :
  exists w',
    @count_feature_wrapper example_runtime fastapi_app
      [("f_1", "m_f_1"); ("f_2", "m_f_2"); ("f_3", "m_f_3")] "f"
      [PInt 1; PInt 2; PInt 3]
      (const_handler (RValue PNone)) [] [("f", PInt 2)] idle
    = (Ok (RValue PNone), w')
    /\ incremented_exactly "m_f_2" idle w'.
Proof.
  refine (proj1 (@count_feature_first_equal example_runtime fastapi_app "m" "f"
                   [PInt 1; PInt 2; PInt 3] _ idle _ (const_handler (RValue PNone))
                   [] [("f", PInt 2)] idle (RValue PNone) idle _ _ (PInt 2)
                   _ _ _ _ _)
                [PInt 1] (PInt 2) [PInt 3] _ _ _);
    try reflexivity.
  intros v [<-|[]]. reflexivity.
Defined.

(** ** C8: a threshold key that the view does not hold *)

Lemma py_gt_None (v : pyval) : py_gt v PNone = Raise TypeError.
Proof. destruct v as [|[]| | | | | |]; reflexivity. Qed.

Lemma number_not_none (v : pyval) (q : Q) : as_number v = Some q -> is_none v = false.
Proof. destruct v; simpl; congruence. Qed.

Section MissingThreshold.

Variable self : Instrumentation.

(** With the threshold [None], the loop of [count_classes] raises at the
    first class whose value is found, before any counter moves. *)
Lemma count_classes_loop_None (counters : list (string * string)) (view : pyval)
    (names : list string) (cls : string) (value : pyval) (w : world) :
  In cls names ->
  search_json (PStr cls) view = Ok value -> is_none value = false ->
  for_each (fun cls =>
              value <- liftM (search_json (PStr cls) view) ;;
              if negb (is_none value) then
                above <- liftM (py_gt value PNone) ;;
                if above : bool then
                  c <- closure_get cls counters ;;
                  Counter_inc c
                else retM tt
              else retM tt)
           names w
  = (Raise TypeError, w).
Proof.
  intros Hin Hcls Hval.
  induction names as [|cls0 names IH]; [contradiction|]. simpl.
  destruct (search_json_total (PStr cls0) view) as [v0 Hv0].
  unfold bindM at 1. unfold bindM at 1. rewrite Hv0. unfold liftM at 1.
  destruct (is_none v0) eqn:E0; simpl.
  - apply IH. destruct Hin as [->|Hin]; [|exact Hin]. congruence.
  - unfold bindM, liftM. now rewrite py_gt_None.
Qed.

(** C8. When a threshold key was given to the factory and the response
    view does not hold it, the threshold is [None], not 0.5; a call of the
    decorator of [count_binary] whose result value is a number, and a
    call of the decorator of [count_classes] with a class whose value is
    a number, then raise the [TypeError] of the comparison out of the
    wrapper, and no counter moves. *)
Theorem missing_threshold_raises (id : string) (threshold_key : pyval)
    (func : handler) args kwargs w resp_obj w1 view :
  py_truthy threshold_key = true ->
  func args kwargs w = (Ok resp_obj, w1) ->
  transform_response self resp_obj = Ok view ->
  search_json threshold_key view = Ok PNone ->
  resolve_threshold threshold_key view = Ok PNone
  /\ (forall result_key dec w0 w0' value q,
         count_binary self id result_key threshold_key w0 = (Ok dec, w0') ->
         search_json result_key view = Ok value -> as_number value = Some q ->
         dec func args kwargs w = (Raise TypeError, w1))
  /\ (forall class_keys dec w0 w0' cls value q,
         count_classes self id threshold_key class_keys w0 = (Ok dec, w0') ->
         In cls (map fst class_keys) ->
         search_json (PStr cls) view = Ok value -> as_number value = Some q ->
         dec func args kwargs w = (Raise TypeError, w1)).
Proof.
  intros Htk Hfunc Hview Habsent.
  assert (Hthr : resolve_threshold threshold_key view = Ok PNone).
  { unfold resolve_threshold. now rewrite Htk. }
  split; [exact Hthr|]. split.
  - intros result_key dec w0 w0' value q Hdec Hvalue Hnum.
    apply two_counters_inv in Hdec. subst dec.
    unfold count_binary_wrapper.
    rewrite (bindM_ok _ _ _ _ _ Hfunc).
    rewrite (bindM_lift_ok _ _ _ _ Hview), (bindM_lift_ok _ _ _ _ Hvalue).
    rewrite (bindM_lift_ok _ _ _ _ Hthr).
    rewrite (number_not_none _ _ Hnum). simpl.
    unfold bindM, liftM. now rewrite py_gt_None.
  - intros class_keys dec w0 w0' cls value q Hdec Hin Hvalue Hnum.
    apply factory_inv in Hdec as (counters & w2 & _ & ->).
    unfold count_classes_wrapper.
    rewrite (bindM_ok _ _ _ _ _ Hfunc).
    rewrite (bindM_lift_ok _ _ _ _ Hview), (bindM_lift_ok _ _ _ _ Hthr).
    apply bindM_raise.
    apply (count_classes_loop_None counters view _ cls value w1 Hin Hvalue).
    apply (number_not_none _ _ Hnum).
Qed.

End MissingThreshold.

Lemma missing_threshold_raises_witness :
  count_binary_wrapper fastapi_app "m_pos" "m_neg" (PStr "score") (PStr "cutoff")
    (const_handler (RValue (PDict [("score", PFloat float_0_7)]))) [] [] idle
  = (Raise TypeError, idle).
Proof.
  refine (proj1 (proj2 (@missing_threshold_raises fastapi_app "m"
                          (PStr "cutoff")
                          (const_handler (RValue (PDict [("score", PFloat float_0_7)])))
                          [] [] idle _ idle (PDict [("score", PFloat float_0_7)])
                          _ _ _ _))
                (PStr "score") _ idle _ (PFloat float_0_7) float_0_7 _ _ _);
    reflexivity.
Defined.

(** ** Which metric objects a call leaves alone *)


Lemma metric_unchanged_refl (name : string) (w : world) : metric_unchanged name w w.
Proof. repeat split. Qed.

Lemma metric_unchanged_trans (name : string) (w1 w2 w3 : world) :
  metric_unchanged name w1 w2 -> metric_unchanged name w2 w3 ->
  metric_unchanged name w1 w3.
Proof.
  intros (Hc1 & Hg1 & Hh1) (Hc2 & Hg2 & Hh2).
  repeat split; congruence.
Qed.

Lemma Counter_inc_other (c name : string) (w : world) r w' :
  c <> name -> Counter_inc c w = (r, w') -> metric_unchanged name w w'.
Proof.
  intros Hne [= _ <-]. repeat split. simpl. now rewrite lookup_insert_ne.
Qed.

Lemma Gauge_set_other `{Runtime} (g name : string) (v : pyval) (w : world) r w' :
  g <> name -> Gauge_set g v w = (r, w') -> metric_unchanged name w w'.
Proof.
  intros Hne. unfold Gauge_set. destruct (gauge_float v); intros [= _ <-].
  - repeat split. simpl. now rewrite lookup_insert_ne.
  - apply metric_unchanged_refl.
Qed.

Lemma Histogram_observe_other `{Runtime} (h name : string) (v : pyval) (w : world) r w' :
  h <> name -> Histogram_observe h v w = (r, w') -> metric_unchanged name w w'.
Proof.
  intros Hne. unfold Histogram_observe. destruct (observe_amount v); intros [= _ <-].
  - repeat split. simpl. now rewrite lookup_insert_ne.
  - apply metric_unchanged_refl.
Qed.

Lemma for_each_frame {A} (P : world -> world -> Prop) (body : A -> M unit) (l : list A) :
  (forall w, P w w) ->
  (forall w1 w2 w3, P w1 w2 -> P w2 w3 -> P w1 w3) ->
  (forall x w r w', In x l -> body x w = (r, w') -> P w w') ->
  forall w r w', for_each body l w = (r, w') -> P w w'.
Proof.
  intros Hrefl Htrans Hbody.
  induction l as [|x l IH]; intros w r w'; simpl.
  - intros [= _ <-]. apply Hrefl.
  - unfold bindM. destruct (body x w) as [[[]|e] w2] eqn:Hx.
    + intros Hrest. apply (Htrans w w2 w').
      * eapply Hbody; [simpl; auto|exact Hx].
      * apply IH in Hrest; [exact Hrest|]. intros; eapply Hbody; simpl; eauto.
    + intros [= _ <-]. eapply Hbody; [simpl; auto|exact Hx].
Qed.

Lemma for_each_all_skip {A} (body : A -> M unit) (l : list A) (w : world) :
  (forall x, In x l -> body x w = (Ok tt, w)) -> for_each body l w = (Ok tt, w).
Proof.
  induction l as [|x l IH]; intros Hskip; simpl; [reflexivity|].
  rewrite (bindM_ok _ _ _ _ _ (Hskip x (or_introl eq_refl))).
  apply IH. intros; apply Hskip; simpl; auto.
Qed.

(** A wrapper that ends with its loop stops in the state the loop stops in. *)
Lemma loop_then_return (loop : M unit) (resp_obj : response) (w : world) r w' :
  bindM loop (fun _ => retM resp_obj) w = (r, w') ->
  exists r0, loop w = (r0, w') /\ (r0 = Ok tt -> r = Ok resp_obj)
             /\ (forall e, r0 = Raise e -> r = Raise e).
Proof.
  unfold bindM, retM. destruct (loop w) as [[[]|e] w2]; intros [= <- <-].
  - exists (Ok tt). repeat split; congruence.
  - exists (Raise e). repeat split; congruence.
Qed.

(** ** C2: a looked-up field that the view does not hold *)

Section OutputSkip.

Context `{Runtime}.
Variable self : Instrumentation.


Lemma resolve_threshold_total (threshold_key view : pyval) :
  exists t, resolve_threshold threshold_key view = Ok t.
Proof.
  unfold resolve_threshold. destruct (py_truthy threshold_key); [|eauto].
  apply search_json_total.
Qed.

Lemma name_inj (id a b : string) : id +:+ "_" +:+ a = id +:+ "_" +:+ b -> a = b.
Proof. intros E. now do 2 apply append_inj_l in E. Qed.

(** The closure of a factory with one metric object per key. *)
Lemma keyed_closure (create : string -> M string) (id : string) (keys : list string)
    (wrap : list (string * string) -> handler -> handler) w0 dec w1 :
  (forall x w m w', create x w = (Ok m, w') -> m = id +:+ "_" +:+ x) ->
  bindM (build_metrics (fun key => key) create keys []) (fun c => retM (wrap c)) w0
  = (Ok dec, w1) ->
  exists metrics,
    dec = wrap metrics
    /\ forall x, In x keys -> dict_get x metrics = Some (id +:+ "_" +:+ x).
Proof.
  intros Hcreate Hdec. apply factory_inv in Hdec as (metrics & w & Hb & ->).
  exists metrics. split; [reflexivity|]. intros x Hx.
  exact (build_metrics_lookup (fun key => key) create (fun k => id +:+ "_" +:+ k)
           Hcreate keys _ _ _ Hb x Hx).
Qed.

Lemma specific_histogram_name (id : string) (buckets : list (string * pyval))
    (val : string) w m w' :
  bindM (liftM (py_getitem (PDict buckets) (PStr val)))
        (fun b => Histogram (id +:+ "_" +:+ val) b) w = (Ok m, w') ->
  m = id +:+ "_" +:+ val.
Proof.
  unfold bindM, liftM. destruct (py_getitem _ _); [|discriminate].
  apply Histogram_ok.
Qed.

(** The loop of a gauge or histogram output policy leaves the metric of an
    absent key alone. *)
Lemma keyed_loop_frame (update : string -> pyval -> M unit)
    (metrics : list (string * string)) (id key : string) (view : pyval)
    (keys : list string) :
  (forall m v w r w', m <> id +:+ "_" +:+ key -> update m v w = (r, w') ->
                      metric_unchanged (id +:+ "_" +:+ key) w w') ->
  (forall x, In x keys -> dict_get x metrics = Some (id +:+ "_" +:+ x)) ->
  search_json (PStr key) view = Ok PNone ->
  forall w r w',
    for_each (fun k =>
                value <- liftM (search_json (PStr k) view) ;;
                if negb (is_none value) then
                  m <- closure_get k metrics ;;
                  update m value
                else retM tt)
             keys w = (r, w') ->
    metric_unchanged (id +:+ "_" +:+ key) w w'.
Proof.
  intros Hupdate Hclosure Habsent.
  apply for_each_frame;
    [apply metric_unchanged_refl|apply metric_unchanged_trans|].
  intros x w r w' Hx.
  destruct (search_json_total (PStr x) view) as [v Hv].
  rewrite (bindM_lift_ok _ _ _ _ Hv).
  destruct (is_none v) eqn:Ev; simpl.
  - intros [= _ <-]. apply metric_unchanged_refl.
  - unfold closure_get. rewrite (Hclosure x Hx).
    rewrite (bindM_lift_ok _ _ _ _ eq_refl).
    apply Hupdate. intros E. apply name_inj in E. subst x.
    rewrite Habsent in Hv. injection Hv as <-. discriminate.
Qed.

(** The loop of [count_classes] leaves the counter of an absent class
    alone. *)
Lemma classes_loop_frame (counters : list (string * string)) (id key : string)
    (view threshold : pyval) (names : list string) :
  (forall x, In x names -> dict_get x counters = Some (id +:+ "_" +:+ x)) ->
  search_json (PStr key) view = Ok PNone ->
  forall w r w',
    for_each (fun cls =>
                value <- liftM (search_json (PStr cls) view) ;;
                if negb (is_none value) then
                  above <- liftM (py_gt value threshold) ;;
                  if above : bool then
                    c <- closure_get cls counters ;;
                    Counter_inc c
                  else retM tt
                else retM tt)
             names w = (r, w') ->
    metric_unchanged (id +:+ "_" +:+ key) w w'.
Proof.
  intros Hclosure Habsent.
  apply for_each_frame;
    [apply metric_unchanged_refl|apply metric_unchanged_trans|].
  intros x w r w' Hx.
  destruct (search_json_total (PStr x) view) as [v Hv].
  rewrite (bindM_lift_ok _ _ _ _ Hv).
  destruct (is_none v) eqn:Ev; simpl.
  - intros [= _ <-]. apply metric_unchanged_refl.
  - unfold bindM at 1, liftM at 1.
    destruct (py_gt v threshold) as [[]|e].
    + unfold closure_get. rewrite (Hclosure x Hx).
      rewrite (bindM_lift_ok _ _ _ _ eq_refl).
      apply Counter_inc_other. intros E. apply name_inj in E. subst x.
      rewrite Habsent in Hv. injection Hv as <-. discriminate.
    + intros [= _ <-]. apply metric_unchanged_refl.
    + intros [= _ <-]. apply metric_unchanged_refl.
Qed.

End OutputSkip.

(** C2, as stated, fails on the request side: the decorator of
    [gauge_feature] indexes the request view with the feature key, and the
    [KeyError] of an absent key leaves the wrapper. *)
Lemma absent_feature_is_an_error :
  ~ (forall (rt : Runtime) (self : Instrumentation) (id feature : string)
            (dec : handler -> handler) w0 w0' (func : handler) args kwargs w
            resp_obj w1 r d,
        gauge_feature self id [feature] w0 = (Ok dec, w0') ->
        func args kwargs w = (Ok resp_obj, w1) ->
        request w1 = Some r ->
        transform_request self r kwargs = Ok (PDict d) ->
        dict_get feature d = None ->
        exists w', dec func args kwargs w = (Ok resp_obj, w')).
Proof.
  intros Hclaim.
  destruct (Hclaim example_runtime flask_app "m" "f"
              (@gauge_feature_wrapper example_runtime flask_app [("f", "m_f")] ["f"])
              idle
              (snd (@gauge_feature example_runtime flask_app "m" ["f"] idle))
              (const_handler (RValue PNone)) [] [] idle (RValue PNone) idle
              {| flask.method := "GET"; flask.args := []; flask.form := [] |} [])
    as [w' Hrun]; try reflexivity.
  vm_compute in Hrun. discriminate.
Qed.

(** C2, amended.  The output policies ([count_binary], [count_classes],
    [gauge_output], [hist_output], [hist_output_specific]) skip a result
    value that the response view does not hold: when none of the keys a
    decorator looks up is found, the call returns the handler's result and
    no metric has changed; and whatever the other keys give, the metric of
    a key that is not found is not updated. *)
Theorem output_absent_skips `{Runtime} (self : Instrumentation)
    (dec : handler -> handler) (func : handler) args kwargs w resp_obj w1 view :
  func args kwargs w = (Ok resp_obj, w1) ->
  transform_response self resp_obj = Ok view ->
  (forall keys,
      output_decorator self keys dec ->
      (forall key, In key keys -> search_json key view = Ok PNone) ->
      dec func args kwargs w = (Ok resp_obj, w1))
  /\ (forall id keys key r w',
         keyed_output_decorator self id keys dec ->
         In key keys ->
         search_json (PStr key) view = Ok PNone ->
         dec func args kwargs w = (r, w') ->
         metric_unchanged (id +:+ "_" +:+ key) w1 w').
Proof.
  intros Hfunc Hview. split.
  - intros keys Hdec Habsent.
    assert (Hloop : forall (body : pyval -> string -> M unit) names,
               (forall key, In key (map PStr names) -> search_json key view = Ok PNone) ->
               (forall name value, is_none value = true -> forall w2, body value name w2 = (Ok tt, w2)) ->
               for_each (fun name => value <- liftM (search_json (PStr name) view) ;;
                                     body value name) names w1 = (Ok tt, w1)).
    { intros body names Hnames Hbody. apply for_each_all_skip. intros name Hin.
      rewrite (bindM_lift_ok _ _ _ _ (Hnames (PStr name) (in_map PStr _ _ Hin))).
      now apply Hbody. }
    destruct Hdec as [id rk tk w0 dec w0' Hdec|id tk cks w0 dec w0' Hdec
                     |id vks w0 dec w0' Hdec|id bs vks w0 dec w0' Hdec
                     |id bs w0 dec w0' Hdec].
    + apply two_counters_inv in Hdec. subst dec. unfold count_binary_wrapper.
      rewrite (bindM_ok _ _ _ _ _ Hfunc), (bindM_lift_ok _ _ _ _ Hview).
      rewrite (bindM_lift_ok _ _ _ _ (Habsent rk (or_introl eq_refl))).
      destruct (resolve_threshold_total tk view) as [t Ht].
      now rewrite (bindM_lift_ok _ _ _ _ Ht).
    + apply factory_inv in Hdec as (cs & w2 & _ & ->). unfold count_classes_wrapper.
      rewrite (bindM_ok _ _ _ _ _ Hfunc), (bindM_lift_ok _ _ _ _ Hview).
      destruct (resolve_threshold_total tk view) as [t Ht].
      rewrite (bindM_lift_ok _ _ _ _ Ht).
      erewrite bindM_ok; [reflexivity|].
      apply (Hloop (fun value cls =>
                      if negb (is_none value) then
                        above <- liftM (py_gt value t) ;;
                        if above : bool then c <- closure_get cls cs ;; Counter_inc c
                        else retM tt
                      else retM tt)); [exact Habsent|].
      intros name value ->. reflexivity.
    + apply factory_inv in Hdec as (gs & w2 & _ & ->). unfold gauge_output_wrapper.
      rewrite (bindM_ok _ _ _ _ _ Hfunc), (bindM_lift_ok _ _ _ _ Hview).
      erewrite bindM_ok; [reflexivity|].
      apply (Hloop (fun value key =>
                      if negb (is_none value) then
                        g <- closure_get key gs ;; Gauge_set g value
                      else retM tt)); [exact Habsent|].
      intros name value ->. reflexivity.
    + apply factory_inv in Hdec as (hs & w2 & _ & ->). unfold hist_output_wrapper.
      rewrite (bindM_ok _ _ _ _ _ Hfunc), (bindM_lift_ok _ _ _ _ Hview).
      erewrite bindM_ok; [reflexivity|].
      apply (Hloop (fun value key =>
                      if negb (is_none value) then
                        h <- closure_get key hs ;; Histogram_observe h value
                      else retM tt)); [exact Habsent|].
      intros name value ->. reflexivity.
    + apply factory_inv in Hdec as (hs & w2 & _ & ->). unfold hist_output_wrapper.
      rewrite (bindM_ok _ _ _ _ _ Hfunc), (bindM_lift_ok _ _ _ _ Hview).
      erewrite bindM_ok; [reflexivity|].
      apply (Hloop (fun value key =>
                      if negb (is_none value) then
                        h <- closure_get key hs ;; Histogram_observe h value
                      else retM tt)); [exact Habsent|].
      intros name value ->. reflexivity.
  - intros id keys key r w' Hdec Hin Habsent.
    destruct Hdec as [id tk cks w0 dec w0' Hdec|id vks w0 dec w0' Hdec
                     |id bs vks w0 dec w0' Hdec|id bs w0 dec w0' Hdec].
    + apply keyed_closure with (id := id) in Hdec as (cs & -> & Hclosure);
        [|intros x w2 m w2' Hc; now apply Counter_ok in Hc].
      unfold count_classes_wrapper.
      rewrite (bindM_ok _ _ _ _ _ Hfunc), (bindM_lift_ok _ _ _ _ Hview).
      destruct (resolve_threshold_total tk view) as [t Ht].
      rewrite (bindM_lift_ok _ _ _ _ Ht).
      intros Hrun. apply loop_then_return in Hrun as (r0 & Hrun & _).
      exact (classes_loop_frame cs id key view t _ Hclosure Habsent _ _ _ Hrun).
    + apply keyed_closure with (id := id) in Hdec as (gs & -> & Hclosure);
        [|intros x w2 m w2' Hc; now apply Gauge_ok in Hc].
      unfold gauge_output_wrapper.
      rewrite (bindM_ok _ _ _ _ _ Hfunc), (bindM_lift_ok _ _ _ _ Hview).
      intros Hrun. apply loop_then_return in Hrun as (r0 & Hrun & _).
      refine (keyed_loop_frame Gauge_set gs id key view _ _ Hclosure Habsent _ _ _ Hrun).
      intros m v w2 r2 w2'. apply Gauge_set_other.
    + apply keyed_closure with (id := id) in Hdec as (hs & -> & Hclosure);
        [|intros x w2 m w2' Hc; now apply Histogram_ok in Hc].
      unfold hist_output_wrapper.
      rewrite (bindM_ok _ _ _ _ _ Hfunc), (bindM_lift_ok _ _ _ _ Hview).
      intros Hrun. apply loop_then_return in Hrun as (r0 & Hrun & _).
      refine (keyed_loop_frame Histogram_observe hs id key view _ _ Hclosure Habsent _ _ _ Hrun).
      intros m v w2 r2 w2'. apply Histogram_observe_other.
    + apply keyed_closure with (id := id) in Hdec as (hs & -> & Hclosure);
        [|intros x w2 m w2'; apply specific_histogram_name].
      unfold hist_output_wrapper.
      rewrite (bindM_ok _ _ _ _ _ Hfunc), (bindM_lift_ok _ _ _ _ Hview).
      intros Hrun. apply loop_then_return in Hrun as (r0 & Hrun & _).
      refine (keyed_loop_frame Histogram_observe hs id key view _ _ Hclosure Habsent _ _ _ Hrun).
      intros m v w2 r2 w2'. apply Histogram_observe_other.
Qed.

Lemma output_absent_skips_witness :
  @gauge_output_wrapper example_runtime fastapi_app [("x", "m_x")] ["x"]
    (const_handler (RValue (PDict [("y", PInt 1)]))) [] [] idle
  = (Ok (RValue (PDict [("y", PInt 1)])), idle).
Proof.
  refine (proj1 (@output_absent_skips example_runtime fastapi_app _
                   (const_handler (RValue (PDict [("y", PInt 1)]))) [] [] idle
                   _ idle (PDict [("y", PInt 1)]) _ _)
                [PStr "x"] _ _).
  - reflexivity.
  - reflexivity.
  - eapply (output_gauge_output fastapi_app "m" ["x"] idle). reflexivity.
  - intros key [<-|[]]. reflexivity.
Defined.

(** ** C9: the feature field is read at the top level of the request view *)

Lemma for_each_raises {A} (body : A -> M unit) (l : list A) (x : A) :
  In x l ->
  (forall w, exists e, body x w = (Raise e, w)) ->
  forall w, exists e w', for_each body l w = (Raise e, w').
Proof.
  intros Hin Hx.
  induction l as [|y l IH]; intros w; [contradiction|]. simpl. unfold bindM.
  destruct (body y w) as [[[]|e] w2] eqn:Hy; [|eauto].
  destruct Hin as [->|Hin]; [|now apply IH].
  destruct (Hx w) as [e He]. congruence.
Qed.

Section FeatureRead.

Variable self : Instrumentation.
Variables (id feature : string) (d : list (string * pyval)).
Hypothesis feature_absent : dict_get feature d = None.

Lemma absent_getitem : py_getitem (PDict d) (PStr feature) = Raise KeyError.
Proof. simpl. now rewrite feature_absent. Qed.

Lemma count_feature_loop_absent `{Runtime} (counters : list (string * string))
    (values : list pyval) (w : world) :
  count_feature_loop counters feature (PDict d) values w
  = (match values with [] => Ok tt | _ :: _ => Raise KeyError end, w).
Proof.
  destruct values as [|val rest]; [reflexivity|]. simpl.
  now rewrite (bindM_lift_raise _ _ _ _ absent_getitem).
Qed.

(** The loop of [gauge_feature] and [hist_feature] over feature keys of
    which one is absent from the view. *)
Lemma feature_loop_absent (update : string -> pyval -> M unit)
    (metrics : list (string * string)) (feature_keys : list string) :
  (forall m v w r w', m <> id +:+ "_" +:+ feature -> update m v w = (r, w') ->
                      metric_unchanged (id +:+ "_" +:+ feature) w w') ->
  (forall x, In x feature_keys -> dict_get x metrics = Some (id +:+ "_" +:+ x)) ->
  In feature feature_keys ->
  forall w,
    (exists e w',
        for_each (fun f =>
                    m <- closure_get f metrics ;;
                    x <- liftM (py_getitem (PDict d) (PStr f)) ;;
                    update m x)
                 feature_keys w = (Raise e, w')
        /\ metric_unchanged (id +:+ "_" +:+ feature) w w')
    /\ (forall rest, feature_keys = feature :: rest ->
          for_each (fun f =>
                      m <- closure_get f metrics ;;
                      x <- liftM (py_getitem (PDict d) (PStr f)) ;;
                      update m x)
                   feature_keys w = (Raise KeyError, w)).
Proof.
  intros Hupdate Hclosure Hin w.
  set (body := fun f : string =>
                 m <- closure_get f metrics ;;
                 x <- liftM (py_getitem (PDict d) (PStr f)) ;;
                 update m x).
  assert (Hbody : forall w2, body feature w2 = (Raise KeyError, w2)).
  { intros w2. unfold body, closure_get. rewrite (Hclosure feature Hin).
    rewrite (bindM_lift_ok _ _ _ _ eq_refl).
    now rewrite (bindM_lift_raise _ _ _ _ absent_getitem). }
  split.
  - destruct (for_each_raises body feature_keys feature Hin
                (fun w2 => ex_intro _ KeyError (Hbody w2)) w) as (e & w' & Hrun).
    exists e, w'. split; [exact Hrun|].
    revert Hrun.
    apply for_each_frame;
      [apply metric_unchanged_refl|apply metric_unchanged_trans|].
    intros f w2 r w2' Hf. unfold body, closure_get. rewrite (Hclosure f Hf).
    rewrite (bindM_lift_ok _ _ _ _ eq_refl).
    destruct (py_getitem (PDict d) (PStr f)) as [x|e'] eqn:Hget.
    + rewrite (bindM_lift_ok _ _ _ _ eq_refl).
      apply Hupdate. intros E. apply name_inj in E. subst f.
      rewrite absent_getitem in Hget. discriminate.
    + rewrite (bindM_lift_raise _ _ _ _ eq_refl).
      intros [= _ <-]. apply metric_unchanged_refl.
  - intros rest ->. simpl. now rewrite (bindM_raise _ _ _ _ _ (Hbody w)).
Qed.

End FeatureRead.

(** C9, as stated, fails.  With no enumerated value the decorator of
    [count_feature] never reads the feature field, and the call returns
    normally although the key is absent.  In [gauge_feature] the gauge of
    an earlier key can refuse its value (here [None]) before the absent key
    is read, and the call raises that error, not [KeyError]. *)
Lemma absent_feature_without_KeyError :
  ~ (forall (rt : Runtime) (self : Instrumentation) (id feature : string)
            (values : list pyval) (dec : handler -> handler) w0 w0'
            (func : handler) args kwargs w resp_obj w1 r d,
        count_feature self id feature values w0 = (Ok dec, w0') ->
        func args kwargs w = (Ok resp_obj, w1) ->
        request w1 = Some r ->
        transform_request self r kwargs = Ok (PDict d) ->
        dict_get feature d = None ->
        dec func args kwargs w = (Raise KeyError, w1))
  /\ ~ (forall (rt : Runtime) (self : Instrumentation) (id feature : string)
               (feature_keys : list string) (dec : handler -> handler) w0 w0'
               (func : handler) args kwargs w resp_obj w1 r d,
           gauge_feature self id feature_keys w0 = (Ok dec, w0') ->
           In feature feature_keys ->
           func args kwargs w = (Ok resp_obj, w1) ->
           request w1 = Some r ->
           transform_request self r kwargs = Ok (PDict d) ->
           dict_get feature d = None ->
           exists w', dec func args kwargs w = (Raise KeyError, w')).
Proof.
  split; intros Hclaim.
  - assert (Hrun := Hclaim example_runtime flask_app "m" "f" []
                      (@count_feature_wrapper example_runtime flask_app [] "f" [])
                      idle idle
                      (const_handler (RValue PNone)) [] [] idle (RValue PNone) idle
                      {| flask.method := "GET"; flask.args := []; flask.form := [] |} []
                      eq_refl eq_refl eq_refl eq_refl eq_refl).
    vm_compute in Hrun. discriminate.
  - destruct (Hclaim example_runtime fastapi_app "m" "b" ["a"; "b"]
                (@gauge_feature_wrapper example_runtime fastapi_app
                   [("a", "m_a"); ("b", "m_b")] ["a"; "b"])
                idle
                (snd (@gauge_feature example_runtime fastapi_app "m" ["a"; "b"] idle))
                (const_handler (RValue PNone)) [] [("a", PNone)] idle (RValue PNone) idle
                {| flask.method := "GET"; flask.args := []; flask.form := [] |}
                [("a", PNone)])
      as [w' Hrun]; try reflexivity.
    + simpl. auto.
    + vm_compute in Hrun. discriminate.
Qed.

(** C9, amended.  The decorators of [count_feature], [gauge_feature] and
    [hist_feature] index the request view with the feature key; they never
    search below its top level.  When the key is absent from the top level,
    whatever lies deeper, [count_feature] changes no metric, and
    [gauge_feature] and [hist_feature] do not update the metric of that
    key.  The call raises [KeyError] once the key is read: in
    [count_feature] when a value is enumerated (with none the field is not
    read and the call returns normally), in [gauge_feature] and
    [hist_feature] when the key is the first feature key; after other keys
    the call raises too. *)
Theorem feature_read_at_top_level `{Runtime} (self : Instrumentation)
    (id feature : string) (func : handler) args kwargs w resp_obj w1 r d :
  func args kwargs w = (Ok resp_obj, w1) ->
  request w1 = Some r ->
  transform_request self r kwargs = Ok (PDict d) ->
  dict_get feature d = None ->
  (forall values dec w0 w0',
      count_feature self id feature values w0 = (Ok dec, w0') ->
      dec func args kwargs w
      = (match values with [] => Ok resp_obj | _ :: _ => Raise KeyError end, w1))
  /\ (forall feature_keys dec w0 w0',
         gauge_feature self id feature_keys w0 = (Ok dec, w0') ->
         In feature feature_keys ->
         (exists e w', dec func args kwargs w = (Raise e, w')
                       /\ metric_unchanged (id +:+ "_" +:+ feature) w1 w')
         /\ (forall rest, feature_keys = feature :: rest ->
               dec func args kwargs w = (Raise KeyError, w1)))
  /\ (forall buckets feature_keys dec w0 w0',
         hist_feature self id buckets feature_keys w0 = (Ok dec, w0') ->
         In feature feature_keys ->
         (exists e w', dec func args kwargs w = (Raise e, w')
                       /\ metric_unchanged (id +:+ "_" +:+ feature) w1 w')
         /\ (forall rest, feature_keys = feature :: rest ->
               dec func args kwargs w = (Raise KeyError, w1))).
Proof.
  intros Hfunc Hreq Hview Habsent.
  assert (Hglobal : global_request w1 = (Ok r, w1)).
  { unfold global_request. now rewrite Hreq. }
  split; [|split].
  - intros values dec w0 w0' Hdec.
    apply factory_inv in Hdec as (cs & w2 & _ & ->).
    rewrite (count_feature_run self feature values cs _ _ _ _ _ _ _ _ Hfunc Hreq Hview).
    unfold bindM. rewrite (count_feature_loop_absent feature d Habsent).
    destruct values; reflexivity.
  - intros feature_keys dec w0 w0' Hdec Hin.
    apply keyed_closure with (id := id) in Hdec as (gs & -> & Hclosure);
      [|intros x w2 m w2' Hc; now apply Gauge_ok in Hc].
    unfold gauge_feature_wrapper.
    rewrite (bindM_ok _ _ _ _ _ Hfunc), (bindM_ok _ _ _ _ _ Hglobal).
    rewrite (bindM_lift_ok _ _ _ _ Hview).
    destruct (feature_loop_absent id feature d Habsent Gauge_set gs feature_keys
                (fun m v w2 r2 w2' => Gauge_set_other m _ v w2 r2 w2')
                Hclosure Hin w1) as ((e & w' & Hrun & Hsame) & Hfirst).
    split.
    + exists e, w'. split; [|exact Hsame]. now apply bindM_raise.
    + intros rest Hkeys. apply bindM_raise. now apply (Hfirst rest).
  - intros buckets feature_keys dec w0 w0' Hdec Hin.
    apply keyed_closure with (id := id) in Hdec as (hs & -> & Hclosure);
      [|intros x w2 m w2' Hc; now apply Histogram_ok in Hc].
    unfold hist_feature_wrapper.
    rewrite (bindM_ok _ _ _ _ _ Hfunc), (bindM_ok _ _ _ _ _ Hglobal).
    rewrite (bindM_lift_ok _ _ _ _ Hview).
    destruct (feature_loop_absent id feature d Habsent Histogram_observe hs feature_keys
                (fun m v w2 r2 w2' => Histogram_observe_other m _ v w2 r2 w2')
                Hclosure Hin w1) as ((e & w' & Hrun & Hsame) & Hfirst).
    split.
    + exists e, w'. split; [|exact Hsame]. now apply bindM_raise.
    + intros rest Hkeys. apply bindM_raise. now apply (Hfirst rest).
Qed.

Lemma feature_read_at_top_level_witness :
  @gauge_feature_wrapper example_runtime fastapi_app [("f", "m_f")] ["f"]
    (const_handler (RValue PNone)) [] [("g", PDict [("f", PInt 1)])] idle
  = (Raise KeyError, idle).
Proof.
  refine (proj2 (proj1 (proj2 (@feature_read_at_top_level example_runtime fastapi_app
                                 "m" "f" (const_handler (RValue PNone)) []
                                 [("g", PDict [("f", PInt 1)])] idle (RValue PNone) idle
                                 {| flask.method := "GET"; flask.args := [];
                                    flask.form := [] |}
                                 [("g", PDict [("f", PInt 1)])] _ _ _ _))
                         ["f"] _ idle _ _ _) [] _);
    try reflexivity.
  simpl. auto.
Defined.

(** ** C1: what a wrapped call gives back *)

Section WrappedCall.

Context `{Runtime}.
Variable self : Instrumentation.

(** A wrapper is its handler, then the view, then the recording, then
    [return resp_obj]. *)
Lemma wrapper_steps (p : policy) (func : handler) args kwargs w resp_obj w1 :
  func args kwargs w = (Ok resp_obj, w1) ->
  wrapper_of self p func args kwargs w
  = match derive_view self p resp_obj kwargs w1 with
    | (Ok view, w2) =>
      match record_metrics p view w2 with
      | (Ok _, w') => (Ok resp_obj, w')
      | (Raise e, w') => (Raise e, w')
      end
    | (Raise e, w2) => (Raise e, w2)
    end.
Proof.
  intros Hfunc.
  destruct p; simpl;
    unfold count_false_binary_feedback_wrapper, count_feature_wrapper,
      gauge_feature_wrapper, hist_feature_wrapper, count_binary_wrapper,
      count_classes_wrapper, gauge_output_wrapper, hist_output_wrapper,
      derive_view; simpl;
    rewrite (bindM_ok _ _ _ _ _ Hfunc);
    unfold global_request, bindM, liftM, retM; cbv beta.
  - destruct (request w1) as [r|]; [|reflexivity].
    destruct (transform_request self r kwargs) as [view|e]; [|reflexivity].
    destruct (search_json feedback_key view) as [feedback|e]; [|reflexivity].
    destruct (resolve_threshold threshold_key view) as [threshold|e]; [|reflexivity].
    destruct (py_getattr feedback "correctness") as [correctness|e]; [|reflexivity].
    destruct (py_lt correctness (PInt 0)) as [[|]|e]; reflexivity.
  - destruct (request w1) as [r|]; [|reflexivity].
    destruct (transform_request self r kwargs) as [view|e]; [|reflexivity].
    match goal with
    | |- context [count_feature_loop ?cs ?f ?v ?vs ?w0] =>
      destruct (count_feature_loop cs f v vs w0) as [[[]|e] w']
    end; reflexivity.
  - destruct (request w1) as [r|]; [|reflexivity].
    destruct (transform_request self r kwargs) as [view|e]; [|reflexivity].
    match goal with
    | |- context [for_each ?body ?l ?w0] => destruct (for_each body l w0) as [[[]|e] w']
    end; reflexivity.
  - destruct (request w1) as [r|]; [|reflexivity].
    destruct (transform_request self r kwargs) as [view|e]; [|reflexivity].
    match goal with
    | |- context [for_each ?body ?l ?w0] => destruct (for_each body l w0) as [[[]|e] w']
    end; reflexivity.
  - destruct (transform_response self resp_obj) as [view|e]; [|reflexivity].
    destruct (search_json result_key view) as [value|e]; [|reflexivity].
    destruct (resolve_threshold threshold_key view) as [threshold|e]; [|reflexivity].
    destruct (negb (is_none value)); [|reflexivity].
    destruct (py_gt value threshold) as [[|]|e]; reflexivity.
  - destruct (transform_response self resp_obj) as [view|e]; [|reflexivity].
    destruct (resolve_threshold threshold_key view) as [threshold|e]; [|reflexivity].
    match goal with
    | |- context [for_each ?body ?l ?w0] => destruct (for_each body l w0) as [[[]|e] w']
    end; reflexivity.
  - destruct (transform_response self resp_obj) as [view|e]; [|reflexivity].
    match goal with
    | |- context [for_each ?body ?l ?w0] => destruct (for_each body l w0) as [[[]|e] w']
    end; reflexivity.
  - destruct (transform_response self resp_obj) as [view|e]; [|reflexivity].
    match goal with
    | |- context [for_each ?body ?l ?w0] => destruct (for_each body l w0) as [[[]|e] w']
    end; reflexivity.
Qed.

(** The factories produce nothing but the wrappers of the policies. *)
Lemma produced_policy (dec : handler -> handler) :
  produced self dec -> exists p, dec = wrapper_of self p.
Proof.
  intros Hdec. apply produced_wrapper in Hdec.
  destruct Hdec as [(fp & fn & fk & tk & ->)|[(cs & feature & values & ->)
                   |[(gs & keys & ->)|[(hs & keys & ->)|[(pos & neg & rk & tk & ->)
                   |[(cs & tk & cks & ->)|[(gs & keys & ->)|(hs & keys & ->)]]]]]]].
  - now exists (FeedbackBinary fp fn fk tk).
  - now exists (FeatureCount cs feature values).
  - now exists (FeatureGauge gs keys).
  - now exists (FeatureHist hs keys).
  - now exists (OutputBinary pos neg rk tk).
  - now exists (OutputClasses cs tk cks).
  - now exists (OutputGauge gs keys).
  - now exists (OutputHist hs keys).
Qed.

(** An output policy whose lookups find nothing records nothing and does
    not raise. *)
Lemma record_nothing_found (p : policy) (view : pyval) (w : world) :
  output_policy p = true ->
  (forall key, In key (looked_up p) -> search_json key view = Ok PNone) ->
  record_metrics p view w = (Ok tt, w).
Proof.
  intros Hout Hnone. destruct p; try discriminate Hout; simpl in *.
  - rewrite (Hnone result_key (or_introl eq_refl)).
    destruct (resolve_threshold_total threshold_key view) as [t ->].
    reflexivity.
  - destruct (resolve_threshold_total threshold_key view) as [t ->].
    unfold bindM at 1, liftM at 1. apply for_each_all_skip. intros cls Hin.
    rewrite (Hnone (PStr cls)); [reflexivity|]. now apply in_map.
  - apply for_each_all_skip. intros key Hin.
    rewrite (Hnone (PStr key)); [reflexivity|]. now apply in_map.
  - apply for_each_all_skip. intros key Hin.
    rewrite (Hnone (PStr key)); [reflexivity|]. now apply in_map.
Qed.

End WrappedCall.

(** C1, amended.  Every decorator the factories produce is the wrapper of a
    policy, and a call of it whose handler returns normally goes on with
    the view derivation (step 2) and the metric recording (step 3) of that
    policy.  The call returns exactly when neither step raises, and it then
    returns the handler's result itself, in the state the recording left,
    whatever the lookups found; for an output policy whose lookups find
    nothing, it returns with the state as the handler left it.  Nothing
    catches a failure of a step: the exception of the view derivation, and
    likewise the exception of the metric recording, reaches the caller in
    place of the result. *)
Theorem wrapper_returns_handler_result `{Runtime} (self : Instrumentation)
    (dec : handler -> handler) :
  produced self dec ->
  exists p : policy,
    dec = wrapper_of self p
    /\ forall (func : handler) args kwargs w resp_obj w1,
        func args kwargs w = (Ok resp_obj, w1) ->
        (forall view w2 w',
            derive_view self p resp_obj kwargs w1 = (Ok view, w2) ->
            record_metrics p view w2 = (Ok tt, w') ->
            dec func args kwargs w = (Ok resp_obj, w'))
        /\ (forall view,
               output_policy p = true ->
               derive_view self p resp_obj kwargs w1 = (Ok view, w1) ->
               (forall key, In key (looked_up p) -> search_json key view = Ok PNone) ->
               dec func args kwargs w = (Ok resp_obj, w1))
        /\ (forall e w2,
               derive_view self p resp_obj kwargs w1 = (Raise e, w2) ->
               dec func args kwargs w = (Raise e, w2))
        /\ (forall view w2 e w',
               derive_view self p resp_obj kwargs w1 = (Ok view, w2) ->
               record_metrics p view w2 = (Raise e, w') ->
               dec func args kwargs w = (Raise e, w'))
        /\ ((exists w', dec func args kwargs w = (Ok resp_obj, w'))
            \/ (exists e w', dec func args kwargs w = (Raise e, w'))).
Proof.
  intros Hdec. destruct (produced_policy self dec Hdec) as [p ->].
  exists p. split; [reflexivity|].
  intros func args kwargs w resp_obj w1 Hfunc.
  rewrite (wrapper_steps self p func args kwargs w resp_obj w1 Hfunc).
  repeat split.
  - intros view w2 w' -> ->. reflexivity.
  - intros view Hout -> Hnone.
    now rewrite (record_nothing_found p view w1 Hout Hnone).
  - intros e w2 ->. reflexivity.
  - intros view w2 e w' -> ->. reflexivity.
  - destruct (derive_view self p resp_obj kwargs w1) as [[view|e] w2]; [|eauto].
    destruct (record_metrics p view w2) as [[[]|e] w']; eauto.
Qed.

Lemma wrapper_returns_handler_result_witness :
  exists p : policy,
    count_binary_wrapper fastapi_app "m_pos" "m_neg" (PStr "score") PNone
    = @wrapper_of example_runtime fastapi_app p
    /\ forall (func : handler) args kwargs w resp_obj w1,
        func args kwargs w = (Ok resp_obj, w1) ->
        (forall view w2 w',
            derive_view fastapi_app p resp_obj kwargs w1 = (Ok view, w2) ->
            @record_metrics example_runtime p view w2 = (Ok tt, w') ->
            count_binary_wrapper fastapi_app "m_pos" "m_neg" (PStr "score") PNone
              func args kwargs w
            = (Ok resp_obj, w'))
        /\ (forall view,
               output_policy p = true ->
               derive_view fastapi_app p resp_obj kwargs w1 = (Ok view, w1) ->
               (forall key, In key (looked_up p) -> search_json key view = Ok PNone) ->
               count_binary_wrapper fastapi_app "m_pos" "m_neg" (PStr "score") PNone
                 func args kwargs w
               = (Ok resp_obj, w1))
        /\ (forall e w2,
               derive_view fastapi_app p resp_obj kwargs w1 = (Raise e, w2) ->
               count_binary_wrapper fastapi_app "m_pos" "m_neg" (PStr "score") PNone
                 func args kwargs w
               = (Raise e, w2))
        /\ (forall view w2 e w',
               derive_view fastapi_app p resp_obj kwargs w1 = (Ok view, w2) ->
               @record_metrics example_runtime p view w2 = (Raise e, w') ->
               count_binary_wrapper fastapi_app "m_pos" "m_neg" (PStr "score") PNone
                 func args kwargs w
               = (Raise e, w'))
        /\ ((exists w',
               count_binary_wrapper fastapi_app "m_pos" "m_neg" (PStr "score") PNone
                 func args kwargs w
               = (Ok resp_obj, w'))
            \/ (exists e w',
                  count_binary_wrapper fastapi_app "m_pos" "m_neg" (PStr "score") PNone
                    func args kwargs w
                  = (Raise e, w'))).
Proof.
  apply (@wrapper_returns_handler_result example_runtime fastapi_app).
  eapply (produced_count_binary fastapi_app "m" (PStr "score") PNone idle).
  reflexivity.
Defined.

(** * Further properties of the module *)

(** ** search_json returns only what the key is bound to *)

Lemma dict_get_bindings (k : string) (d : list (string * pyval)) (r : pyval) :
  dict_get k d = Some r -> In r (bindings k (PDict d)).
Proof.
  intros Hg. apply dict_get_In in Hg. simpl.
  apply in_flat_map. exists (k, r). split; [exact Hg|].
  simpl. rewrite String.eqb_refl. simpl. auto.
Qed.

Lemma child_bindings (k : string) (json_obj ikey child : pyval) :
  py_getitem json_obj ikey = Ok child ->
  incl (bindings k child) (bindings k json_obj).
Proof.
  destruct json_obj as [| | | |s|l|d|]; simpl; try discriminate.
  - destruct (as_index ikey); [|discriminate].
    intros Hi. apply seq_index_In, in_map_iff in Hi as (c & <- & _).
    intros x [].
  - destruct (as_index ikey); [|discriminate].
    intros Hi x Hx. apply seq_index_In in Hi.
    apply in_flat_map. eauto.
  - destruct ikey; try discriminate.
    destruct (dict_get s d) eqn:E; [|discriminate]. intros [= ->] x Hx.
    apply dict_get_In in E. apply in_flat_map. exists (s, child).
    split; [exact E|]. apply in_or_app. auto.
Qed.

Lemma for_ikey_sound (rec : pyval -> res pyval) (k : string) (json_obj : pyval)
    (ikeys : list pyval) (r : pyval) :
  (forall child r0, rec child = Ok r0 -> r0 = PNone \/ In r0 (bindings k child)) ->
  for_ikey rec (PStr k) json_obj ikeys = Ok r ->
  r = PNone \/ In r (bindings k json_obj).
Proof.
  intros Hrec. induction ikeys as [|ikey rest IH]; simpl.
  - intros [= <-]. auto.
  - destruct (py_eq ikey (PStr k)).
    + destruct json_obj as [| | | |s|l|d|]; simpl; try discriminate.
      destruct (dict_get k d) eqn:E; [|discriminate]. intros [= ->].
      right. now apply dict_get_bindings.
    + destruct (py_getitem json_obj ikey) as [child|e] eqn:Hc; [|discriminate].
      simpl. destruct (rec child) as [r0|e] eqn:Hr; [|discriminate]. simpl.
      destruct (is_none r0) eqn:En; simpl; [exact IH|].
      intros [= <-]. destruct (Hrec _ _ Hr) as [->|Hin]; [discriminate|].
      right. eapply child_bindings; eauto.
Qed.

Lemma search_json_at_sound (k : string) (depth : nat) (json_obj r : pyval) :
  search_json_at depth (PStr k) json_obj = Ok r ->
  r = PNone \/ In r (bindings k json_obj).
Proof.
  revert json_obj r. induction depth as [|depth IH]; intros json_obj r; simpl.
  - discriminate.
  - destruct (py_iter json_obj) as [ikeys|e]; simpl.
    + destruct (for_ikey _ _ _ _) as [r0|e] eqn:Hf; simpl.
      * intros [= <-]. eapply for_ikey_sound; [|exact Hf]. exact IH.
      * intros [= <-]. auto.
    + intros [= <-]. auto.
Qed.

(** X1. What [search_json] returns for a string key is [None] or one of the
    values some dict inside the container binds to that key; it is [None]
    when no dict at any depth has the key. *)
Theorem search_json_returns_a_binding (k : string) (json_obj : pyval) :
  (forall r, search_json (PStr k) json_obj = Ok r ->
             r = PNone \/ In r (bindings k json_obj))
  /\ (bindings k json_obj = [] -> search_json (PStr k) json_obj = Ok PNone).
Proof.
  split.
  - intros r. apply search_json_at_sound.
  - intros Hnone. destruct (search_json_total (PStr k) json_obj) as [r Hr].
    destruct (search_json_at_sound _ _ _ _ Hr) as [->|Hin]; [exact Hr|].
    rewrite Hnone in Hin. contradiction.
Qed.

(** ** search_json on what is no container *)

Lemma py_eq_str_index (s : string) (key : pyval) :
  py_eq (PStr s) key = true -> as_index key = None.
Proof. destruct key; simpl; congruence. Qed.

(** X2. Only lists and dicts are searched: for [None], a boolean, a
    number, an object and also for a string (even one equal to the key or
    containing it) [search_json] returns [None]. *)
Theorem search_json_not_a_container (key json_obj : pyval) :
  is_container json_obj = false -> search_json key json_obj = Ok PNone.
Proof.
  intros Hc. rewrite search_json_unfold.
  destruct json_obj as [| | | |s|l|d|]; try discriminate; try reflexivity.
  cbn [py_iter res_bind].
  destruct (list_ascii_of_string s) as [|c cs] eqn:Hs; [reflexivity|].
  cbn [map for_ikey].
  destruct (py_eq (PStr (String c EmptyString)) key) eqn:E.
  - cbn [py_getitem]. now rewrite (py_eq_str_index _ _ E).
  - reflexivity.
Qed.

Lemma search_json_not_a_container_witness :
  search_json (PStr "k") (PStr "k") = Ok PNone.
Proof. apply (search_json_not_a_container (PStr "k") (PStr "k")). reflexivity. Defined.

(** ** A handler that raises, and decorators one around the other *)

Lemma produced_handler_raise `{Runtime} (self : Instrumentation)
    (dec : handler -> handler) (func : handler) args kwargs w e w1 :
  produced self dec ->
  func args kwargs w = (Raise e, w1) ->
  dec func args kwargs w = (Raise e, w1).
Proof.
  intros Hdec Hfunc. apply produced_wrapper in Hdec.
  repeat match goal with
         | Hor : _ \/ _ |- _ => destruct Hor
         | Hex : exists _, _ |- _ => destruct Hex
         end;
    subst dec;
    unfold count_false_binary_feedback_wrapper, count_feature_wrapper,
      gauge_feature_wrapper, hist_feature_wrapper, count_binary_wrapper,
      count_classes_wrapper, gauge_output_wrapper, hist_output_wrapper;
    now apply bindM_raise.
Qed.

Lemma produced_handler_return `{Runtime} (self : Instrumentation)
    (dec : handler -> handler) (func : handler) args kwargs w resp_obj w1 :
  produced self dec ->
  func args kwargs w = (Ok resp_obj, w1) ->
  (exists w', dec func args kwargs w = (Ok resp_obj, w'))
  \/ (exists e w', dec func args kwargs w = (Raise e, w')).
Proof.
  intros Hdec Hfunc.
  assert (Hgen : forall rest : response -> M response,
             (forall r, returns_or_raises r (rest r)) ->
             (exists w', bindM (func args kwargs) rest w = (Ok resp_obj, w'))
             \/ (exists e w', bindM (func args kwargs) rest w = (Raise e, w'))).
  { intros rest Hrest. rewrite (bindM_ok _ _ _ _ _ Hfunc). apply Hrest. }
  apply produced_wrapper in Hdec.
  repeat match goal with
         | Hor : _ \/ _ |- _ => destruct Hor
         | Hex : exists _, _ |- _ => destruct Hex
         end;
    subst dec; apply Hgen; intros r;
    repeat (apply returns_or_raises_bind; intros);
    apply returns_or_raises_ret.
Qed.

(** X3. When the handler raises, the wrapper of every decorator raises the
    same exception in the state the handler left: no view is derived and
    no metric is recorded for that call. *)
Theorem handler_failure_propagates `{Runtime} (self : Instrumentation)
    (dec : handler -> handler) (func : handler) args kwargs w e w1 :
  produced self dec ->
  func args kwargs w = (Raise e, w1) ->
  dec func args kwargs w = (Raise e, w1).
Proof. apply produced_handler_raise. Qed.

Lemma handler_failure_propagates_witness :
  @gauge_output_wrapper example_runtime fastapi_app [("x", "m_x")] ["x"]
    (fun _ _ => liftM (Raise (HandlerError 7))) [] [] idle
  = (Raise (HandlerError 7), idle).
Proof.
  refine (@handler_failure_propagates example_runtime fastapi_app _
            (fun _ _ => liftM (Raise (HandlerError 7))) [] [] idle _ idle _ _).
  - eapply (produced_gauge_output fastapi_app "m" ["x"] idle). reflexivity.
  - reflexivity.
Defined.

(** X4. Decorators stack: a handler wrapped by any number of decorators,
    one around the other, still returns the handler's own result or raises;
    and when the handler raises, the whole stack raises its exception in
    the state the handler left. *)
Theorem stacked_decorators `{Runtime} (self : Instrumentation)
    (decs : list (handler -> handler)) (func : handler) args kwargs w :
  Forall (produced self) decs ->
  (forall resp_obj w1,
      func args kwargs w = (Ok resp_obj, w1) ->
      (exists w', fold_right (fun dec f => dec f) func decs args kwargs w
                  = (Ok resp_obj, w'))
      \/ (exists e w', fold_right (fun dec f => dec f) func decs args kwargs w
                       = (Raise e, w')))
  /\ (forall e w1,
         func args kwargs w = (Raise e, w1) ->
         fold_right (fun dec f => dec f) func decs args kwargs w = (Raise e, w1)).
Proof.
  intros Hdecs. induction Hdecs as [|dec decs Hdec _ [IHret IHraise]]; simpl.
  - split; [|auto]. intros resp_obj w1 Hfunc. left. eauto.
  - split.
    + intros resp_obj w1 Hfunc.
      destruct (IHret _ _ Hfunc) as [[w2 Hin]|[e [w2 Hin]]].
      * exact (produced_handler_return self dec _ _ _ _ _ _ Hdec Hin).
      * right. exists e, w2.
        exact (produced_handler_raise self dec _ _ _ _ _ _ Hdec Hin).
    + intros e w1 Hfunc.
      exact (produced_handler_raise self dec _ _ _ _ _ _ Hdec (IHraise _ _ Hfunc)).
Qed.

Lemma stacked_decorators_witness :
  (exists w',
      fold_right (fun dec f => dec f) (const_handler (RValue (PDict [])))
        [@gauge_output_wrapper example_runtime fastapi_app [("x", "m_x")] ["x"];
         count_binary_wrapper fastapi_app "m_pos" "m_neg" (PStr "score") PNone]
        [] [] idle
      = (Ok (RValue (PDict [])), w'))
  \/ (exists e w',
         fold_right (fun dec f => dec f) (const_handler (RValue (PDict [])))
           [@gauge_output_wrapper example_runtime fastapi_app [("x", "m_x")] ["x"];
            count_binary_wrapper fastapi_app "m_pos" "m_neg" (PStr "score") PNone]
           [] [] idle
         = (Raise e, w')).
Proof.
  refine (proj1 (@stacked_decorators example_runtime fastapi_app _
                   (const_handler (RValue (PDict []))) [] [] idle _) _ idle _).
  - repeat constructor.
    + eapply (produced_gauge_output fastapi_app "m" ["x"] idle). reflexivity.
    + eapply (produced_count_binary fastapi_app "m" (PStr "score") PNone idle).
      reflexivity.
  - reflexivity.
Defined.

(** ** Counters only go up *)

Lemma counters_grow_refl (w : world) : counters_grow w w.
Proof. intros name. lia. Qed.

Lemma counters_grow_trans (w1 w2 w3 : world) :
  counters_grow w1 w2 -> counters_grow w2 w3 -> counters_grow w1 w3.
Proof. intros H12 H23 name. specialize (H12 name). specialize (H23 name). lia. Qed.

Lemma counters_grow_same (w w' : world) : counters w' = counters w -> counters_grow w w'.
Proof. intros E name. unfold counter_value. rewrite E. lia. Qed.

Lemma keeps_ret {A} (a : A) : keeps_counters (retM a).
Proof. intros w r w' [= _ <-]. apply counters_grow_refl. Qed.

Lemma keeps_lift {A} (x : res A) : keeps_counters (liftM x).
Proof. intros w r w' [= _ <-]. apply counters_grow_refl. Qed.

Lemma keeps_bind {A B} (m : M A) (k : A -> M B) :
  keeps_counters m -> (forall a, keeps_counters (k a)) -> keeps_counters (bindM m k).
Proof.
  intros Hm Hk w r w'. unfold bindM.
  destruct (m w) as [[a|e] w2] eqn:E.
  - intros Hrun. eapply counters_grow_trans; [eapply Hm, E|eapply Hk, Hrun].
  - intros [= _ <-]. eapply Hm, E.
Qed.

Lemma keeps_global_request : keeps_counters global_request.
Proof.
  intros w r w'. unfold global_request.
  destruct (request w); intros [= _ <-]; apply counters_grow_refl.
Qed.

Lemma keeps_Counter_inc (c : string) : keeps_counters (Counter_inc c).
Proof.
  intros w r w' [= _ <-] name. unfold counter_value at 2. simpl.
  destruct (decide (c = name)) as [->|Hne].
  - rewrite lookup_insert_eq. simpl. lia.
  - rewrite lookup_insert_ne by exact Hne. fold (counter_value w name). lia.
Qed.

Lemma keeps_Gauge_set `{Runtime} (g : string) (v : pyval) : keeps_counters (Gauge_set g v).
Proof.
  intros w r w'. unfold Gauge_set.
  destruct (gauge_float v); intros [= _ <-]; now apply counters_grow_same.
Qed.

Lemma keeps_Histogram_observe `{Runtime} (h : string) (v : pyval) :
  keeps_counters (Histogram_observe h v).
Proof.
  intros w r w'. unfold Histogram_observe.
  destruct (observe_amount v); intros [= _ <-]; now apply counters_grow_same.
Qed.

Lemma keeps_for_each {A} (body : A -> M unit) (l : list A) :
  (forall x, keeps_counters (body x)) -> keeps_counters (for_each body l).
Proof.
  intros Hbody. induction l as [|x l IH]; simpl.
  - apply keeps_ret.
  - apply keeps_bind; auto.
Qed.

Lemma keeps_count_feature_loop `{Runtime} (counters : list (string * string))
    (feature : string) (view : pyval) (values : list pyval) :
  keeps_counters (count_feature_loop counters feature view values).
Proof.
  induction values as [|val values IH]; simpl.
  - apply keeps_ret.
  - apply keeps_bind; [apply keeps_lift|]. intros x.
    destruct (py_eq x val); [|exact IH].
    apply keeps_bind; [apply keeps_lift|]. intros c. apply keeps_Counter_inc.
Qed.

Ltac keeps_counters_step :=
  first
    [ apply keeps_ret | apply keeps_lift | apply keeps_global_request
    | apply keeps_Counter_inc | apply keeps_Gauge_set
    | apply keeps_Histogram_observe | apply keeps_count_feature_loop
    | apply keeps_for_each; intros ?
    | apply keeps_bind; [|intros ?]
    | match goal with
      | |- keeps_counters (if ?b then _ else _) => destruct b
      end ].

(** X5. Between the return of the handler and the end of the call no
    decorator lowers or resets a counter, whether the call returns or
    raises. *)
Theorem counters_never_decrease `{Runtime} (self : Instrumentation)
    (dec : handler -> handler) (func : handler) args kwargs w resp_obj w1 r w' :
  produced self dec ->
  func args kwargs w = (Ok resp_obj, w1) ->
  dec func args kwargs w = (r, w') ->
  forall name, (counter_value w1 name <= counter_value w' name)%nat.
Proof.
  intros Hdec Hfunc.
  assert (Hgen : forall rest : response -> M response,
             (forall a, keeps_counters (rest a)) ->
             bindM (func args kwargs) rest w = (r, w') -> counters_grow w1 w').
  { intros rest Hrest. rewrite (bindM_ok _ _ _ _ _ Hfunc). apply Hrest. }
  apply produced_wrapper in Hdec.
  repeat match goal with
         | Hor : _ \/ _ |- _ => destruct Hor
         | Hex : exists _, _ |- _ => destruct Hex
         end;
    subst dec; apply Hgen; intros a;
    unfold closure_get; repeat keeps_counters_step.
Qed.

Lemma counters_never_decrease_witness :
  (counter_value idle "m_pos"
   <= counter_value
        (snd (count_binary_wrapper fastapi_app "m_pos" "m_neg" (PStr "score") PNone
                (const_handler (RValue (PDict [("score", PFloat float_0_7)])))
                [] [] idle))
        "m_pos")%nat.
Proof.
  refine (@counters_never_decrease example_runtime fastapi_app _
            (const_handler (RValue (PDict [("score", PFloat float_0_7)])))
            [] [] idle _ idle _ _ _ _ _ "m_pos").
  - eapply (produced_count_binary fastapi_app "m" (PStr "score") PNone idle).
    reflexivity.
  - reflexivity.
  - apply surjective_pairing.
Defined.

(** ** The request global and the request view *)

(** X6. Where [flask] could not be imported the name [request] is unbound,
    and every decorator that reads the request (the feedback policy and
    the three feature policies) raises [NameError] after the handler has
    returned, before any metric is touched. *)
Theorem request_unbound_raises `{Runtime} (self : Instrumentation)
    (dec : handler -> handler) (func : handler) args kwargs w resp_obj w1 :
  request_decorator self dec ->
  func args kwargs w = (Ok resp_obj, w1) ->
  request w1 = None ->
  dec func args kwargs w = (Raise NameError, w1).
Proof.
  intros Hdec Hfunc Hreq.
  assert (Hglobal : global_request w1 = (Raise NameError, w1)).
  { unfold global_request. now rewrite Hreq. }
  destruct Hdec as [id fk tk w0 dec w0' Hf|id feature values w0 dec w0' Hf
                   |id keys w0 dec w0' Hf|id buckets keys w0 dec w0' Hf].
  - apply two_counters_inv in Hf. subst dec.
    unfold count_false_binary_feedback_wrapper.
    rewrite (bindM_ok _ _ _ _ _ Hfunc). now apply bindM_raise.
  - apply factory_inv in Hf as (c & w2 & _ & ->). unfold count_feature_wrapper.
    rewrite (bindM_ok _ _ _ _ _ Hfunc). now apply bindM_raise.
  - apply factory_inv in Hf as (c & w2 & _ & ->). unfold gauge_feature_wrapper.
    rewrite (bindM_ok _ _ _ _ _ Hfunc). now apply bindM_raise.
  - apply factory_inv in Hf as (c & w2 & _ & ->). unfold hist_feature_wrapper.
    rewrite (bindM_ok _ _ _ _ _ Hfunc). now apply bindM_raise.
Qed.

Lemma request_unbound_raises_witness :
  @gauge_feature_wrapper example_runtime fastapi_app [("f", "m_f")] ["f"]
    (const_handler (RValue PNone)) [] [("f", PInt 1)]
    {| request := None; counters := ∅; gauges := ∅; hists := ∅ |}
  = (Raise NameError, {| request := None; counters := ∅; gauges := ∅; hists := ∅ |}).
Proof.
  refine (@request_unbound_raises example_runtime fastapi_app _
            (const_handler (RValue PNone)) [] [("f", PInt 1)]
            {| request := None; counters := ∅; gauges := ∅; hists := ∅ |}
            _ _ _ _ _).
  - eapply (request_gauge_feature fastapi_app "m" ["f"] idle). reflexivity.
  - reflexivity.
  - reflexivity.
Defined.

Lemma dict_set_keys {V} (k : string) (v : V) (d : list (string * V)) :
  map fst (dict_set k v d)
  = if existsb (String.eqb k) (map fst d) then map fst d else map fst d ++ [k].
Proof.
  induction d as [|[k' v'] d IH]; simpl; [reflexivity|].
  destruct (String.eqb k' k) eqn:E.
  - rewrite String.eqb_sym in E. now rewrite E.
  - rewrite String.eqb_sym in E. rewrite E. simpl. rewrite IH.
    destruct (existsb _ _); reflexivity.
Qed.

Lemma dict_set_NoDup {V} (k : string) (v : V) (d : list (string * V)) :
  List.NoDup (map fst d) -> List.NoDup (map fst (dict_set k v d)).
Proof.
  intros Hd. rewrite dict_set_keys.
  destruct (existsb _ _) eqn:E; [exact Hd|].
  apply List.NoDup_app; [exact Hd|repeat constructor; simpl; tauto|].
  intros x Hx [Hk|[]]. subst x.
  assert (Ex : existsb (String.eqb k) (map fst d) = true); [|congruence].
  apply existsb_exists. exists k. split; [exact Hx|apply String.eqb_refl].
Qed.

Lemma fold_dict_set_NoDup {V} (f : string -> V) (keys : list string)
    (acc : list (string * V)) :
  List.NoDup (map fst acc) ->
  List.NoDup (map fst (fold_left (fun res key => dict_set key (f key) res) keys acc)).
Proof.
  revert acc. induction keys as [|k keys IH]; intros acc Hacc; simpl; [exact Hacc|].
  apply IH. now apply dict_set_NoDup.
Qed.

Lemma flask_view_get (request : flask.Request) (name : string) :
  exists d,
    transform_request_to_json_flask request [] = Ok (PDict d)
    /\ List.NoDup (map fst d)
    /\ dict_get name d
       = PStr <$> dict_get name
                    (if String.eqb (flask.method request) "POST"
                     then flask.values request else flask.args request).
Proof.
  unfold transform_request_to_json_flask. simpl.
  eexists. split; [reflexivity|]. split.
  - apply fold_dict_set_NoDup. constructor.
  - rewrite dict_get_fold_set, flask_keys_existsb. unfold flask.get.
    destruct (dict_get name _); reflexivity.
Qed.

Lemma flask_view_keys (request : flask.Request) (d : list (string * pyval)) :
  transform_request_to_json_flask request [] = Ok (PDict d) ->
  forall name,
    In name (map fst d)
    <-> In name (map fst (if String.eqb (flask.method request) "POST"
                          then flask.values request else flask.args request)).
Proof.
  intros Hd name.
  destruct (flask_view_get request name) as (d' & Hd' & _ & Hget).
  rewrite Hd in Hd'. assert (Edd : d' = d) by congruence. subst d'.
  revert Hget.
  generalize (if String.eqb (flask.method request) "POST"
              then flask.values request else flask.args request).
  intros params Hget. split; intros Hin.
  - destruct (dict_get name params) as [s|] eqn:Hp.
    + apply dict_get_In in Hp. apply in_map_iff. exists (name, s). auto.
    + apply dict_get_is_Some in Hin as [v Hv]. rewrite Hv in Hget. discriminate.
  - apply dict_get_is_Some in Hin as [s Hs]. rewrite Hs in Hget.
    apply dict_get_In in Hget. apply in_map_iff. eexists (name, _). eauto.
Qed.

(** X7. For an application accepted by [__init__] and a live request:
    with keyword arguments none of which is named [request] (or with none)
    the request view is derived without raising and is a dict; a keyword
    argument named [request] makes the adapter call raise [TypeError].
    Under Flask with no keyword arguments the keys of the view are exactly
    the parameter names, each once however often the request repeats it,
    and each is bound to the first value of the parameter, a string. *)
Theorem request_view_is_a_dict `{Runtime} (app_class_name : string)
    (self : Instrumentation) (request : flask.Request)
    (kwargs : list (string * pyval)) :
  Instrumentation_init app_class_name = Ok self ->
  (dict_get "request" kwargs = None ->
   exists d, transform_request self request kwargs = Ok (PDict d))
  /\ (forall v, dict_get "request" kwargs = Some v ->
                transform_request self request kwargs = Raise TypeError)
  /\ (app_class_name = "Flask" -> kwargs = [] ->
      exists d,
        transform_request self request kwargs = Ok (PDict d)
        /\ List.NoDup (map fst d)
        /\ (forall name,
               In name (map fst d)
               <-> In name (map fst (if String.eqb (flask.method request) "POST"
                                     then flask.values request
                                     else flask.args request)))
        /\ forall name v,
            dict_get name d = Some v ->
            exists s,
              dict_get name (if String.eqb (flask.method request) "POST"
                             then flask.values request else flask.args request)
              = Some s
              /\ v = PStr s).
Proof.
  unfold Instrumentation_init.
  destruct (String.eqb app_class_name "Flask") eqn:Ef.
  - intros [= <-]. cbn [transform_request]. split; [|split].
    + intros Hreq. unfold transform_request_to_json_flask. rewrite Hreq.
      destruct (negb _); eauto.
    + intros v Hreq. unfold transform_request_to_json_flask. now rewrite Hreq.
    + intros _ ->.
      destruct (flask_view_get request EmptyString) as (d & Hd & Hnd & _).
      exists d. split; [exact Hd|]. split; [exact Hnd|].
      split; [exact (flask_view_keys request d Hd)|].
      intros name v Hv.
      destruct (flask_view_get request name) as (d' & Hd' & _ & Hget).
      rewrite Hd in Hd'. assert (Edd : d' = d) by congruence. subst d'.
      rewrite Hv in Hget.
      match type of Hget with
      | _ = PStr <$> ?o => destruct o as [s|]; [|discriminate]
      end.
      exists s. split; [reflexivity|]. cbv in Hget. congruence.
  - destruct (String.eqb app_class_name "FastAPI"); [|discriminate].
    intros [= <-]. cbn [transform_request]. unfold transform_request_to_json_fastapi.
    split; [|split].
    + intros ->. eauto.
    + now intros v ->.
    + intros ->. discriminate.
Qed.

Lemma request_view_is_a_dict_witness :
  exists d,
    transform_request flask_app
      {| flask.method := "GET"; flask.args := [("a", "1"); ("b", "2"); ("a", "3")];
         flask.form := [] |} []
    = Ok (PDict d).
Proof.
  refine (proj1 (@request_view_is_a_dict example_runtime "Flask" flask_app
                   {| flask.method := "GET";
                      flask.args := [("a", "1"); ("b", "2"); ("a", "3")];
                      flask.form := [] |} [] _) _);
    reflexivity.
Defined.

(** ** Handlers that return a plain value *)

Lemma output_view_failure `{Runtime} (self : Instrumentation) (keys : list pyval)
    (dec : handler -> handler) (func : handler) args kwargs w resp_obj w1 e :
  output_decorator self keys dec ->
  func args kwargs w = (Ok resp_obj, w1) ->
  transform_response self resp_obj = Raise e ->
  dec func args kwargs w = (Raise e, w1).
Proof.
  intros Hout Hfunc Hview.
  destruct Hout as [id rk tk w0 dec w0' Hf|id tk cks w0 dec w0' Hf
                   |id vks w0 dec w0' Hf|id bs vks w0 dec w0' Hf
                   |id bs w0 dec w0' Hf].
  - apply two_counters_inv in Hf. subst dec. unfold count_binary_wrapper.
    rewrite (bindM_ok _ _ _ _ _ Hfunc). now apply bindM_lift_raise.
  - apply factory_inv in Hf as (c & w2 & _ & ->). unfold count_classes_wrapper.
    rewrite (bindM_ok _ _ _ _ _ Hfunc). now apply bindM_lift_raise.
  - apply factory_inv in Hf as (c & w2 & _ & ->). unfold gauge_output_wrapper.
    rewrite (bindM_ok _ _ _ _ _ Hfunc). now apply bindM_lift_raise.
  - apply factory_inv in Hf as (c & w2 & _ & ->). unfold hist_output_wrapper.
    rewrite (bindM_ok _ _ _ _ _ Hfunc). now apply bindM_lift_raise.
  - apply factory_inv in Hf as (c & w2 & _ & ->). unfold hist_output_wrapper.
    rewrite (bindM_ok _ _ _ _ _ Hfunc). now apply bindM_lift_raise.
Qed.

(** X8. The output decorators need a response object.  Under Flask a
    handler that returns a plain value (a dict, a string, a list, ...) makes
    every output decorator raise [AttributeError] after the handler has
    returned; under FastAPI the same happens for every plain value that is
    no dict.  No metric is touched. *)
Theorem plain_result_has_no_view `{Runtime} (self : Instrumentation)
    (keys : list pyval) (dec : handler -> handler) (func : handler)
    args kwargs w v w1 :
  output_decorator self keys dec ->
  func args kwargs w = (Ok (RValue v), w1) ->
  (Instrumentation_init "Flask" = Ok self ->
   dec func args kwargs w = (Raise AttributeError, w1))
  /\ (Instrumentation_init "FastAPI" = Ok self ->
      (forall d, v <> PDict d) ->
      dec func args kwargs w = (Raise AttributeError, w1)).
Proof.
  intros Hout Hfunc. split.
  - intros [= <-]. eapply output_view_failure; eauto.
  - intros [= <-] Hv. eapply output_view_failure; eauto.
    simpl. destruct v; try reflexivity. now destruct (Hv d).
Qed.

Lemma plain_result_has_no_view_witness :
  count_binary_wrapper flask_app "m_pos" "m_neg" (PStr "score") PNone
    (const_handler (RValue (PDict [("score", PFloat float_0_7)]))) [] [] idle
  = (Raise AttributeError, idle).
Proof.
  refine (proj1 (@plain_result_has_no_view example_runtime flask_app [PStr "score"] _
                   (const_handler (RValue (PDict [("score", PFloat float_0_7)])))
                   [] [] idle _ idle _ _) _).
  - eapply (output_count_binary flask_app "m" (PStr "score") PNone idle). reflexivity.
  - reflexivity.
  - reflexivity.
Defined.

(** ** Query parameters are strings *)

Lemma py_eq_str_other (s : string) (v : pyval) :
  is_str v = false -> py_eq (PStr s) v = false.
Proof. destruct v; simpl; congruence. Qed.

(** X9. Under Flask, without keyword arguments, the feature field is a
    query or form parameter, hence a string: when none of the values
    enumerated to [count_feature] is a string (numbers, say), no call ever
    counts, and the call returns the handler's result with the state
    untouched. *)
Theorem flask_feature_is_a_string `{Runtime} (self : Instrumentation)
    (id feature : string) (values : list pyval) (dec : handler -> handler)
    w0 w0' (func : handler) args w resp_obj w1 r s :
  Instrumentation_init "Flask" = Ok self ->
  count_feature self id feature values w0 = (Ok dec, w0') ->
  func args [] w = (Ok resp_obj, w1) ->
  request w1 = Some r ->
  dict_get feature (if String.eqb (flask.method r) "POST"
                    then flask.values r else flask.args r) = Some s ->
  (forall v, In v values -> is_str v = false) ->
  dec func args [] w = (Ok resp_obj, w1).
Proof.
  intros Hinit Hdec Hfunc Hreq Hparam Hvalues.
  assert (Hself : transform_request self = transform_request_to_json_flask).
  { injection Hinit as <-. reflexivity. }
  apply count_feature_inv in Hdec as (counters & -> & _).
  destruct (flask_view_get r feature) as (d & Hview & _ & Hget).
  rewrite Hparam in Hget. rewrite <- Hself in Hview.
  rewrite (count_feature_run self feature values counters _ _ _ _ _ _ r (PDict d)
             Hfunc Hreq Hview).
  unfold bindM.
  rewrite (count_feature_loop_no_match feature counters (PDict d) (PStr s) values w1).
  - reflexivity.
  - simpl. now rewrite Hget.
  - intros v Hv. apply py_eq_str_other. auto.
Qed.

Lemma flask_feature_is_a_string_witness :
  @count_feature_wrapper example_runtime flask_app
    [("f_1", "m_f_1"); ("f_2", "m_f_2")] "f" [PInt 1; PInt 2]
    (const_handler (RValue PNone)) [] []
    {| request := Some {| flask.method := "GET"; flask.args := [("f", "2")];
                          flask.form := [] |};
       counters := ∅; gauges := ∅; hists := ∅ |}
  = (Ok (RValue PNone),
     {| request := Some {| flask.method := "GET"; flask.args := [("f", "2")];
                           flask.form := [] |};
        counters := ∅; gauges := ∅; hists := ∅ |}).
Proof.
  refine (@flask_feature_is_a_string example_runtime flask_app "m" "f"
            [PInt 1; PInt 2] _ idle _ (const_handler (RValue PNone)) []
            _ (RValue PNone) _
            {| flask.method := "GET"; flask.args := [("f", "2")]; flask.form := [] |}
            "2" _ _ _ _ _ _);
    try reflexivity.
  intros v [<-|[<-|[]]]; reflexivity.
Defined.

(** ** Thresholds *)

Lemma py_gt_numbers (a b : pyval) (x y : Q) :
  as_number a = Some x -> as_number b = Some y ->
  py_gt a b = Ok (match (x ?= y)%Q with Gt => true | _ => false end).
Proof.
  intros Ha Hb. unfold py_gt.
  destruct a; try discriminate; simpl in *; injection Ha as <-; now rewrite Hb.
Qed.

Lemma py_lt_numbers (a b : pyval) (x y : Q) :
  as_number a = Some x -> as_number b = Some y ->
  py_lt a b = Ok (match (x ?= y)%Q with Lt => true | _ => false end).
Proof.
  intros Ha Hb. unfold py_lt.
  destruct a; try discriminate; simpl in *; injection Ha as <-; now rewrite Hb.
Qed.

Lemma inc_then_return (c : string) (resp_obj : response) (w1 : world) :
  exists w', bindM (Counter_inc c) (fun _ => retM resp_obj) w1 = (Ok resp_obj, w')
             /\ incremented_exactly c w1 w'.
Proof.
  destruct (Counter_inc_exactly c w1) as (w' & Hinc & Hex).
  exists w'. split; [|exact Hex]. now rewrite (bindM_ok _ _ _ _ _ Hinc).
Qed.

(** X10. The decorator of [count_binary] on a numeric result and a numeric
    threshold (the default 0.5 or the one found in the view): the call
    returns the handler's result and increments exactly one counter, the
    positive one when the result is strictly above the threshold, the
    negative one otherwise, so also when the two are equal. *)
Theorem count_binary_threshold_rule (self : Instrumentation) (id : string)
    (result_key threshold_key : pyval) (dec : handler -> handler) w0 w0'
    (func : handler) args kwargs w resp_obj w1 view value q threshold t :
  count_binary self id result_key threshold_key w0 = (Ok dec, w0') ->
  func args kwargs w = (Ok resp_obj, w1) ->
  transform_response self resp_obj = Ok view ->
  search_json result_key view = Ok value -> as_number value = Some q ->
  resolve_threshold threshold_key view = Ok threshold -> as_number threshold = Some t ->
  exists w',
    dec func args kwargs w = (Ok resp_obj, w')
    /\ ((t < q)%Q -> incremented_exactly (id +:+ "_pos") w1 w')
    /\ ((q <= t)%Q -> incremented_exactly (id +:+ "_neg") w1 w').
Proof.
  intros Hdec Hfunc Hview Hvalue Hq Hthr Ht.
  apply two_counters_inv in Hdec. subst dec. unfold count_binary_wrapper.
  rewrite (bindM_ok _ _ _ _ _ Hfunc), (bindM_lift_ok _ _ _ _ Hview).
  rewrite (bindM_lift_ok _ _ _ _ Hvalue), (bindM_lift_ok _ _ _ _ Hthr).
  rewrite (number_not_none _ _ Hq). cbn [negb].
  unfold bindM at 1. unfold bindM at 1.
  rewrite (py_gt_numbers _ _ _ _ Hq Ht). unfold liftM at 1.
  destruct (q ?= t)%Q eqn:Ecmp.
  - destruct (inc_then_return (id +:+ "_neg") resp_obj w1) as (w' & Hrun & Hex).
    exists w'. split; [exact Hrun|]. split; [|auto].
    intros Hlt. apply Qgt_alt in Hlt. congruence.
  - destruct (inc_then_return (id +:+ "_neg") resp_obj w1) as (w' & Hrun & Hex).
    exists w'. split; [exact Hrun|]. split; [|auto].
    intros Hlt. apply Qgt_alt in Hlt. congruence.
  - destruct (inc_then_return (id +:+ "_pos") resp_obj w1) as (w' & Hrun & Hex).
    exists w'. split; [exact Hrun|]. split; [auto|].
    intros Hle. apply Qle_alt in Hle. contradiction.
Qed.

Lemma count_binary_threshold_rule_witness :
  exists w',
    count_binary_wrapper fastapi_app "m_pos" "m_neg" (PStr "score") (PStr "cut")
      (const_handler (RValue (PDict [("score", PInt 1); ("cut", PInt 1)]))) [] [] idle
    = (Ok (RValue (PDict [("score", PInt 1); ("cut", PInt 1)])), w')
    /\ ((1 < 1)%Q -> incremented_exactly "m_pos" idle w')
    /\ ((1 <= 1)%Q -> incremented_exactly "m_neg" idle w').
Proof.
  refine (count_binary_threshold_rule fastapi_app "m" (PStr "score") (PStr "cut")
            _ idle _ (const_handler (RValue (PDict [("score", PInt 1); ("cut", PInt 1)])))
            [] [] idle _ idle (PDict [("score", PInt 1); ("cut", PInt 1)])
            (PInt 1) 1%Q (PInt 1) 1%Q _ _ _ _ _ _ _);
    reflexivity.
Defined.

(** ** The feedback policy *)

Section Feedback.

Variable self : Instrumentation.
Variables (id : string) (feedback_key threshold_key : pyval).
Variables (dec : handler -> handler) (w0 w0' : world).
Hypothesis produced_dec :
  count_false_binary_feedback self id feedback_key threshold_key w0 = (Ok dec, w0').

Variables (func : handler) (args : list pyval) (kwargs : list (string * pyval)).
Variables (w w1 : world) (resp_obj : response) (r : flask.Request) (view : pyval).
Hypothesis handler_returns : func args kwargs w = (Ok resp_obj, w1).
Hypothesis request_bound : request w1 = Some r.
Hypothesis request_view : transform_request self r kwargs = Ok view.

Lemma feedback_run (feedback threshold : pyval) :
  search_json feedback_key view = Ok feedback ->
  resolve_threshold threshold_key view = Ok threshold ->
  dec func args kwargs w
  = bindM (liftM (py_getattr feedback "correctness"))
      (fun correctness =>
         wrong <- liftM (py_lt correctness (PInt 0)) ;;
         (if wrong : bool then
            corrected_value <- liftM (py_getattr feedback "corrected_value") ;;
            above <- liftM (py_gt corrected_value threshold) ;;
            if above : bool then Counter_inc (id +:+ "_fn")
            else Counter_inc (id +:+ "_fp")
          else retM tt) ;;
         retM resp_obj) w1.
Proof.
  intros Hfeedback Hthr.
  pose proof (two_counters_inv _ _
                (fun fp fn => count_false_binary_feedback_wrapper self fp fn
                                feedback_key threshold_key)
                _ _ _ produced_dec) as ->.
  unfold count_false_binary_feedback_wrapper.
  rewrite (bindM_ok _ _ _ _ _ handler_returns).
  rewrite (bindM_ok global_request _ w1 r w1)
    by (unfold global_request; now rewrite request_bound).
  rewrite (bindM_lift_ok _ _ _ _ request_view).
  rewrite (bindM_lift_ok _ _ _ _ Hfeedback).
  now rewrite (bindM_lift_ok _ _ _ _ Hthr).
Qed.

(** X11. The feedback policy reads attributes of what it finds under the
    feedback key.  When the key is absent, or what is found is no object
    with attributes (a dict or a string, as JSON bodies and query
    parameters deliver), the call raises [AttributeError] after the handler
    has returned, and no counter moves. *)
Theorem feedback_without_attributes_raises (feedback : pyval) :
  search_json feedback_key view = Ok feedback ->
  (forall oid attrs, feedback <> PObj oid attrs) ->
  dec func args kwargs w = (Raise AttributeError, w1).
Proof.
  intros Hfeedback Hplain.
  destruct (resolve_threshold_total threshold_key view) as [threshold Hthr].
  rewrite (feedback_run feedback threshold Hfeedback Hthr).
  apply bindM_lift_raise.
  destruct feedback; try reflexivity. now destruct (Hplain oid attrs).
Qed.

(** X12. The feedback policy on a feedback object with a numeric
    [correctness]: when it is negative, a numeric [corrected_value] above
    the threshold increments exactly the false-negative counter and any
    other numeric [corrected_value] exactly the false-positive counter;
    when it is zero or positive no counter moves and [corrected_value] is
    not read. *)
Theorem feedback_counts (oid : nat) (attrs : list (string * pyval))
    (c threshold : pyval) (qc t : Q) :
  search_json feedback_key view = Ok (PObj oid attrs) ->
  resolve_threshold threshold_key view = Ok threshold -> as_number threshold = Some t ->
  dict_get "correctness" attrs = Some c -> as_number c = Some qc ->
  ((qc < 0)%Q ->
   forall cv qv,
     dict_get "corrected_value" attrs = Some cv -> as_number cv = Some qv ->
     exists w',
       dec func args kwargs w = (Ok resp_obj, w')
       /\ ((t < qv)%Q -> incremented_exactly (id +:+ "_fn") w1 w')
       /\ ((qv <= t)%Q -> incremented_exactly (id +:+ "_fp") w1 w'))
  /\ ((0 <= qc)%Q -> dec func args kwargs w = (Ok resp_obj, w1)).
Proof.
  intros Hfeedback Hthr Ht Hc Hqc.
  rewrite (feedback_run _ _ Hfeedback Hthr).
  assert (Hattr : py_getattr (PObj oid attrs) "correctness" = Ok c).
  { simpl. now rewrite Hc. }
  rewrite (bindM_lift_ok _ _ _ _ Hattr).
  rewrite (bindM_lift_ok _ _ _ _ (py_lt_numbers c (PInt 0) qc 0 Hqc eq_refl)).
  split.
  - intros Hneg cv qv Hcv Hqv.
    rewrite (proj1 (Qlt_alt qc 0) Hneg).
    assert (Hattr' : py_getattr (PObj oid attrs) "corrected_value" = Ok cv).
    { simpl. now rewrite Hcv. }
    unfold bindM at 1. unfold bindM at 1. rewrite Hattr'. unfold liftM at 1.
    unfold bindM at 1. rewrite (py_gt_numbers _ _ _ _ Hqv Ht). unfold liftM at 1.
    destruct (qv ?= t)%Q eqn:Ecmp.
    + destruct (inc_then_return (id +:+ "_fp") resp_obj w1) as (w' & Hrun & Hex).
      exists w'. split; [exact Hrun|]. split; [|auto].
      intros Hlt. apply Qgt_alt in Hlt. congruence.
    + destruct (inc_then_return (id +:+ "_fp") resp_obj w1) as (w' & Hrun & Hex).
      exists w'. split; [exact Hrun|]. split; [|auto].
      intros Hlt. apply Qgt_alt in Hlt. congruence.
    + destruct (inc_then_return (id +:+ "_fn") resp_obj w1) as (w' & Hrun & Hex).
      exists w'. split; [exact Hrun|]. split; [auto|].
      intros Hle. apply Qle_alt in Hle. contradiction.
  - intros Hpos. apply Qle_alt in Hpos.
    destruct (qc ?= 0)%Q eqn:Ecmp; try reflexivity.
    apply Qlt_alt in Ecmp. apply Qgt_alt in Ecmp. contradiction.
Qed.

End Feedback.

Lemma feedback_without_attributes_raises_witness :
  count_false_binary_feedback_wrapper fastapi_app "m_fp" "m_fn" (PStr "fb") PNone
    (const_handler (RValue PNone)) []
    [("fb", PDict [("correctness", PInt (-1)); ("corrected_value", PInt 1)])] idle
  = (Raise AttributeError, idle).
Proof.
  refine (feedback_without_attributes_raises fastapi_app "m" (PStr "fb") PNone
            _ idle _ _ (const_handler (RValue PNone)) []
            [("fb", PDict [("correctness", PInt (-1)); ("corrected_value", PInt 1)])]
            idle idle (RValue PNone)
            {| flask.method := "GET"; flask.args := []; flask.form := [] |}
            (PDict [("fb", PDict [("correctness", PInt (-1));
                                  ("corrected_value", PInt 1)])])
            _ _ _
            (PDict [("correctness", PInt (-1)); ("corrected_value", PInt 1)]) _ _);
    try reflexivity.
  intros oid attrs. discriminate.
Defined.

Lemma feedback_counts_witness :
  exists w',
    count_false_binary_feedback_wrapper fastapi_app "m_fp" "m_fn" (PStr "fb") PNone
      (const_handler (RValue PNone)) []
      [("fb", PObj 1 [("correctness", PInt (-1)); ("corrected_value", PInt 1)])] idle
    = (Ok (RValue PNone), w')
    /\ ((1 # 2 < 1)%Q -> incremented_exactly "m_fn" idle w')
    /\ ((1 <= 1 # 2)%Q -> incremented_exactly "m_fp" idle w').
Proof.
  refine (proj1 (feedback_counts fastapi_app "m" (PStr "fb") PNone
                   _ idle _ _ (const_handler (RValue PNone)) []
                   [("fb", PObj 1 [("correctness", PInt (-1));
                                   ("corrected_value", PInt 1)])]
                   idle idle (RValue PNone)
                   {| flask.method := "GET"; flask.args := []; flask.form := [] |}
                   (PDict [("fb", PObj 1 [("correctness", PInt (-1));
                                          ("corrected_value", PInt 1)])])
                   _ _ _
                   1%nat [("correctness", PInt (-1)); ("corrected_value", PInt 1)]
                   (PInt (-1)) (PFloat (1 # 2)) (-1)%Q (1 # 2)%Q _ _ _ _ _)
                _ (PInt 1) 1%Q _ _);
    reflexivity.
Defined.

(** ** What a call that returns has recorded *)

Section LoopRecords.

Variables (body : string -> M unit) (val : string -> option pyval).
Variables (amount : pyval -> res Q) (name : string -> string).
Variable holds : string -> Q -> world -> Prop.
Variable dom : string -> Prop.
Hypothesis body_sets :
  forall k v w w', dom k -> body k w = (Ok tt, w') -> val k = Some v ->
                   exists x, amount v = Ok x /\ holds (name k) x w'.
Hypothesis body_other :
  forall k k' x w w', dom k -> dom k' -> k' <> k -> body k' w = (Ok tt, w') ->
                      holds (name k) x w -> holds (name k) x w'.

Lemma for_each_keeps_record (k : string) (v : pyval) (x : Q) (keys : list string) :
  dom k -> (forall k', In k' keys -> dom k') ->
  val k = Some v -> amount v = Ok x ->
  forall w w', for_each body keys w = (Ok tt, w') ->
               holds (name k) x w -> holds (name k) x w'.
Proof.
  intros Hk Hdom Hval Hx. induction keys as [|k' keys IH]; intros w w'; simpl.
  - now intros [= <-].
  - unfold bindM. destruct (body k' w) as [[[]|e] w2] eqn:Hb; [|discriminate].
    intros Hrest Hholds.
    apply (IH (fun k0 Hk0 => Hdom k0 (or_intror Hk0)) _ _ Hrest).
    destruct (String.eqb k' k) eqn:E.
    + apply String.eqb_eq in E. subst k'.
      destruct (body_sets _ _ _ _ Hk Hb Hval) as (x' & Hx' & Hh).
      congruence.
    + apply String.eqb_neq in E.
      apply (body_other k k' x w w2 Hk (Hdom k' (or_introl eq_refl)) E Hb Hholds).
Qed.

Lemma for_each_records (keys : list string) :
  (forall k', In k' keys -> dom k') ->
  forall w w', for_each body keys w = (Ok tt, w') ->
  forall k v, In k keys -> val k = Some v ->
              exists x, amount v = Ok x /\ holds (name k) x w'.
Proof.
  induction keys as [|k' keys IH]; intros Hdom w w' Hrun k v Hin Hval; [contradiction|].
  simpl in Hrun. unfold bindM in Hrun.
  destruct (body k' w) as [[[]|e] w2] eqn:Hb; [|discriminate].
  assert (Hdom' : forall k0, In k0 keys -> dom k0) by (intros; apply Hdom; simpl; auto).
  destruct (String.eqb k' k) eqn:E.
  - apply String.eqb_eq in E. subst k'.
    assert (Hk : dom k) by (apply Hdom; simpl; auto).
    destruct (body_sets _ _ _ _ Hk Hb Hval) as (x & Hx & Hh).
    exists x. split; [exact Hx|].
    exact (for_each_keeps_record k v x keys Hk Hdom' Hval Hx _ _ Hrun Hh).
  - apply String.eqb_neq in E. destruct Hin as [->|Hin]; [contradiction|].
    exact (IH Hdom' _ _ Hrun k v Hin Hval).
Qed.

End LoopRecords.

Lemma Gauge_set_ok `{Runtime} (g : string) (v : pyval) (w w' : world) :
  Gauge_set g v w = (Ok tt, w') ->
  exists x, gauge_float v = Ok x /\ gauges w' !! g = Some x
            /\ forall n, n <> g -> gauges w' !! n = gauges w !! n.
Proof.
  unfold Gauge_set. destruct (gauge_float v) as [x|e]; [|discriminate].
  intros [= <-]. exists x. simpl. split; [reflexivity|].
  split; [apply lookup_insert_eq|]. intros n Hn. now apply lookup_insert_ne.
Qed.

Lemma Histogram_observe_ok `{Runtime} (h : string) (v : pyval) (w w' : world) :
  Histogram_observe h v w = (Ok tt, w') ->
  exists x, observe_amount v = Ok x
            /\ (exists b obs, hists w' !! h = Some (b, obs ++ [x]))
            /\ forall n, n <> h -> hists w' !! n = hists w !! n.
Proof.
  unfold Histogram_observe. destruct (observe_amount v) as [x|e]; [|discriminate].
  intros [= <-]. exists x. simpl. split; [reflexivity|]. split.
  - eexists _, _. apply lookup_insert_eq.
  - intros n Hn. now apply lookup_insert_ne.
Qed.

Lemma loop_then_return_ok (loop : M unit) (resp_obj r : response) (w w' : world) :
  bindM loop (fun _ => retM resp_obj) w = (Ok r, w') -> loop w = (Ok tt, w').
Proof.
  unfold bindM, retM. destruct (loop w) as [[[]|e] w2]; [|discriminate].
  now intros [= _ <-].
Qed.

Section Records.

Variables (update : string -> pyval -> M unit) (amount : pyval -> res Q).
Variable holds : string -> Q -> world -> Prop.
Hypothesis update_ok :
  forall m v w w', update m v w = (Ok tt, w') ->
                   exists x, amount v = Ok x /\ holds m x w'.
Hypothesis update_other :
  forall m n x v w w', n <> m -> update m v w = (Ok tt, w') ->
                       holds n x w -> holds n x w'.

Variables (metrics : list (string * string)) (id : string) (keys : list string).
Hypothesis closure :
  forall k, In k keys -> dict_get k metrics = Some (id +:+ "_" +:+ k).

(** The loop of an output policy with one metric per key records every
    value it finds. *)
Lemma output_loop_records (view : pyval) (w w' : world) :
  for_each (fun key =>
              value <- liftM (search_json (PStr key) view) ;;
              if negb (is_none value) then
                m <- closure_get key metrics ;;
                update m value
              else retM tt)
           keys w = (Ok tt, w') ->
  forall key v, In key keys -> search_json (PStr key) view = Ok v ->
                is_none v = false ->
                exists x, amount v = Ok x /\ holds (id +:+ "_" +:+ key) x w'.
Proof.
  intros Hrun key v Hin Hv Hnn.
  refine (for_each_records _
            (fun k => match search_json (PStr k) view with
                      | Ok v0 => if is_none v0 then None else Some v0
                      | Raise _ => None
                      end)
            amount (fun k => id +:+ "_" +:+ k) holds (fun k => In k keys)
            _ _ keys (fun k Hk => Hk) w w' Hrun key v Hin _).
  - intros k v0 w2 w3 Hk. destruct (search_json (PStr k) view) as [v1|e] eqn:Hv1.
    + rewrite (bindM_lift_ok _ _ _ _ eq_refl).
      destruct (is_none v1); simpl; [discriminate|].
      unfold closure_get. rewrite (closure k Hk), (bindM_lift_ok _ _ _ _ eq_refl).
      intros Hu [= <-]. eauto.
    + discriminate.
  - intros k k' x w2 w3 Hk Hk' Hne.
    destruct (search_json_total (PStr k') view) as [v1 Hv1].
    rewrite (bindM_lift_ok _ _ _ _ Hv1).
    destruct (is_none v1); simpl; [now intros [= <-]|].
    unfold closure_get. rewrite (closure k' Hk'), (bindM_lift_ok _ _ _ _ eq_refl).
    apply update_other. intros E. apply name_inj in E. congruence.
  - now rewrite Hv, Hnn.
Qed.

(** The loop of a feature policy records the field of every feature key. *)
Lemma feature_loop_records (view : pyval) (w w' : world) :
  for_each (fun feature =>
              m <- closure_get feature metrics ;;
              x <- liftM (py_getitem view (PStr feature)) ;;
              update m x)
           keys w = (Ok tt, w') ->
  forall feature, In feature keys ->
    exists v x, py_getitem view (PStr feature) = Ok v
                /\ amount v = Ok x /\ holds (id +:+ "_" +:+ feature) x w'.
Proof.
  intros Hrun feature Hin.
  destruct (py_getitem view (PStr feature)) as [v|e] eqn:Hget.
  - set (body := fun f : string =>
                   m <- closure_get f metrics ;;
                   x <- liftM (py_getitem view (PStr f)) ;;
                   update m x) in *.
    set (val := fun k => match py_getitem view (PStr k) with
                         | Ok v0 => Some v0
                         | Raise _ => None
                         end).
    assert (Hsets : forall k v0 w2 w3, In k keys -> body k w2 = (Ok tt, w3) ->
                      val k = Some v0 ->
                      exists x, amount v0 = Ok x /\ holds (id +:+ "_" +:+ k) x w3).
    { intros k v0 w2 w3 Hk. unfold body, val, closure_get.
      rewrite (closure k Hk), (bindM_lift_ok _ _ _ _ eq_refl).
      destruct (py_getitem view (PStr k)) as [v1|e]; [|discriminate].
      rewrite (bindM_lift_ok _ _ _ _ eq_refl). intros Hu [= <-]. eauto. }
    assert (Hother : forall k k' x w2 w3, In k keys -> In k' keys -> k' <> k ->
                       body k' w2 = (Ok tt, w3) ->
                       holds (id +:+ "_" +:+ k) x w2 -> holds (id +:+ "_" +:+ k) x w3).
    { intros k k' x w2 w3 Hk Hk' Hne. unfold body, closure_get.
      rewrite (closure k' Hk'), (bindM_lift_ok _ _ _ _ eq_refl).
      destruct (py_getitem view (PStr k')) as [v1|e]; [|discriminate].
      rewrite (bindM_lift_ok _ _ _ _ eq_refl).
      apply update_other. intros E. apply name_inj in E. congruence. }
    destruct (for_each_records body val amount (fun k => id +:+ "_" +:+ k) holds
                (fun k => In k keys) Hsets Hother keys (fun k Hk => Hk)
                w w' Hrun feature v Hin) as (x & Hx & Hh).
    + unfold val. now rewrite Hget.
    + eauto.
  - exfalso. clear update_ok update_other.
    induction keys as [|k keys' IH] in w, Hrun, Hin, closure |- *; [contradiction|].
    simpl in Hrun. unfold bindM at 1 in Hrun. unfold closure_get, liftM in Hrun.
    rewrite (closure k (or_introl eq_refl)) in Hrun.
    destruct Hin as [->|Hin].
    + unfold bindM in Hrun. rewrite Hget in Hrun. discriminate.
    + unfold bindM in Hrun.
      destruct (py_getitem view (PStr k)); [|discriminate].
      destruct (update _ _ w) as [[[]|e'] w2]; [|discriminate].
      apply (IH (fun k0 Hk0 => closure k0 (or_intror Hk0)) w2 Hrun Hin).
Qed.

End Records.

Lemma gauge_holds_other `{Runtime} (m n : string) (x : Q) (v : pyval) (w w' : world) :
  n <> m -> Gauge_set m v w = (Ok tt, w') ->
  gauges w !! n = Some x -> gauges w' !! n = Some x.
Proof.
  intros Hne Hset Hn. apply Gauge_set_ok in Hset as (_ & _ & _ & Hother).
  now rewrite Hother.
Qed.

Lemma gauge_holds_set `{Runtime} (m : string) (v : pyval) (w w' : world) :
  Gauge_set m v w = (Ok tt, w') ->
  exists x, gauge_float v = Ok x /\ gauges w' !! m = Some x.
Proof. intros Hset. apply Gauge_set_ok in Hset as (x & Hx & Hm & _). eauto. Qed.

Lemma hist_holds_other `{Runtime} (m n : string) (x : Q) (v : pyval) (w w' : world) :
  n <> m -> Histogram_observe m v w = (Ok tt, w') ->
  (exists b obs, hists w !! n = Some (b, obs ++ [x])) ->
  exists b obs, hists w' !! n = Some (b, obs ++ [x]).
Proof.
  intros Hne Hset Hn. apply Histogram_observe_ok in Hset as (_ & _ & _ & Hother).
  now rewrite Hother.
Qed.

Lemma hist_holds_set `{Runtime} (m : string) (v : pyval) (w w' : world) :
  Histogram_observe m v w = (Ok tt, w') ->
  exists x, observe_amount v = Ok x
            /\ exists b obs, hists w' !! m = Some (b, obs ++ [x]).
Proof.
  intros Hset. apply Histogram_observe_ok in Hset as (x & Hx & Hm & _). eauto.
Qed.

(** X13. After a call of an output decorator that returns, every key
    whose value was found in the response view has been recorded: the
    gauge of [gauge_output] for that key holds the number the value stands
    for, and the histogram of [hist_output] and of [hist_output_specific]
    has it as its last observation. *)
Theorem output_call_records `{Runtime} (self : Instrumentation) (func : handler)
    args kwargs w resp_obj w1 view result w' :
  func args kwargs w = (Ok resp_obj, w1) ->
  transform_response self resp_obj = Ok view ->
  (forall id value_keys dec w0 w0',
      gauge_output self id value_keys w0 = (Ok dec, w0') ->
      dec func args kwargs w = (Ok result, w') ->
      forall key v, In key value_keys ->
        search_json (PStr key) view = Ok v -> is_none v = false ->
        exists x, gauge_float v = Ok x /\ gauges w' !! (id +:+ "_" +:+ key) = Some x)
  /\ (forall id buckets value_keys dec w0 w0',
         hist_output self id buckets value_keys w0 = (Ok dec, w0') ->
         dec func args kwargs w = (Ok result, w') ->
         forall key v, In key value_keys ->
           search_json (PStr key) view = Ok v -> is_none v = false ->
           exists x, observe_amount v = Ok x
                     /\ exists b obs, hists w' !! (id +:+ "_" +:+ key) = Some (b, obs ++ [x]))
  /\ (forall id buckets dec w0 w0',
         hist_output_specific self id buckets w0 = (Ok dec, w0') ->
         dec func args kwargs w = (Ok result, w') ->
         forall key v, In key (map fst buckets) ->
           search_json (PStr key) view = Ok v -> is_none v = false ->
           exists x, observe_amount v = Ok x
                     /\ exists b obs, hists w' !! (id +:+ "_" +:+ key) = Some (b, obs ++ [x])).
Proof.
  intros Hfunc Hview. split; [|split].
  - intros id keys dec w0 w0' Hdec.
    apply keyed_closure with (id := id) in Hdec as (gs & -> & Hclosure);
      [|intros x w2 m w2' Hc; now apply Gauge_ok in Hc].
    unfold gauge_output_wrapper.
    rewrite (bindM_ok _ _ _ _ _ Hfunc), (bindM_lift_ok _ _ _ _ Hview).
    intros Hrun. apply loop_then_return_ok in Hrun.
    exact (output_loop_records Gauge_set gauge_float
             (fun n x w2 => gauges w2 !! n = Some x)
             gauge_holds_set gauge_holds_other gs id keys Hclosure view w1 w' Hrun).
  - intros id buckets keys dec w0 w0' Hdec.
    apply keyed_closure with (id := id) in Hdec as (hs & -> & Hclosure);
      [|intros x w2 m w2' Hc; now apply Histogram_ok in Hc].
    unfold hist_output_wrapper.
    rewrite (bindM_ok _ _ _ _ _ Hfunc), (bindM_lift_ok _ _ _ _ Hview).
    intros Hrun. apply loop_then_return_ok in Hrun.
    exact (output_loop_records Histogram_observe observe_amount
             (fun n x w2 => exists b obs, hists w2 !! n = Some (b, obs ++ [x]))
             hist_holds_set hist_holds_other hs id keys Hclosure view w1 w' Hrun).
  - intros id buckets dec w0 w0' Hdec.
    apply keyed_closure with (id := id) in Hdec as (hs & -> & Hclosure);
      [|intros x w2 m w2'; apply specific_histogram_name].
    unfold hist_output_wrapper.
    rewrite (bindM_ok _ _ _ _ _ Hfunc), (bindM_lift_ok _ _ _ _ Hview).
    intros Hrun. apply loop_then_return_ok in Hrun.
    exact (output_loop_records Histogram_observe observe_amount
             (fun n x w2 => exists b obs, hists w2 !! n = Some (b, obs ++ [x]))
             hist_holds_set hist_holds_other hs id _ Hclosure view w1 w' Hrun).
Qed.

Lemma output_call_records_witness :
  exists x,
    @gauge_float example_runtime (PInt 3) = Ok x
    /\ gauges
         (snd (@gauge_output_wrapper example_runtime fastapi_app
                 [("a", "m_a"); ("b", "m_b")] ["a"; "b"]
                 (const_handler (RValue (PDict [("b", PInt 3)]))) [] [] idle))
       !! "m_b" = Some x.
Proof.
  refine (proj1 (@output_call_records example_runtime fastapi_app
                   (const_handler (RValue (PDict [("b", PInt 3)]))) [] [] idle
                   _ idle (PDict [("b", PInt 3)]) (RValue (PDict [("b", PInt 3)])) _ _ _)
                "m" ["a"; "b"] _ idle _ _ _ "b" (PInt 3) _ _ _);
    try reflexivity.
  simpl. auto.
Defined.

(** X14. After a call of a feature decorator that returns, every feature
    key is a top-level key of the request view and its field has been
    recorded: the gauge of [gauge_feature] holds the number the field
    stands for, and the histogram of [hist_feature] has it as its last
    observation. *)
Theorem feature_call_records `{Runtime} (self : Instrumentation) (func : handler)
    args kwargs w resp_obj w1 r view result w' :
  func args kwargs w = (Ok resp_obj, w1) ->
  request w1 = Some r ->
  transform_request self r kwargs = Ok view ->
  (forall id feature_keys dec w0 w0',
      gauge_feature self id feature_keys w0 = (Ok dec, w0') ->
      dec func args kwargs w = (Ok result, w') ->
      forall feature, In feature feature_keys ->
        exists v x, py_getitem view (PStr feature) = Ok v
                    /\ gauge_float v = Ok x
                    /\ gauges w' !! (id +:+ "_" +:+ feature) = Some x)
  /\ (forall id buckets feature_keys dec w0 w0',
         hist_feature self id buckets feature_keys w0 = (Ok dec, w0') ->
         dec func args kwargs w = (Ok result, w') ->
         forall feature, In feature feature_keys ->
           exists v x, py_getitem view (PStr feature) = Ok v
                       /\ observe_amount v = Ok x
                       /\ exists b obs,
                           hists w' !! (id +:+ "_" +:+ feature) = Some (b, obs ++ [x])).
Proof.
  intros Hfunc Hreq Hview.
  assert (Hglobal : global_request w1 = (Ok r, w1)).
  { unfold global_request. now rewrite Hreq. }
  split.
  - intros id keys dec w0 w0' Hdec.
    apply keyed_closure with (id := id) in Hdec as (gs & -> & Hclosure);
      [|intros x w2 m w2' Hc; now apply Gauge_ok in Hc].
    unfold gauge_feature_wrapper.
    rewrite (bindM_ok _ _ _ _ _ Hfunc), (bindM_ok _ _ _ _ _ Hglobal).
    rewrite (bindM_lift_ok _ _ _ _ Hview).
    intros Hrun. apply loop_then_return_ok in Hrun.
    exact (feature_loop_records Gauge_set gauge_float
             (fun n x w2 => gauges w2 !! n = Some x)
             gauge_holds_set gauge_holds_other gs id keys Hclosure view w1 w' Hrun).
  - intros id buckets keys dec w0 w0' Hdec.
    apply keyed_closure with (id := id) in Hdec as (hs & -> & Hclosure);
      [|intros x w2 m w2' Hc; now apply Histogram_ok in Hc].
    unfold hist_feature_wrapper.
    rewrite (bindM_ok _ _ _ _ _ Hfunc), (bindM_ok _ _ _ _ _ Hglobal).
    rewrite (bindM_lift_ok _ _ _ _ Hview).
    intros Hrun. apply loop_then_return_ok in Hrun.
    exact (feature_loop_records Histogram_observe observe_amount
             (fun n x w2 => exists b obs, hists w2 !! n = Some (b, obs ++ [x]))
             hist_holds_set hist_holds_other hs id keys Hclosure view w1 w' Hrun).
Qed.

Lemma feature_call_records_witness :
  exists v x,
    py_getitem (PDict [("f", PInt 4)]) (PStr "f") = Ok v
    /\ @gauge_float example_runtime v = Ok x
    /\ gauges
         (snd (@gauge_feature_wrapper example_runtime fastapi_app [("f", "m_f")] ["f"]
                 (const_handler (RValue PNone)) [] [("f", PInt 4)] idle))
       !! "m_f" = Some x.
Proof.
  refine (proj1 (@feature_call_records example_runtime fastapi_app
                   (const_handler (RValue PNone)) [] [("f", PInt 4)] idle
                   _ idle {| flask.method := "GET"; flask.args := []; flask.form := [] |}
                   (PDict [("f", PInt 4)]) (RValue PNone) _ _ _ _)
                "m" ["f"] _ idle _ _ _ "f" _);
    try reflexivity.
  simpl. auto.
Defined.

(** ** The classes of count_classes count independently *)

Section Classes.

Variables (counters_of : list (string * string)) (id : string) (view threshold : pyval).
Variable t : Q.
Hypothesis threshold_number : as_number threshold = Some t.

Lemma class_step (cls : string) (w : world) :
  dict_get cls counters_of = Some (id +:+ "_" +:+ cls) ->
  (forall v, search_json (PStr cls) view = Ok v ->
             is_none v = true \/ exists q, as_number v = Some q) ->
  bindM (liftM (search_json (PStr cls) view))
        (fun value =>
           if negb (is_none value) then
             above <- liftM (py_gt value threshold) ;;
             if above : bool then
               c <- closure_get cls counters_of ;;
               Counter_inc c
             else retM tt
           else retM tt) w
  = if class_fires view t cls then Counter_inc (id +:+ "_" +:+ cls) w else (Ok tt, w).
Proof.
  intros Hc Hnum. unfold class_fires.
  destruct (search_json_total (PStr cls) view) as [v Hv].
  rewrite (bindM_lift_ok _ _ _ _ Hv), Hv.
  destruct (Hnum v Hv) as [Hn|[q Hq]].
  - rewrite Hn. destruct v; try discriminate. reflexivity.
  - rewrite (number_not_none _ _ Hq), Hq. cbn [negb].
    rewrite (bindM_lift_ok _ _ _ _ (py_gt_numbers _ _ _ _ Hq threshold_number)).
    destruct (q ?= t)%Q; try reflexivity.
    unfold closure_get. now rewrite Hc, (bindM_lift_ok _ _ _ _ eq_refl).
Qed.

Lemma classes_loop_counts (names : list string) :
  List.NoDup names ->
  (forall cls, In cls names -> dict_get cls counters_of = Some (id +:+ "_" +:+ cls)) ->
  (forall cls v, In cls names -> search_json (PStr cls) view = Ok v ->
                 is_none v = true \/ exists q, as_number v = Some q) ->
  forall w,
  exists w',
    for_each (fun cls =>
                value <- liftM (search_json (PStr cls) view) ;;
                if negb (is_none value) then
                  above <- liftM (py_gt value threshold) ;;
                  if above : bool then
                    c <- closure_get cls counters_of ;;
                    Counter_inc c
                  else retM tt
                else retM tt)
             names w = (Ok tt, w')
    /\ (forall cls, In cls names ->
          counter_value w' (id +:+ "_" +:+ cls)
          = (counter_value w (id +:+ "_" +:+ cls)
             + if class_fires view t cls then 1 else 0)%nat)
    /\ (forall n, (forall cls, In cls names -> n <> id +:+ "_" +:+ cls) ->
          counters w' !! n = counters w !! n)
    /\ gauges w' = gauges w /\ hists w' = hists w.
Proof.
  intros Hnd. induction Hnd as [|c0 names Hfresh Hnd IH]; intros Hclosure Hnum w.
  - exists w. simpl. repeat split; auto. intros cls [].
  - simpl.
    rewrite (bindM_ok _ _ w tt
               (if class_fires view t c0
                then snd (Counter_inc (id +:+ "_" +:+ c0) w) else w)).
    2:{ rewrite class_step; [destruct (class_fires view t c0); reflexivity| |].
        - apply Hclosure. simpl. auto.
        - intros v. apply Hnum. simpl. auto. }
    set (w2 := if class_fires view t c0
               then snd (Counter_inc (id +:+ "_" +:+ c0) w) else w).
    destruct (IH (fun cls Hc => Hclosure cls (or_intror Hc))
                 (fun cls v Hc => Hnum cls v (or_intror Hc)) w2)
      as (w' & Hrun & Hcount & Hother & Hg & Hh).
    assert (Hstep : counter_value w2 (id +:+ "_" +:+ c0)
                    = (counter_value w (id +:+ "_" +:+ c0)
                       + if class_fires view t c0 then 1 else 0)%nat
                    /\ (forall n, n <> id +:+ "_" +:+ c0 ->
                                  counters w2 !! n = counters w !! n)
                    /\ gauges w2 = gauges w /\ hists w2 = hists w).
    { unfold w2. destruct (class_fires view t c0).
      - unfold counter_value. simpl. rewrite lookup_insert_eq. simpl.
        repeat split; [unfold counter_value; lia|].
        intros n Hn. now rewrite lookup_insert_ne.
      - repeat split; auto. }
    destruct Hstep as (Hc0 & Hrest & Hg2 & Hh2).
    exists w'. split; [exact Hrun|]. split; [|split; [|split; congruence]].
    + intros cls [<-|Hin].
      * unfold counter_value at 1. rewrite Hother; [exact Hc0|].
        intros cls Hcls E. apply name_inj in E. congruence.
      * rewrite (Hcount cls Hin). unfold counter_value at 1.
        rewrite Hrest; [reflexivity|].
        intros E. apply name_inj in E. congruence.
    + intros n Hn. rewrite Hother by (intros; apply Hn; simpl; auto).
      apply Hrest. apply Hn. simpl. auto.
Qed.

End Classes.

(** X15. The classes of [count_classes] count independently of each
    other.  With a numeric threshold and class names whose found values
    are numbers, the call returns the handler's result, the counter of
    every class whose value is found strictly above the threshold has gone
    up by one (several in one call, if several are above), the counter of
    every other class is as before, and no other metric has changed.  The
    names searched for are the names of the classes, not the values given
    with them to the factory. *)
Theorem count_classes_counts_each (self : Instrumentation) (id : string)
    (threshold_key : pyval) (class_keys : list (string * pyval))
    (dec : handler -> handler) w0 w0' (func : handler) args kwargs w resp_obj w1
    view threshold t :
  count_classes self id threshold_key class_keys w0 = (Ok dec, w0') ->
  List.NoDup (map fst class_keys) ->
  func args kwargs w = (Ok resp_obj, w1) ->
  transform_response self resp_obj = Ok view ->
  resolve_threshold threshold_key view = Ok threshold -> as_number threshold = Some t ->
  (forall cls v, In cls (map fst class_keys) -> search_json (PStr cls) view = Ok v ->
                 is_none v = true \/ exists q, as_number v = Some q) ->
  exists w',
    dec func args kwargs w = (Ok resp_obj, w')
    /\ (forall cls, In cls (map fst class_keys) ->
          counter_value w' (id +:+ "_" +:+ cls)
          = (counter_value w1 (id +:+ "_" +:+ cls)
             + if class_fires view t cls then 1 else 0)%nat)
    /\ (forall n, (forall cls, In cls (map fst class_keys) -> n <> id +:+ "_" +:+ cls) ->
          counters w' !! n = counters w1 !! n)
    /\ gauges w' = gauges w1 /\ hists w' = hists w1.
Proof.
  intros Hdec Hnd Hfunc Hview Hthr Ht Hnum.
  apply keyed_closure with (id := id) in Hdec as (cs & -> & Hclosure);
    [|intros x w2 m w2' Hc; now apply Counter_ok in Hc].
  unfold count_classes_wrapper.
  rewrite (bindM_ok _ _ _ _ _ Hfunc), (bindM_lift_ok _ _ _ _ Hview).
  rewrite (bindM_lift_ok _ _ _ _ Hthr).
  destruct (classes_loop_counts cs id view threshold t Ht _ Hnd Hclosure Hnum w1)
    as (w' & Hrun & Hrest).
  exists w'. split; [|exact Hrest].
  now rewrite (bindM_ok _ _ _ _ _ Hrun).
Qed.

Lemma count_classes_counts_each_witness :
  exists w',
    count_classes_wrapper fastapi_app [("cat", "m_cat"); ("dog", "m_dog")] PNone
      [("cat", PStr "cat_score"); ("dog", PStr "dog_score")]
      (const_handler (RValue (PDict [("cat", PInt 1); ("dog", PInt 1);
                                     ("cat_score", PInt 0)]))) [] [] idle
    = (Ok (RValue (PDict [("cat", PInt 1); ("dog", PInt 1); ("cat_score", PInt 0)])), w')
    /\ (forall cls, In cls ["cat"; "dog"] ->
          counter_value w' ("m" +:+ "_" +:+ cls)
          = (counter_value idle ("m" +:+ "_" +:+ cls)
             + if class_fires (PDict [("cat", PInt 1); ("dog", PInt 1);
                                      ("cat_score", PInt 0)]) (1 # 2) cls
               then 1 else 0)%nat)
    /\ (forall n, (forall cls, In cls ["cat"; "dog"] -> n <> "m" +:+ "_" +:+ cls) ->
          counters w' !! n = counters idle !! n)
    /\ gauges w' = gauges idle /\ hists w' = hists idle.
Proof.
  refine (count_classes_counts_each fastapi_app "m" PNone
            [("cat", PStr "cat_score"); ("dog", PStr "dog_score")] _ idle _
            (const_handler (RValue (PDict [("cat", PInt 1); ("dog", PInt 1);
                                           ("cat_score", PInt 0)])))
            [] [] idle _ idle
            (PDict [("cat", PInt 1); ("dog", PInt 1); ("cat_score", PInt 0)])
            (PFloat (1 # 2)) (1 # 2) _ _ _ _ _ _ _);
    try reflexivity.
  - repeat constructor; simpl; intuition discriminate.
  - intros cls v [<-|[<-|[]]]; intros [= <-]; right; eexists; reflexivity.
Defined.

(** ** count_feature touches one counter at most *)

Lemma count_feature_loop_at_most_one `{Runtime} (id feature : string)
    (counters_of : list (string * string)) (view : pyval) (values : list pyval) :
  (forall val, In val values ->
     dict_get (feature +:+ "_" +:+ py_str val) counters_of
     = Some (counter_name id feature val)) ->
  forall w r w',
    count_feature_loop counters_of feature view values w = (r, w') ->
    w' = w
    \/ exists val, In val values /\ r = Ok tt
                   /\ incremented_exactly (counter_name id feature val) w w'.
Proof.
  intros Hclosure w r w'.
  induction values as [|val values IH]; simpl.
  - intros [= _ <-]. auto.
  - unfold bindM at 1. unfold liftM at 1.
    destruct (py_getitem view (PStr feature)) as [x|e].
    + destruct (py_eq x val).
      * unfold closure_get. rewrite (Hclosure val (or_introl eq_refl)).
        rewrite (bindM_lift_ok _ _ _ _ eq_refl).
        destruct (Counter_inc_exactly (counter_name id feature val) w) as (w2 & Hinc & Hex).
        rewrite Hinc. intros [= <- <-]. right. exists val. simpl. auto.
      * intros Hrest.
        destruct (IH (fun v Hv => Hclosure v (or_intror Hv)) Hrest)
          as [->|(v & Hv & Hr & Hex)]; [auto|].
        right. exists v. simpl. auto.
    + intros [= _ <-]. auto.
Qed.

(** X16. A call of the decorator of [count_feature] changes at most one
    counter, by one, and only a counter the factory created for one of the
    enumerated values; when the call raises after the handler has
    returned, nothing has changed. *)
Theorem count_feature_at_most_one `{Runtime} (self : Instrumentation)
    (id feature : string) (values : list pyval) (dec : handler -> handler)
    w0 w0' (func : handler) args kwargs w resp_obj w1 r w' :
  count_feature self id feature values w0 = (Ok dec, w0') ->
  func args kwargs w = (Ok resp_obj, w1) ->
  dec func args kwargs w = (r, w') ->
  w' = w1
  \/ exists val, In val values /\ r = Ok resp_obj
                 /\ incremented_exactly (counter_name id feature val) w1 w'.
Proof.
  intros Hdec Hfunc.
  apply count_feature_inv in Hdec as (counters_of & -> & Hclosure).
  unfold count_feature_wrapper. rewrite (bindM_ok _ _ _ _ _ Hfunc).
  unfold global_request, bindM at 1.
  destruct (request w1) as [req|]; [|intros [= _ <-]; auto].
  unfold bindM at 1. unfold liftM at 1.
  destruct (transform_request self req kwargs) as [view|e].
  - intros Hrun.
    apply loop_then_return in Hrun as (r0 & Hloop & Hok & _).
    destruct (count_feature_loop_at_most_one id feature counters_of view values
                Hclosure _ _ _ Hloop) as [->|(val & Hval & -> & Hex)]; [auto|].
    right. exists val. auto.
  - intros [= _ <-]. auto.
Qed.

Lemma count_feature_at_most_one_witness :
  snd (@count_feature_wrapper example_runtime fastapi_app
         [("f_1", "m_f_1"); ("f_2", "m_f_2")] "f" [PInt 1; PInt 2]
         (const_handler (RValue PNone)) [] [("g", PInt 2)] idle)
  = idle
  \/ exists val,
      In val [PInt 1; PInt 2]
      /\ fst (@count_feature_wrapper example_runtime fastapi_app
                [("f_1", "m_f_1"); ("f_2", "m_f_2")] "f" [PInt 1; PInt 2]
                (const_handler (RValue PNone)) [] [("g", PInt 2)] idle)
         = Ok (RValue PNone)
      /\ incremented_exactly (@counter_name example_runtime "m" "f" val) idle
           (snd (@count_feature_wrapper example_runtime fastapi_app
                   [("f_1", "m_f_1"); ("f_2", "m_f_2")] "f" [PInt 1; PInt 2]
                   (const_handler (RValue PNone)) [] [("g", PInt 2)] idle)).
Proof.
  refine (@count_feature_at_most_one example_runtime fastapi_app "m" "f"
            [PInt 1; PInt 2] _ idle _ (const_handler (RValue PNone)) []
            [("g", PInt 2)] idle (RValue PNone) idle _ _ _ _ _).
  - reflexivity.
  - reflexivity.
  - apply surjective_pairing.
Defined.
